(** * lit_agent.identifiers.api: the identifier extraction pipeline

    A shallow embedding of [src/lit_agent/identifiers/api.py] and the
    properties of its three entry points:
    [extract_identifiers_from_bibliography], [extract_identifiers_from_url]
    and [validate_identifier].

    The module calls four collaborators whose classes live elsewhere in the
    package ([JournalURLExtractor], [WebScrapingExtractor], [PDFExtractor],
    [CompositeValidator]).  They do network and file I/O, so they are taken
    as arbitrary effectful operations over an abstract [World]; each call may
    return a value or raise, and every call is written to a trace. *)

From Stdlib Require Import ZArith String List Floats Lia.
From stdpp Require Import base option list gmap strings.

Local Open Scope string_scope.
Local Open Scope list_scope.
Local Open Scope Z_scope.

(** ** Data model (lit_agent.identifiers.base) *)

(** Modelled from the spec: the enumeration [IdentifierType] of base.py,
    "closed enumeration: DOI, PMID, PMC". *)
Inductive IdentifierType : Type := DOI | PMID | PMC.

#[global] Instance IdentifierType_eq_dec : EqDecision IdentifierType.
Proof. solve_decision. Defined.

(** Modelled from the spec: the class [AcademicIdentifier] of base.py, with
    the four attributes the spec lists.  [confidence] is a Python float, that
    is an IEEE 754 binary64 value. *)
Record AcademicIdentifier : Type := mkAcademicIdentifier {
  type : IdentifierType;
  value : string;
  confidence : float;
  source_url : string
}.

(** [identifier.confidence = c] *)
Definition set_confidence (identifier : AcademicIdentifier) (c : float)
  : AcademicIdentifier :=
  {| type := type identifier;
     value := value identifier;
     confidence := c;
     source_url := source_url identifier |}.

(** Modelled from the spec: the class [IdentifierExtractionResult] of base.py.
    [failed_urls] is a Python list (api.py copies it "to avoid modifying list
    while iterating" and calls [remove] on it); [extraction_stats] is a dict
    from string keys to integers. *)
Record IdentifierExtractionResult : Type := mkIdentifierExtractionResult {
  identifiers : list AcademicIdentifier;
  failed_urls : list string;
  extraction_stats : gmap string Z
}.

Definition set_identifiers (r : IdentifierExtractionResult)
    (ids : list AcademicIdentifier) : IdentifierExtractionResult :=
  {| identifiers := ids;
     failed_urls := failed_urls r;
     extraction_stats := extraction_stats r |}.

Definition set_failed_urls (r : IdentifierExtractionResult)
    (urls : list string) : IdentifierExtractionResult :=
  {| identifiers := identifiers r;
     failed_urls := urls;
     extraction_stats := extraction_stats r |}.

Definition set_extraction_stats (r : IdentifierExtractionResult)
    (stats : gmap string Z) : IdentifierExtractionResult :=
  {| identifiers := identifiers r;
     failed_urls := failed_urls r;
     extraction_stats := stats |}.

(** ** Python primitives used by api.py *)

(** The exceptions of the model are the instances of Python's [Exception],
    the class the handler of line 86 names: [KeyError] and [ValueError] for
    the dict and list primitives below, [RaisedError] for whatever a
    collaborator raises.  Signals outside [Exception] (KeyboardInterrupt,
    SystemExit) end the process and are not modelled. *)
Inductive Exception : Type :=
| KeyError (key : string)
| ValueError (msg : string)
| RaisedError (name : string).

(** The outcome of evaluating a Python expression: an exception or a value. *)
Definition Outcome (A : Type) : Type := (Exception + A)%type.

(** [max(a, b)] on two floats: the builtin keeps its first argument unless
    the second compares strictly greater ([b > a]). *)
Definition py_max (a b : float) : float :=
  if PrimFloat.ltb a b then b else a.

(** Truth value of a list: non-empty. *)
Definition truthy {A : Type} (l : list A) : bool :=
  match l with
  | [] => false
  | _ :: _ => true
  end.

(** [x in l] for a list of strings. *)
Definition list_contains (x : string) (l : list string) : bool :=
  bool_decide (x ∈ l).

(** The list after [l.remove(x)]: without the first occurrence of [x]. *)
Fixpoint remove_first (x : string) (l : list string) : list string :=
  match l with
  | [] => []
  | y :: l' => if decide (x = y) then l' else y :: remove_first x l'
  end.

(** [l.remove(x)]: raises ValueError when [x] is not in the list. *)
Definition list_remove (x : string) (l : list string) : Outcome (list string) :=
  if list_contains x l then inr (remove_first x l)
  else inl (ValueError "list.remove(x): x not in list").

(** [d[key] += n]: reads [d[key]] (KeyError when absent), then stores. *)
Definition dict_iadd (key : string) (n : Z) (d : gmap string Z)
  : Outcome (gmap string Z) :=
  match d !! key with
  | Some v => inr (<[key := v + n]> d)
  | None => inl (KeyError key)
  end.

(** ** The collaborators *)

(** The interface api.py has to the rest of the package: the state of
    everything outside the process (network, services, the rate limiters'
    clocks), the four collaborator classes, and for each class its
    constructor call and the methods api.py uses.  An operation maps a world
    to an outcome and a new world. *)
Class Collaborators : Type := {
  World : Type;
  JournalURLExtractor : Type;
  WebScrapingExtractor : Type;
  PDFExtractor : Type;
  CompositeValidator : Type;

  JournalURLExtractor_init : World -> Outcome JournalURLExtractor * World;
  JournalURLExtractor_extract_from_urls :
    JournalURLExtractor -> list string ->
    World -> Outcome IdentifierExtractionResult * World;
  JournalURLExtractor_extract_from_url :
    JournalURLExtractor -> string ->
    World -> Outcome (list AcademicIdentifier) * World;

  CompositeValidator_init :
    bool -> bool -> World -> Outcome CompositeValidator * World;
  CompositeValidator_get_confidence_score :
    CompositeValidator -> IdentifierType -> string ->
    World -> Outcome float * World;
  CompositeValidator_validate_identifier :
    CompositeValidator -> IdentifierType -> string ->
    World -> Outcome bool * World;

  WebScrapingExtractor_init : World -> Outcome WebScrapingExtractor * World;
  WebScrapingExtractor_extract_from_url :
    WebScrapingExtractor -> string ->
    World -> Outcome (list AcademicIdentifier) * World;

  PDFExtractor_init : World -> Outcome PDFExtractor * World;
  PDFExtractor_is_pdf_url :
    PDFExtractor -> string -> World -> Outcome bool * World;
  PDFExtractor_extract_from_url :
    PDFExtractor -> string ->
    World -> Outcome (list AcademicIdentifier) * World;

  (** [IdentifierType.value], the string of an enumeration member. *)
  IdentifierType_value : IdentifierType -> string
}.

(** ** The machine: external world, call trace and local variables *)

Section Machine.

Context `{C : Collaborators}.

(** One entry of the trace: the call made and what it gave. *)
Inductive Event : Type :=
| EvJournalURLExtractor (out : Outcome JournalURLExtractor)
| EvExtractFromUrls (urls : list string)
    (out : Outcome IdentifierExtractionResult)
| EvExtractFromUrl (url : string) (out : Outcome (list AcademicIdentifier))
| EvCompositeValidator (use_api use_metapub : bool)
    (out : Outcome CompositeValidator)
| EvGetConfidenceScore (t : IdentifierType) (v : string) (out : Outcome float)
| EvValidateIdentifier (t : IdentifierType) (v : string) (out : Outcome bool)
| EvWebScrapingExtractor (out : Outcome WebScrapingExtractor)
| EvWebExtractFromUrl (url : string) (out : Outcome (list AcademicIdentifier))
| EvPDFExtractor (out : Outcome PDFExtractor)
| EvIsPdfUrl (url : string) (out : Outcome bool)
| EvPdfExtractFromUrl (url : string) (out : Outcome (list AcademicIdentifier)).

Record Machine : Type := mkMachine {
  world : World;
  trace : list Event
}.

(** A computation with local variables [L]: it may raise, and whatever it
    did to the locals, the world and the trace before raising stays done. *)
Definition Py (L A : Type) : Type := L * Machine -> Outcome A * (L * Machine).

Definition ret {L A} (a : A) : Py L A := fun s => (inr a, s).

Definition bind {L A B} (c : Py L A) (k : A -> Py L B) : Py L B :=
  fun s =>
    match c s with
    | (inr a, s') => k a s'
    | (inl e, s') => (inl e, s')
    end.

(** [try: body / except Exception: pass] *)
Definition try_except_pass {L} (body : Py L unit) : Py L unit :=
  fun s =>
    match body s with
    | (inr _, s') => (inr tt, s')
    | (inl _, s') => (inr tt, s')
    end.

(** Reading and writing the local variables. *)
Definition read {L A} (f : L -> A) : Py L A := fun s => (inr (f (fst s)), s).

Definition modify {L} (f : L -> L) : Py L unit :=
  fun s => (inr tt, (f (fst s), snd s)).

(** The outcome of a pure primitive, raised or returned. *)
Definition of_outcome {L A} (o : Outcome A) : Py L A := fun s => (o, s).

(** A call to a collaborator: run it on the world and log it. *)
Definition call {L A} (ev : Outcome A -> Event)
    (op : World -> Outcome A * World) : Py L A :=
  fun s =>
    let '(o, w) := op (world (snd s)) in
    (o, (fst s, {| world := w; trace := trace (snd s) ++ [ev o] |})).

(** A block with its own local variables, initialised to [l0]. *)
Definition with_locals {L L' A} (l0 : L') (c : Py L' A) : Py L A :=
  fun s =>
    let '(o, s') := c (l0, snd s) in (o, (fst s, snd s')).

(** [for x in xs: body(x)] *)
Fixpoint for_each {L A} (xs : list A) (body : A -> Py L unit) : Py L unit :=
  match xs with
  | [] => ret tt
  | x :: xs' => bind (body x) (fun _ => for_each xs' body)
  end.

(** [for x in xs: x.attr = ...]: the loop updates each element in place and
    leaves the list itself as it is; [body] gives the element after the
    update.  The elements are distinct objects (the extractor creates one per
    match), so updating one leaves the others alone.  When [body] raises, the
    exception leaves the function and the list is never looked at again. *)
Fixpoint for_each_update {L A} (xs : list A) (body : A -> Py L A)
  : Py L (list A) :=
  match xs with
  | [] => ret []
  | x :: xs' =>
      bind (body x) (fun x' =>
      bind (for_each_update xs' body) (fun xs'' => ret (x' :: xs'')))
  end.

(** A whole call, started on world [w] with an empty trace. *)
Definition run {A} (c : Py unit A) (w : World) : Outcome A * Machine :=
  let '(o, s) := c (tt, {| world := w; trace := [] |}) in (o, snd s).

End Machine.

Arguments Event {C}.
Arguments Machine {C}.

Notation "x <- c ;; k" := (bind c (fun x => k))
  (at level 100, c at next level, right associativity).
Notation "c ;; k" := (bind c (fun _ => k))
  (at level 100, right associativity).

(** ** api.py *)

(** The local variables of the Phase 2 block of
    [extract_identifiers_from_bibliography] that the block assigns to. *)
Record Phase2Locals : Type := mkPhase2Locals {
  result : IdentifierExtractionResult;
  phase2_identifiers : list AcademicIdentifier;
  successful_urls : list string
}.

Definition set_result (l : Phase2Locals) (r : IdentifierExtractionResult)
  : Phase2Locals :=
  {| result := r;
     phase2_identifiers := phase2_identifiers l;
     successful_urls := successful_urls l |}.

Definition set_phase2_identifiers (l : Phase2Locals)
    (ids : list AcademicIdentifier) : Phase2Locals :=
  {| result := result l;
     phase2_identifiers := ids;
     successful_urls := successful_urls l |}.

Definition set_successful_urls (l : Phase2Locals) (urls : list string)
  : Phase2Locals :=
  {| result := result l;
     phase2_identifiers := phase2_identifiers l;
     successful_urls := urls |}.

(** The dict returned by [validate_identifier]. *)
Record ValidationReport : Type := mkValidationReport {
  valid : bool;
  report_confidence : float;
  identifier_type : string;
  report_value : string
}.

(** The key of [extraction_stats] that counts identifiers of a type
    (lines 100-105). *)
Definition count_key (t : IdentifierType) : string :=
  match t with
  | DOI => "doi_count"
  | PMID => "pmid_count"
  | PMC => "pmc_count"
  end.

Section Api.

Context `{C : Collaborators}.

(** Lines 56-60 and 140-143, the body of the validation loop: query the
    validator and keep the higher of the two confidences. *)
Definition update_confidence {L} (validator : CompositeValidator)
    (identifier : AcademicIdentifier) : Py L AcademicIdentifier :=
  score <- call (EvGetConfidenceScore (type identifier) (value identifier))
             (CompositeValidator_get_confidence_score validator
                (type identifier) (value identifier)) ;;
  ret (set_confidence identifier (py_max (confidence identifier) score)).

(** Lines 49-60: the validation step of the batch call. *)
Definition validation_step {L} (use_api_validation use_metapub_validation : bool)
    (result : IdentifierExtractionResult) : Py L IdentifierExtractionResult :=
  if use_api_validation || use_metapub_validation then
    validator <- call (EvCompositeValidator use_api_validation
                         use_metapub_validation)
                   (CompositeValidator_init use_api_validation
                      use_metapub_validation) ;;
    ids <- for_each_update (identifiers result) (update_confidence validator) ;;
    ret (set_identifiers result ids)
  else ret result.

(** [result.extraction_stats[key] += n] *)
Definition stats_iadd (key : string) (n : Z) : Py Phase2Locals unit :=
  stats <- read (fun l => extraction_stats (result l)) ;;
  stats' <- of_outcome (dict_iadd key n stats) ;;
  modify (fun l => set_result l (set_extraction_stats (result l) stats')).

(** Lines 73-88: one URL of the Phase 2 sweep. *)
Definition phase2_attempt (web_extractor : WebScrapingExtractor)
    (pdf_extractor : PDFExtractor) (failed_url : string)
  : Py Phase2Locals unit :=
  try_except_pass (
    is_pdf <- call (EvIsPdfUrl failed_url)
                (PDFExtractor_is_pdf_url pdf_extractor failed_url) ;;
    identifiers <-
      (if is_pdf : bool then
         call (EvPdfExtractFromUrl failed_url)
           (PDFExtractor_extract_from_url pdf_extractor failed_url)
       else
         call (EvWebExtractFromUrl failed_url)
           (WebScrapingExtractor_extract_from_url web_extractor failed_url)) ;;
    if truthy identifiers then
      modify (fun l =>
        set_phase2_identifiers l (phase2_identifiers l ++ identifiers)) ;;
      modify (fun l =>
        set_successful_urls l (successful_urls l ++ [failed_url])) ;;
      stats_iadd "successful_extractions" 1 ;;
      stats_iadd "failed_extractions" (-1)
    else ret tt).

(** Lines 72-88: the sweep over a copy of [result.failed_urls]. *)
Definition phase2_sweep (web_extractor : WebScrapingExtractor)
    (pdf_extractor : PDFExtractor) : Py Phase2Locals unit :=
  snapshot <- read (fun l => failed_urls (result l)) ;;
  for_each snapshot (phase2_attempt web_extractor pdf_extractor).

(** Lines 92-93: the body of the removal loop. *)
Definition remove_successful_url (successful_url : string)
  : Py Phase2Locals unit :=
  urls <- read (fun l => failed_urls (result l)) ;;
  if list_contains successful_url urls then
    urls' <- of_outcome (list_remove successful_url urls) ;;
    modify (fun l => set_result l (set_failed_urls (result l) urls'))
  else ret tt.

(** Lines 91-93. *)
Definition remove_successful_urls : Py Phase2Locals unit :=
  urls <- read successful_urls ;;
  for_each urls remove_successful_url.

(** Line 96. *)
Definition add_phase2_identifiers : Py Phase2Locals unit :=
  modify (fun l =>
    set_result l
      (set_identifiers (result l)
         (identifiers (result l) ++ phase2_identifiers l))).

(** Lines 99-105. *)
Definition update_type_counts : Py Phase2Locals unit :=
  ids <- read phase2_identifiers ;;
  for_each ids (fun identifier => stats_iadd (count_key (type identifier)) 1).

(** Lines 63-105: Phase 2 of the batch call. *)
Definition phase2_step {L} (use_web_scraping : bool)
    (result0 : IdentifierExtractionResult) : Py L IdentifierExtractionResult :=
  if use_web_scraping && truthy (failed_urls result0) then
    web_extractor <- call EvWebScrapingExtractor WebScrapingExtractor_init ;;
    pdf_extractor <- call EvPDFExtractor PDFExtractor_init ;;
    with_locals
      {| result := result0; phase2_identifiers := []; successful_urls := [] |}
      (phase2_sweep web_extractor pdf_extractor ;;
       remove_successful_urls ;;
       add_phase2_identifiers ;;
       update_type_counts ;;
       read result)
  else ret result0.

(** Lines 11-107. *)
Definition extract_identifiers_from_bibliography (urls : list string)
    (use_web_scraping use_api_validation use_metapub_validation : bool)
  : Py unit IdentifierExtractionResult :=
  extractor <- call EvJournalURLExtractor JournalURLExtractor_init ;;
  result <- call (EvExtractFromUrls urls)
              (JournalURLExtractor_extract_from_urls extractor urls) ;;
  result <- validation_step use_api_validation use_metapub_validation result ;;
  phase2_step use_web_scraping result.

(** Lines 110-145. *)
Definition extract_identifiers_from_url (url : string)
    (use_api_validation use_metapub_validation : bool)
  : Py unit (list AcademicIdentifier) :=
  extractor <- call EvJournalURLExtractor JournalURLExtractor_init ;;
  identifiers <- call (EvExtractFromUrl url)
                   (JournalURLExtractor_extract_from_url extractor url) ;;
  if (use_api_validation || use_metapub_validation) && truthy identifiers then
    validator <- call (EvCompositeValidator use_api_validation
                         use_metapub_validation)
                   (CompositeValidator_init use_api_validation
                      use_metapub_validation) ;;
    for_each_update identifiers (update_confidence validator)
  else ret identifiers.

(** Lines 148-180. *)
Definition validate_identifier (identifier_type : IdentifierType)
    (value : string) (use_api use_metapub : bool)
  : Py unit ValidationReport :=
  validator <- call (EvCompositeValidator use_api use_metapub)
                 (CompositeValidator_init use_api use_metapub) ;;
  is_valid <- call (EvValidateIdentifier identifier_type value)
                (CompositeValidator_validate_identifier validator
                   identifier_type value) ;;
  confidence <- call (EvGetConfidenceScore identifier_type value)
                  (CompositeValidator_get_confidence_score validator
                     identifier_type value) ;;
  ret {| valid := is_valid;
         report_confidence := confidence;
         identifier_type := IdentifierType_value identifier_type;
         report_value := value |}.

End Api.

(** ** What a trace says *)

Section Traces.

Context `{C : Collaborators}.

(** The URLs for which a Phase 2 extractor returned a non-empty list, in
    the order of the calls. *)
Fixpoint recovered (t : list Event) : list string :=
  match t with
  | [] => []
  | EvPdfExtractFromUrl url (inr ids) :: t'
  | EvWebExtractFromUrl url (inr ids) :: t' =>
      if truthy ids then url :: recovered t' else recovered t'
  | _ :: t' => recovered t'
  end.

(** The identifiers the Phase 2 extractors returned, as they returned
    them, in the order of the calls. *)
Fixpoint found (t : list Event) : list AcademicIdentifier :=
  match t with
  | [] => []
  | EvPdfExtractFromUrl _ (inr ids) :: t'
  | EvWebExtractFromUrl _ (inr ids) :: t' => ids ++ found t'
  | _ :: t' => found t'
  end.

(** The scores the validator returned, in the order of the calls. *)
Fixpoint scores (t : list Event) : list float :=
  match t with
  | [] => []
  | EvGetConfidenceScore _ _ (inr score) :: t' => score :: scores t'
  | _ :: t' => scores t'
  end.

(** The (type, value) pairs the validator was asked to score. *)
Fixpoint score_queries (t : list Event) : list (IdentifierType * string) :=
  match t with
  | [] => []
  | EvGetConfidenceScore ty v _ :: t' => (ty, v) :: score_queries t'
  | _ :: t' => score_queries t'
  end.

(** A query of the validator's score. *)
Definition is_score_query (e : Event) : Prop :=
  exists t v out, e = EvGetConfidenceScore t v out.

(** Calls to the validator: its construction and its queries. *)
Definition is_validator_event (e : Event) : bool :=
  match e with
  | EvCompositeValidator _ _ _
  | EvGetConfidenceScore _ _ _
  | EvValidateIdentifier _ _ _ => true
  | _ => false
  end.

(** Calls to the Page Scraper and to the PDF extractor. *)
Definition is_phase2_event (e : Event) : bool :=
  match e with
  | EvWebScrapingExtractor _
  | EvWebExtractFromUrl _ _
  | EvPDFExtractor _
  | EvIsPdfUrl _ _
  | EvPdfExtractFromUrl _ _ => true
  | _ => false
  end.

(** The calls one URL of the sweep may make: the classification, then the
    one extractor it selects; nothing more when the classification raises. *)
Inductive attempt_trace (url : string) : list Event -> Prop :=
| attempt_unclassified (e : Exception) :
    attempt_trace url [EvIsPdfUrl url (inl e)]
| attempt_pdf (out : Outcome (list AcademicIdentifier)) :
    attempt_trace url [EvIsPdfUrl url (inr true); EvPdfExtractFromUrl url out]
| attempt_web (out : Outcome (list AcademicIdentifier)) :
    attempt_trace url [EvIsPdfUrl url (inr false); EvWebExtractFromUrl url out].

(** The calls of a sweep over [urls]: one attempt per URL, in order. *)
Inductive sweep_trace : list string -> list Event -> Prop :=
| sweep_done : sweep_trace [] []
| sweep_next (url : string) (urls : list string) (t ts : list Event) :
    attempt_trace url t -> sweep_trace urls ts ->
    sweep_trace (url :: urls) (t ++ ts).

(** The calls of a validation step that completed on [ids]: none when
    both flags are off, else the construction of the validator and one
    score query per identifier, in order. *)
Inductive validation_trace (use_api use_metapub : bool)
    (ids : list AcademicIdentifier) : list Event -> Prop :=
| validation_off :
    use_api || use_metapub = false ->
    validation_trace use_api use_metapub ids []
| validation_on (validator : CompositeValidator) (tq : list Event) :
    use_api || use_metapub = true ->
    Forall is_score_query tq ->
    score_queries tq = map (fun i => (type i, value i)) ids ->
    length (scores tq) = length ids ->
    validation_trace use_api use_metapub ids
      (EvCompositeValidator use_api use_metapub (inr validator) :: tq).

(** The calls of a Phase 2 that completed: none when it is switched off or
    nothing failed, else the two constructions and a sweep. *)
Inductive phase2_trace (use_web_scraping : bool) (failed : list string)
  : list Event -> Prop :=
| phase2_off :
    use_web_scraping && truthy failed = false ->
    phase2_trace use_web_scraping failed []
| phase2_on (web_extractor : WebScrapingExtractor)
    (pdf_extractor : PDFExtractor) (ts : list Event) :
    use_web_scraping && truthy failed = true ->
    sweep_trace failed ts ->
    phase2_trace use_web_scraping failed
      (EvWebScrapingExtractor (inr web_extractor)
       :: EvPDFExtractor (inr pdf_extractor) :: ts).

(** The result Phase 1 returned, as the trace recorded it. *)
Fixpoint phase1_result (t : list Event) : option IdentifierExtractionResult :=
  match t with
  | [] => None
  | EvExtractFromUrls _ (inr r) :: _ => Some r
  | _ :: t' => phase1_result t'
  end.

(** The identifiers the Pattern Extractor returned for a single URL, as
    the trace recorded them. *)
Fixpoint phase1_identifiers (t : list Event)
  : option (list AcademicIdentifier) :=
  match t with
  | [] => None
  | EvExtractFromUrl _ (inr ids) :: _ => Some ids
  | _ :: t' => phase1_identifiers t'
  end.


End Traces.

(** ** Pure readings of the Phase 2 bookkeeping *)

(** [identifier.confidence = max(identifier.confidence, score)] *)
Definition merge_confidence (identifier : AcademicIdentifier) (score : float)
  : AcademicIdentifier :=
  set_confidence identifier (py_max (confidence identifier) score).

(** Lines 84-85 under the handler of line 86: each of the two updates is
    done unless it raises KeyError, which ends the attempt. *)
Definition bump_stats (d : gmap string Z) : gmap string Z :=
  match dict_iadd "successful_extractions" 1 d with
  | inl _ => d
  | inr d1 =>
      match dict_iadd "failed_extractions" (-1) d1 with
      | inl _ => d1
      | inr d2 => d2
      end
  end.

(** Lines 99-105 on a dict: one increment per identifier, stopping at the
    first KeyError. *)
Fixpoint add_counts (ids : list AcademicIdentifier) (d : gmap string Z)
  : Outcome (gmap string Z) :=
  match ids with
  | [] => inr d
  | identifier :: ids' =>
      match dict_iadd (count_key (type identifier)) 1 d with
      | inl e => inl e
      | inr d' => add_counts ids' d'
      end
  end.

(** Lines 91-93 on a list: every successful URL is removed once if it is
    there. *)
Definition remove_all (successful : list string) (failed : list string)
  : list string :=
  foldl (fun urls url => remove_first url urls) failed successful.

(** How many identifiers of a type a list holds. *)
Definition count_type (t : IdentifierType) (ids : list AcademicIdentifier) : Z :=
  Z.of_nat (length (filter (fun identifier => type identifier = t) ids)).

(** The locals after a sweep that recovered [urls] and found [ids]: lines
    81-85, once per recovered URL. *)
Definition after_sweep (l : Phase2Locals) (urls : list string)
    (ids : list AcademicIdentifier) : Phase2Locals :=
  {| result :=
       set_extraction_stats (result l)
         (Nat.iter (length urls) bump_stats (extraction_stats (result l)));
     phase2_identifiers := phase2_identifiers l ++ ids;
     successful_urls := successful_urls l ++ urls |}.

(** The identifiers after the validation step, from the scores the
    validator gave: lines 55-60 when a flag is set, no change otherwise. *)
Definition validated (use_api use_metapub : bool)
    (ids : list AcademicIdentifier) (given : list float)
  : list AcademicIdentifier :=
  if use_api || use_metapub then zip_with merge_confidence ids given else ids.

(** [a >= b] on floats. *)
Definition float_ge (a b : float) : bool := PrimFloat.leb b a.

(** Two identifiers that differ at most in their confidence. *)
Definition same_identity (pre post : AcademicIdentifier) : Prop :=
  type post = type pre /\ value post = value pre /\
  source_url post = source_url pre.

(** An identifier before and after a stage that may only raise its
    confidence: the same identity, a confidence that is not below the old
    one, and at least the old one whenever the old one is a number. *)
Definition confidence_raised (pre post : AcademicIdentifier) : Prop :=
  same_identity pre post /\
  PrimFloat.ltb (confidence post) (confidence pre) = false /\
  (PrimFloat.is_nan (confidence pre) = false ->
   float_ge (confidence post) (confidence pre) = true).



(** ** Phase 1, from the specification *)

(** Modelled from the spec: the counter update of
    [JournalURLExtractor.extract_from_urls] (extractors.py, outside the
    module verified here), one more in the entry [key] of the statistics. *)
Definition stat_incr (key : string) (d : gmap string Z) : gmap string Z :=
  alter (fun v => v + 1) key d.

(** Modelled from the spec: the result [JournalURLExtractor.extract_from_urls]
    starts from, with no identifier, no failed URL and the five entries of
    section 3 at zero. *)
Definition phase1_initial : IdentifierExtractionResult :=
  {| identifiers := [];
     failed_urls := [];
     extraction_stats :=
       <["successful_extractions" := 0]>
       (<["failed_extractions" := 0]>
       (<["doi_count" := 0]>
       (<["pmid_count" := 0]>
       (<["pmc_count" := 0]> ∅)))) |}.

(** Modelled from the spec: what [JournalURLExtractor.extract_from_urls] does
    with one URL.  Section 4.1: all matches of a URL are kept, and "a URL
    yielding zero identifiers through any rule is recorded into
    failed_urls"; section 3: the statistics count the URLs that yielded
    identifiers, the URLs that did not, and the identifiers of each type.
    The rule table, [rules], is left open. *)
Definition phase1_record (rules : string -> list AcademicIdentifier)
    (r : IdentifierExtractionResult) (url : string)
  : IdentifierExtractionResult :=
  let ids := rules url in
  if truthy ids then
    {| identifiers := identifiers r ++ ids;
       failed_urls := failed_urls r;
       extraction_stats :=
         foldl (fun d identifier => stat_incr (count_key (type identifier)) d)
           (stat_incr "successful_extractions" (extraction_stats r)) ids |}
  else
    {| identifiers := identifiers r;
       failed_urls := failed_urls r ++ [url];
       extraction_stats :=
         stat_incr "failed_extractions" (extraction_stats r) |}.

(** Modelled from the spec: [JournalURLExtractor.extract_from_urls] of
    extractors.py, outside the module verified here.  Section 4.1: the rule
    table is "evaluated URL-by-URL", in the order of the input. *)
Definition pattern_extract_from_urls (rules : string -> list AcademicIdentifier)
    (urls : list string) : IdentifierExtractionResult :=
  foldl (phase1_record rules) phase1_initial urls.

(** ** A stub environment

    A small, fully concrete set of collaborators on which the pipeline can be
    run: the world is a counter of the calls made so far. *)

Module Stub.

Definition pubmed_url : string := "https://pubmed.ncbi.nlm.nih.gov/37674083/".
Definition science_url : string :=
  "https://www.science.org/doi/10.1126/science.abm5224".
Definition repository_url : string :=
  "https://epublications.marquette.edu/biomedsci_fac/264/".
Definition unreachable_url : string :=
  "https://knowledge.brain-map.org/data/LVDBJAW8BI5YSS1QUBG".
Definition pdf_url : string :=
  "https://edoc.mdc-berlin.de/id/eprint/24531/1/24531oa.pdf".
Definition opaque_url : string := "https://example.org/about".

(** What the stub Pattern Extractor reads off a URL. *)
Definition pattern (url : string) : list AcademicIdentifier :=
  if decide (url = pubmed_url) then
    [ {| type := PMID; value := "37674083"; confidence := 0.5%float;
         source_url := url |} ]
  else if decide (url = science_url) then
    [ {| type := DOI; value := "10.1126/science.abm5224";
         confidence := 0.75%float; source_url := url |} ]
  else [].

Definition extract_from_urls (urls : list string) : IdentifierExtractionResult :=
  pattern_extract_from_urls pattern urls.

(** The stub validator is sure of PMIDs and knows little about the rest. *)
Definition score (t : IdentifierType) (v : string) : float :=
  match t with
  | PMID => 1%float
  | DOI => 0.25%float
  | PMC => 0.5%float
  end.

Definition is_pdf (url : string) : bool := bool_decide (url = pdf_url).

(** What the stub Page Scraper finds; one host cannot be reached. *)
Definition scrape (url : string) : Outcome (list AcademicIdentifier) :=
  if decide (url = repository_url) then
    inr [ {| type := DOI; value := "10.1093/brain/awab400";
             confidence := 0.5%float; source_url := url |} ]
  else if decide (url = unreachable_url) then
    inl (RaisedError "ConnectionError")
  else inr [].

(** What the stub PDF extractor finds. *)
Definition read_pdf (url : string) : Outcome (list AcademicIdentifier) :=
  if decide (url = pdf_url) then
    inr [ {| type := DOI; value := "10.1371/journal.pone.0302376";
             confidence := 0.25%float; source_url := url |};
          {| type := PMC; value := "PMC11239014";
             confidence := 0.25%float; source_url := url |} ]
  else inr [].

(** Every call advances the clock. *)
Definition tick {A : Type} (o : Outcome A) (w : nat) : Outcome A * nat :=
  (o, S w).

#[export] Instance collaborators : Collaborators := {|
  World := nat;
  JournalURLExtractor := unit;
  WebScrapingExtractor := unit;
  PDFExtractor := unit;
  CompositeValidator := unit;
  JournalURLExtractor_init := tick (inr tt);
  JournalURLExtractor_extract_from_urls _ urls :=
    tick (inr (extract_from_urls urls));
  JournalURLExtractor_extract_from_url _ url := tick (inr (pattern url));
  CompositeValidator_init _ _ := tick (inr tt);
  CompositeValidator_get_confidence_score _ t v := tick (inr (score t v));
  CompositeValidator_validate_identifier _ t v :=
    tick (inr (PrimFloat.ltb 0.5%float (score t v)));
  WebScrapingExtractor_init := tick (inr tt);
  WebScrapingExtractor_extract_from_url _ url := tick (scrape url);
  PDFExtractor_init := tick (inr tt);
  PDFExtractor_is_pdf_url _ url := tick (inr (is_pdf url));
  PDFExtractor_extract_from_url _ url := tick (read_pdf url);
  IdentifierType_value t :=
    match t with DOI => "doi" | PMID => "pmid" | PMC => "pmc" end
|}.

(** A bibliography with one URL of each kind. *)
Definition bibliography : list string :=
  [pubmed_url; repository_url; unreachable_url; science_url; pdf_url;
   opaque_url].

(** What the stub extractors find in it. *)
Definition pubmed_id (c : float) : AcademicIdentifier :=
  {| type := PMID; value := "37674083"; confidence := c;
     source_url := pubmed_url |}.
Definition science_id : AcademicIdentifier :=
  {| type := DOI; value := "10.1126/science.abm5224";
     confidence := 0.75%float; source_url := science_url |}.
Definition repository_id : AcademicIdentifier :=
  {| type := DOI; value := "10.1093/brain/awab400";
     confidence := 0.5%float; source_url := repository_url |}.
Definition pdf_ids : list AcademicIdentifier :=
  [ {| type := DOI; value := "10.1371/journal.pone.0302376";
       confidence := 0.25%float; source_url := pdf_url |};
    {| type := PMC; value := "PMC11239014";
       confidence := 0.25%float; source_url := pdf_url |} ].

(** The result of Phase 1 on the bibliography. *)
Definition phase1 : IdentifierExtractionResult :=
  {| identifiers := [pubmed_id 0.5%float; science_id];
     failed_urls := [repository_url; unreachable_url; pdf_url; opaque_url];
     extraction_stats :=
       <["successful_extractions" := 2]>
       (<["failed_extractions" := 4]>
       (<["doi_count" := 1]>
       (<["pmid_count" := 1]>
       (<["pmc_count" := 0]> ∅)))) |}.

(** The calls of the validation step on it, and its result. *)
Definition validation_calls : list Event :=
  [EvCompositeValidator true true (inr tt);
   EvGetConfidenceScore PMID "37674083" (inr 1%float);
   EvGetConfidenceScore DOI "10.1126/science.abm5224" (inr 0.25%float)].

Definition validated_phase1 : IdentifierExtractionResult :=
  set_identifiers phase1 [pubmed_id 1%float; science_id].

(** The calls of Phase 2 on it. *)
Definition phase2_calls : list Event :=
  [EvWebScrapingExtractor (inr tt);
   EvPDFExtractor (inr tt);
   EvIsPdfUrl repository_url (inr false);
   EvWebExtractFromUrl repository_url (inr [repository_id]);
   EvIsPdfUrl unreachable_url (inr false);
   EvWebExtractFromUrl unreachable_url (inl (RaisedError "ConnectionError"));
   EvIsPdfUrl pdf_url (inr true);
   EvPdfExtractFromUrl pdf_url (inr pdf_ids);
   EvIsPdfUrl opaque_url (inr false);
   EvWebExtractFromUrl opaque_url (inr [])].

(** The batch call on the bibliography with every flag set: its result
    and the machine it leaves. *)
Definition batch_result : IdentifierExtractionResult :=
  {| identifiers :=
       [pubmed_id 1%float; science_id; repository_id] ++ pdf_ids;
     failed_urls := [unreachable_url; opaque_url];
     extraction_stats :=
       <["successful_extractions" := 4]>
       (<["failed_extractions" := 2]>
       (<["doi_count" := 3]>
       (<["pmid_count" := 1]>
       (<["pmc_count" := 1]> ∅)))) |}.

Definition batch_machine : Machine :=
  {| world := 15%nat;
     trace := EvJournalURLExtractor (inr tt)
              :: EvExtractFromUrls bibliography (inr phase1)
              :: validation_calls ++ phase2_calls |}.

End Stub.

(** ** Exceptions in a trace *)

Section Failures.

Context `{C : Collaborators}.

(** The exception an outcome carries, if any. *)
Definition raised {A : Type} (o : Outcome A) : option Exception :=
  match o with
  | inl e => Some e
  | inr _ => None
  end.

(** The exception a logged call raised, if it raised. *)
Definition event_raised (ev : Event) : option Exception :=
  match ev with
  | EvJournalURLExtractor out => raised out
  | EvExtractFromUrls _ out => raised out
  | EvExtractFromUrl _ out => raised out
  | EvCompositeValidator _ _ out => raised out
  | EvGetConfidenceScore _ _ out => raised out
  | EvValidateIdentifier _ _ out => raised out
  | EvWebScrapingExtractor out => raised out
  | EvWebExtractFromUrl _ out => raised out
  | EvPDFExtractor out => raised out
  | EvIsPdfUrl _ out => raised out
  | EvPdfExtractFromUrl _ out => raised out
  end.

(** The calls made inside the handler of lines 73-88. *)
Definition is_attempt_event (ev : Event) : bool :=
  match ev with
  | EvIsPdfUrl _ _
  | EvPdfExtractFromUrl _ _
  | EvWebExtractFromUrl _ _ => true
  | _ => false
  end.

(** A run without a handler, seen from its calls [t] and its outcome [o]:
    every call returned, except that when the run raised, the last call is
    the one that raised, and it raised that exception. *)
Definition stops_at_failure {A : Type} (o : Outcome A) (t : list Event) : Prop :=
  match o with
  | inr _ => Forall (fun ev => event_raised ev = None) t
  | inl e =>
      exists (t' : list Event) (ev : Event),
        t = t' ++ [ev] /\ event_raised ev = Some e /\
        Forall (fun ev' => event_raised ev' = None) t'
  end.

End Failures.

Arguments stops_at_failure : simpl never.

(** [0 <= c <= 1] on floats. *)
Definition in_unit_interval (c : float) : Prop :=
  PrimFloat.leb 0 c = true /\ PrimFloat.leb c 1 = true.

(** ** A Pattern Extractor with other statistics

    The stub environment again, except that Phase 1 returns the statistics
    [stats] it is given instead of the five entries of section 3: api.py
    takes the entries it updates for granted. *)

Module Lab.

Section Environment.

Variable stats : gmap string Z.

(** The Phase 1 result of the stub bibliography under other statistics. *)
Definition phase1 : IdentifierExtractionResult :=
  {| identifiers := identifiers Stub.phase1;
     failed_urls := failed_urls Stub.phase1;
     extraction_stats := stats |}.

Definition collaborators : Collaborators := {|
  World := nat;
  JournalURLExtractor := unit;
  WebScrapingExtractor := unit;
  PDFExtractor := unit;
  CompositeValidator := unit;
  JournalURLExtractor_init := Stub.tick (inr tt);
  JournalURLExtractor_extract_from_urls _ _ := Stub.tick (inr phase1);
  JournalURLExtractor_extract_from_url _ url :=
    Stub.tick (inr (Stub.pattern url));
  CompositeValidator_init _ _ := Stub.tick (inr tt);
  CompositeValidator_get_confidence_score _ t v :=
    Stub.tick (inr (Stub.score t v));
  CompositeValidator_validate_identifier _ t v :=
    Stub.tick (inr (PrimFloat.ltb 0.5%float (Stub.score t v)));
  WebScrapingExtractor_init := Stub.tick (inr tt);
  WebScrapingExtractor_extract_from_url _ url := Stub.tick (Stub.scrape url);
  PDFExtractor_init := Stub.tick (inr tt);
  PDFExtractor_is_pdf_url _ url := Stub.tick (inr (Stub.is_pdf url));
  PDFExtractor_extract_from_url _ url := Stub.tick (Stub.read_pdf url);
  IdentifierType_value t :=
    match t with DOI => "doi" | PMID => "pmid" | PMC => "pmc" end
|}.

#[local] Existing Instance collaborators.

(** The calls of Phase 2 on the failed URLs of the bibliography. *)
Definition sweep_calls : list Event :=
  [EvIsPdfUrl Stub.repository_url (inr false);
   EvWebExtractFromUrl Stub.repository_url (inr [Stub.repository_id]);
   EvIsPdfUrl Stub.unreachable_url (inr false);
   EvWebExtractFromUrl Stub.unreachable_url
     (inl (RaisedError "ConnectionError"));
   EvIsPdfUrl Stub.pdf_url (inr true);
   EvPdfExtractFromUrl Stub.pdf_url (inr Stub.pdf_ids);
   EvIsPdfUrl Stub.opaque_url (inr false);
   EvWebExtractFromUrl Stub.opaque_url (inr [])].

(** The machine a batch call with every flag set leaves. *)
Definition batch_machine : Machine :=
  {| world := 15%nat;
     trace := [EvJournalURLExtractor (inr tt);
               EvExtractFromUrls Stub.bibliography (inr phase1);
               EvCompositeValidator true true (inr tt);
               EvGetConfidenceScore PMID "37674083" (inr 1%float);
               EvGetConfidenceScore DOI "10.1126/science.abm5224"
                 (inr 0.25%float);
               EvWebScrapingExtractor (inr tt);
               EvPDFExtractor (inr tt)] ++ sweep_calls |}.

(** The machine when Phase 2 starts, with an empty log, and what Phase 2
    leaves in the world [w] after the two constructions and the calls
    [ts]. *)
Definition before_phase2 : unit * Machine :=
  (tt, {| world := 5%nat; trace := [] |}).

Definition after_phase2 (w : nat) (ts : list Event) : unit * Machine :=
  (tt, {| world := w;
          trace := EvWebScrapingExtractor (inr tt)
                   :: EvPDFExtractor (inr tt) :: ts |}).

End Environment.

(** Statistics without an entry for PMC identifiers. *)
Definition no_pmc_count : gmap string Z :=
  <["successful_extractions" := 2]>
  (<["failed_extractions" := 4]>
  (<["doi_count" := 1]>
  (<["pmid_count" := 1]> ∅))).

(** Statistics with the type counts only. *)
Definition counts_only : gmap string Z :=
  <["doi_count" := 1]> (<["pmid_count" := 1]> (<["pmc_count" := 0]> ∅)).

(** What the batch call returns under [counts_only]. *)
Definition counts_only_result : IdentifierExtractionResult :=
  {| identifiers := identifiers Stub.batch_result;
     failed_urls := failed_urls Stub.batch_result;
     extraction_stats :=
       <["doi_count" := 3]> (<["pmid_count" := 1]> (<["pmc_count" := 1]> ∅)) |}.

End Lab.

(** ** A page that answers once

    A bibliography that cites the same page twice, and a Page Scraper that
    reads the page until the clock reaches 6 and finds nothing afterwards.
    Phase 1 is the Pattern Extractor modelled above, with a rule table
    that matches nothing. *)

Module Flaky.

Definition page_url : string := "https://example.org/article".

Definition page_id : AcademicIdentifier :=
  {| type := DOI; value := "10.1000/xyz123"; confidence := 0.5%float;
     source_url := page_url |}.

Definition scrape (url : string) (w : nat)
  : Outcome (list AcademicIdentifier) * nat :=
  (if (w <? 6)%nat then inr [page_id] else inr [], S w).

Definition collaborators : Collaborators := {|
  World := nat;
  JournalURLExtractor := unit;
  WebScrapingExtractor := unit;
  PDFExtractor := unit;
  CompositeValidator := unit;
  JournalURLExtractor_init := Stub.tick (inr tt);
  JournalURLExtractor_extract_from_urls _ urls :=
    Stub.tick (inr (pattern_extract_from_urls (fun _ => []) urls));
  JournalURLExtractor_extract_from_url _ _ := Stub.tick (inr []);
  CompositeValidator_init _ _ := Stub.tick (inr tt);
  CompositeValidator_get_confidence_score _ t v :=
    Stub.tick (inr (Stub.score t v));
  CompositeValidator_validate_identifier _ t v :=
    Stub.tick (inr (PrimFloat.ltb 0.5%float (Stub.score t v)));
  WebScrapingExtractor_init := Stub.tick (inr tt);
  WebScrapingExtractor_extract_from_url _ url := scrape url;
  PDFExtractor_init := Stub.tick (inr tt);
  PDFExtractor_is_pdf_url _ _ := Stub.tick (inr false);
  PDFExtractor_extract_from_url _ _ := Stub.tick (inr []);
  IdentifierType_value t :=
    match t with DOI => "doi" | PMID => "pmid" | PMC => "pmc" end
|}.

#[local] Existing Instance collaborators.

Definition bibliography : list string := [page_url; page_url].

(** The result of Phase 1 on it: the page failed twice. *)
Definition phase1 : IdentifierExtractionResult :=
  {| identifiers := [];
     failed_urls := [page_url; page_url];
     extraction_stats :=
       <["successful_extractions" := 0]>
       (<["failed_extractions" := 2]>
       (<["doi_count" := 0]>
       (<["pmid_count" := 0]>
       (<["pmc_count" := 0]> ∅)))) |}.

(** The batch call with Phase 2 on and validation off: its result and the
    machine it leaves. *)
Definition batch_result : IdentifierExtractionResult :=
  {| identifiers := [page_id];
     failed_urls := [page_url];
     extraction_stats :=
       <["successful_extractions" := 1]>
       (<["failed_extractions" := 1]>
       (<["doi_count" := 1]>
       (<["pmid_count" := 0]>
       (<["pmc_count" := 0]> ∅)))) |}.

Definition batch_machine : Machine :=
  {| world := 8%nat;
     trace := [EvJournalURLExtractor (inr tt);
               EvExtractFromUrls bibliography (inr phase1);
               EvWebScrapingExtractor (inr tt);
               EvPDFExtractor (inr tt);
               EvIsPdfUrl page_url (inr false);
               EvWebExtractFromUrl page_url (inr [page_id]);
               EvIsPdfUrl page_url (inr false);
               EvWebExtractFromUrl page_url (inr [])] |}.

End Flaky.

(** ** A validator that times out

    The stub environment again, except that the validator's score query
    raises. *)

Module Outage.

Definition collaborators : Collaborators := {|
  World := nat;
  JournalURLExtractor := unit;
  WebScrapingExtractor := unit;
  PDFExtractor := unit;
  CompositeValidator := unit;
  JournalURLExtractor_init := Stub.tick (inr tt);
  JournalURLExtractor_extract_from_urls _ urls :=
    Stub.tick (inr (Stub.extract_from_urls urls));
  JournalURLExtractor_extract_from_url _ url :=
    Stub.tick (inr (Stub.pattern url));
  CompositeValidator_init _ _ := Stub.tick (inr tt);
  CompositeValidator_get_confidence_score _ _ _ :=
    Stub.tick (inl (RaisedError "TimeoutError"));
  CompositeValidator_validate_identifier _ _ _ := Stub.tick (inr true);
  WebScrapingExtractor_init := Stub.tick (inr tt);
  WebScrapingExtractor_extract_from_url _ url := Stub.tick (Stub.scrape url);
  PDFExtractor_init := Stub.tick (inr tt);
  PDFExtractor_is_pdf_url _ url := Stub.tick (inr (Stub.is_pdf url));
  PDFExtractor_extract_from_url _ url := Stub.tick (Stub.read_pdf url);
  IdentifierType_value t :=
    match t with DOI => "doi" | PMID => "pmid" | PMC => "pmc" end
|}.

#[local] Existing Instance collaborators.

Definition bibliography : list string := [Stub.pubmed_url].

Definition phase1 : IdentifierExtractionResult :=
  {| identifiers := [Stub.pubmed_id 0.5%float];
     failed_urls := [];
     extraction_stats :=
       <["successful_extractions" := 1]>
       (<["failed_extractions" := 0]>
       (<["doi_count" := 0]>
       (<["pmid_count" := 1]>
       (<["pmc_count" := 0]> ∅)))) |}.

(** The machine the batch call leaves, with the flags at their defaults. *)
Definition batch_machine : Machine :=
  {| world := 4%nat;
     trace := [EvJournalURLExtractor (inr tt);
               EvExtractFromUrls bibliography (inr phase1);
               EvCompositeValidator true true (inr tt);
               EvGetConfidenceScore PMID "37674083"
                 (inl (RaisedError "TimeoutError"))] |}.


End Outage.

(** ** A Phase 2 that recovers nothing

    The stub environment on a bibliography whose failed URLs stay failed:
    one host cannot be reached, the other page holds no identifier. *)

Module Barren.

#[local] Existing Instance Stub.collaborators.

Definition bibliography : list string :=
  [Stub.pubmed_url; Stub.unreachable_url; Stub.opaque_url].

Definition phase1 : IdentifierExtractionResult :=
  {| identifiers := [Stub.pubmed_id 0.5%float];
     failed_urls := [Stub.unreachable_url; Stub.opaque_url];
     extraction_stats :=
       <["successful_extractions" := 1]>
       (<["failed_extractions" := 2]>
       (<["doi_count" := 0]>
       (<["pmid_count" := 1]>
       (<["pmc_count" := 0]> ∅)))) |}.

(** The batch call with every flag set: its result and the machine it
    leaves. *)
Definition batch_result : IdentifierExtractionResult :=
  set_identifiers phase1 [Stub.pubmed_id 1%float].

Definition batch_machine : Machine :=
  {| world := 10%nat;
     trace := [EvJournalURLExtractor (inr tt);
               EvExtractFromUrls bibliography (inr phase1);
               EvCompositeValidator true true (inr tt);
               EvGetConfidenceScore PMID "37674083" (inr 1%float);
               EvWebScrapingExtractor (inr tt);
               EvPDFExtractor (inr tt);
               EvIsPdfUrl Stub.unreachable_url (inr false);
               EvWebExtractFromUrl Stub.unreachable_url
                 (inl (RaisedError "ConnectionError"));
               EvIsPdfUrl Stub.opaque_url (inr false);
               EvWebExtractFromUrl Stub.opaque_url (inr [])] |}.

End Barren.

(** ** Floats: the order behind [max] *)

Section FloatOrder.

Lemma SFcompare_Lt_Gt (x y : spec_float) :
  SFcompare x y = Some Lt -> SFcompare y x = Some Gt.
Proof.
  destruct x as [sx|sx| |sx mx ex], y as [sy|sy| |sy my ey]; simpl;
    try discriminate;
    try solve [ repeat match goal with s : bool |- _ => destruct s end;
                simpl; congruence ].
  change (PosDef.Pos.compare_cont Eq my mx) with (Pos.compare my mx).
  change (PosDef.Pos.compare_cont Eq mx my) with (Pos.compare mx my).
  rewrite (Z.compare_antisym ex ey), (Pos.compare_antisym mx my).
  destruct sx, sy, (ex ?= ey)%Z, (mx ?= my)%positive; simpl; congruence.
Qed.

Lemma SFcompare_refl_not_Lt (x : spec_float) : SFcompare x x <> Some Lt.
Proof.
  destruct x as [sx|sx| |sx mx ex]; simpl; try discriminate.
  - destruct sx; discriminate.
  - rewrite Z.compare_refl.
    change (PosDef.Pos.compare_cont Eq mx mx) with (Pos.compare mx mx).
    rewrite Pos.compare_refl. destruct sx; discriminate.
Qed.

Lemma ltb_leb (a b : float) :
  PrimFloat.ltb a b = true -> PrimFloat.leb a b = true.
Proof.
  rewrite ltb_spec, leb_spec. unfold SFltb, SFleb.
  destruct (SFcompare (Prim2SF a) (Prim2SF b)) as [[ | | ]|];
    (discriminate || reflexivity).
Qed.

Lemma ltb_asym (a b : float) :
  PrimFloat.ltb a b = true -> PrimFloat.ltb b a = false.
Proof.
  rewrite !ltb_spec. unfold SFltb. intros H.
  destruct (SFcompare (Prim2SF a) (Prim2SF b)) as [[ | | ]|] eqn:E;
    try discriminate.
  now rewrite (SFcompare_Lt_Gt _ _ E).
Qed.

Lemma ltb_irrefl (a : float) : PrimFloat.ltb a a = false.
Proof.
  rewrite ltb_spec. unfold SFltb.
  pose proof (SFcompare_refl_not_Lt (Prim2SF a)) as H.
  destruct (SFcompare (Prim2SF a) (Prim2SF a)) as [[ | | ]|];
    (reflexivity || congruence).
Qed.

Lemma leb_refl (a : float) :
  PrimFloat.is_nan a = false -> PrimFloat.leb a a = true.
Proof.
  unfold PrimFloat.is_nan. rewrite FloatAxioms.eqb_spec, leb_spec.
  unfold SFeqb, SFleb.
  destruct (SFcompare (Prim2SF a) (Prim2SF a)) as [[ | | ]|];
    (discriminate || reflexivity).
Qed.

(** [max] never returns less than its first argument. *)
Lemma py_max_not_below (a b : float) : PrimFloat.ltb (py_max a b) a = false.
Proof.
  unfold py_max. destruct (PrimFloat.ltb a b) eqn:E.
  - now apply ltb_asym.
  - apply ltb_irrefl.
Qed.

(** On a first argument that is a number, [max(a, b) >= a]. *)
Lemma py_max_ge (a b : float) :
  PrimFloat.is_nan a = false -> float_ge (py_max a b) a = true.
Proof.
  intros Ha. unfold float_ge, py_max. destruct (PrimFloat.ltb a b) eqn:E.
  - now apply ltb_leb.
  - now apply leb_refl.
Qed.

(** [max] returns one of its arguments, the second only when it is
    strictly greater. *)
Lemma py_max_cases (a b : float) :
  (py_max a b = a /\ PrimFloat.ltb a b = false) \/
  (py_max a b = b /\ PrimFloat.ltb a b = true).
Proof. unfold py_max. destruct (PrimFloat.ltb a b); auto. Qed.

End FloatOrder.

(** ** The validation loop *)

Section Validation.

Context `{C : Collaborators}.

Lemma score_query_not_phase2 (t : list Event) :
  Forall is_score_query t -> Forall (fun e => is_phase2_event e = false) t.
Proof.
  intros H. eapply Forall_impl; [exact H|].
  intros e (ty & v & out & ->). reflexivity.
Qed.

Lemma score_query_found (t : list Event) :
  Forall is_score_query t -> found t = [] /\ recovered t = [].
Proof.
  induction 1 as [|e t (ty & v & out & ->) _ IH]; simpl; auto.
Qed.

Lemma scores_app (t1 t2 : list Event) : scores (t1 ++ t2) = scores t1 ++ scores t2.
Proof.
  induction t1 as [|e t1 IH]; simpl; [reflexivity|].
  destruct e as [| | | |ty v [x|sc]| | | | | |]; simpl; rewrite ?IH; reflexivity.
Qed.

Lemma score_queries_app (t1 t2 : list Event) :
  score_queries (t1 ++ t2) = score_queries t1 ++ score_queries t2.
Proof.
  induction t1 as [|e t1 IH]; simpl; [reflexivity|].
  destruct e; simpl; rewrite ?IH; reflexivity.
Qed.

(** The loop of lines 55-60 (and 139-143) only queries scores; when it
    completes, it asked one score per identifier, in order, and merged each
    into its identifier. *)
Lemma validation_loop {L} (validator : CompositeValidator)
    (ids : list AcademicIdentifier) (s : L * Machine) :
  exists (o : Outcome (list AcademicIdentifier)) (w : World) (t : list Event),
    for_each_update ids (update_confidence validator) s
      = (o, (fst s, {| world := w; trace := trace (snd s) ++ t |})) /\
    Forall is_score_query t /\
    forall ids', o = inr ids' ->
      ids' = zip_with merge_confidence ids (scores t) /\
      length (scores t) = length ids /\
      score_queries t = map (fun i => (type i, value i)) ids.
Proof.
  revert s. induction ids as [|identifier ids IH]; intros [l m].
  - exists (inr []), (world m), []. simpl. rewrite app_nil_r.
    destruct m; simpl. split; [reflexivity|]. split; [constructor|].
    intros ids' [= <-]. auto.
  - simpl. unfold bind at 1, update_confidence at 1, bind at 1, call at 1.
    simpl.
    destruct (CompositeValidator_get_confidence_score validator
                (type identifier) (value identifier) (world m))
      as [[e|score] w1] eqn:E.
    + exists (inl e), w1,
        [EvGetConfidenceScore (type identifier) (value identifier) (inl e)].
      split; [reflexivity|]. split.
      * repeat constructor. unfold is_score_query. eauto.
      * discriminate.
    + unfold ret at 1. unfold bind at 1.
      destruct (IH (l, {| world := w1;
                          trace := trace m ++
                            [EvGetConfidenceScore (type identifier)
                               (value identifier) (inr score)] |}))
        as (o & w & t & Hrun & Hq & Hok).
      rewrite Hrun. simpl in *.
      exists (match o with
              | inl e => inl e
              | inr ids' => inr (merge_confidence identifier score :: ids')
              end), w,
        (EvGetConfidenceScore (type identifier) (value identifier)
           (inr score) :: t).
      split.
      * rewrite <- app_assoc. simpl. destruct o; reflexivity.
      * split.
        -- constructor; [unfold is_score_query; eauto | exact Hq].
        -- intros ids'. destruct o as [e|ids'']; [discriminate|].
           intros [= <-]. destruct (Hok ids'' eq_refl) as (-> & Hlen & Hqs).
           simpl. rewrite Hlen, Hqs. auto.
Qed.

End Validation.

(** ** Phase 2 *)

Section Phase2.

Context `{C : Collaborators}.

Lemma recovered_app (t1 t2 : list Event) :
  recovered (t1 ++ t2) = recovered t1 ++ recovered t2.
Proof.
  induction t1 as [|e t1 IH]; simpl; [reflexivity|].
  destruct e as [| | | | | | |url [x|ids]| | |url [x|ids]]; simpl;
    rewrite ?IH; try reflexivity; destruct (truthy ids); reflexivity.
Qed.

Lemma found_app (t1 t2 : list Event) : found (t1 ++ t2) = found t1 ++ found t2.
Proof.
  induction t1 as [|e t1 IH]; simpl; [reflexivity|].
  destruct e as [| | | | | | |url [x|ids]| | |url [x|ids]]; simpl;
    rewrite ?IH, ?app_assoc; reflexivity.
Qed.

Lemma after_sweep_nil (l : Phase2Locals) : after_sweep l [] [] = l.
Proof.
  destruct l as [[ids failed stats] p2 succ]. unfold after_sweep. simpl.
  rewrite !app_nil_r. reflexivity.
Qed.

Lemma after_sweep_app (l : Phase2Locals) (u1 u2 : list string)
    (i1 i2 : list AcademicIdentifier) :
  after_sweep (after_sweep l u1 i1) u2 i2 = after_sweep l (u1 ++ u2) (i1 ++ i2).
Proof.
  unfold after_sweep, set_extraction_stats. simpl.
  rewrite !app_assoc, length_app, Nat.add_comm, Nat.iter_add. reflexivity.
Qed.

(** Lines 73-88.  An attempt always completes; it classifies the URL, calls
    the extractor the classification selects, and books the URL and its
    identifiers when the extractor returned some. *)
Lemma phase2_attempt_run (web_extractor : WebScrapingExtractor)
    (pdf_extractor : PDFExtractor) (url : string)
    (l : Phase2Locals) (m : Machine) :
  exists (w : World) (t : list Event),
    attempt_trace url t /\
    phase2_attempt web_extractor pdf_extractor url (l, m)
      = (inr tt, (after_sweep l (recovered t) (found t),
                  {| world := w; trace := trace m ++ t |})) /\
    (recovered t = [] \/ recovered t = [url]).
Proof.
  unfold phase2_attempt, try_except_pass.
  unfold bind at 1, call at 1. simpl.
  destruct (PDFExtractor_is_pdf_url pdf_extractor url (world m))
    as [[e|is_pdf] w1] eqn:E1.
  { exists w1, [EvIsPdfUrl url (inl e)]. simpl.
    rewrite after_sweep_nil. split; [constructor|]. auto. }
  unfold bind at 1.
  assert (Hext : exists out w2 ev,
    (if is_pdf
     then call (L:=Phase2Locals) (EvPdfExtractFromUrl url)
            (PDFExtractor_extract_from_url pdf_extractor url)
     else call (EvWebExtractFromUrl url)
            (WebScrapingExtractor_extract_from_url web_extractor url))
      (l, {| world := w1; trace := trace m ++ [EvIsPdfUrl url (inr is_pdf)] |})
      = (out, (l, {| world := w2;
                     trace := (trace m ++ [EvIsPdfUrl url (inr is_pdf)])
                                ++ [ev] |})) /\
    attempt_trace url [EvIsPdfUrl url (inr is_pdf); ev] /\
    recovered [ev] = match out with
                     | inr ids => if truthy ids then [url] else []
                     | inl _ => []
                     end /\
    found [ev] = match out with inr ids => ids | inl _ => [] end).
  { destruct is_pdf; unfold call; simpl.
    - destruct (PDFExtractor_extract_from_url pdf_extractor url w1)
        as [out w2].
      exists out, w2, (EvPdfExtractFromUrl url out).
      split; [reflexivity|]. split; [constructor|].
      destruct out as [e|ids]; simpl; rewrite ?app_nil_r; auto.
    - destruct (WebScrapingExtractor_extract_from_url web_extractor url w1)
        as [out w2].
      exists out, w2, (EvWebExtractFromUrl url out).
      split; [reflexivity|]. split; [constructor|].
      destruct out as [e|ids]; simpl; rewrite ?app_nil_r; auto. }
  destruct Hext as (out & w2 & ev & -> & Htr & Hrec & Hfound).
  exists w2, [EvIsPdfUrl url (inr is_pdf); ev].
  change (recovered [EvIsPdfUrl url (inr is_pdf); ev]) with (recovered [ev]).
  change (found [EvIsPdfUrl url (inr is_pdf); ev]) with (found [ev]).
  rewrite Hrec, Hfound, <- app_assoc. simpl.
  split; [exact Htr|].
  destruct out as [e|ids].
  { rewrite after_sweep_nil. auto. }
  destruct ids as [|identifier ids]; simpl.
  { rewrite after_sweep_nil. auto. }
  split; [|auto].
  unfold bind, modify, stats_iadd, bind, read, of_outcome, modify. simpl.
  unfold after_sweep, bump_stats. simpl.
  destruct (dict_iadd "successful_extractions" 1 (extraction_stats (result l)))
    as [e1|d1]; simpl.
  { destruct l as [[? ? ?] ? ?]; reflexivity. }
  destruct (dict_iadd "failed_extractions" (-1) d1) as [e2|d2]; reflexivity.
Qed.

(** Lines 73-88 when the classification raises: the handler of line 86
    takes it, nothing is booked and no extractor is called. *)
Lemma phase2_attempt_unclassified (web_extractor : WebScrapingExtractor)
    (pdf_extractor : PDFExtractor) (url : string)
    (l : Phase2Locals) (m : Machine) (e : Exception) (w1 : World) :
  PDFExtractor_is_pdf_url pdf_extractor url (world m) = (inl e, w1) ->
  phase2_attempt web_extractor pdf_extractor url (l, m)
    = (inr tt, (l, {| world := w1;
                      trace := trace m ++ [EvIsPdfUrl url (inl e)] |})).
Proof.
  intros Hpdf. unfold phase2_attempt, try_except_pass.
  unfold bind at 1, call at 1. simpl. rewrite Hpdf. reflexivity.
Qed.

(** Lines 73-88 when the URL is classified as a PDF: only the PDF
    extractor is called; an exception or an empty list books nothing. *)
Lemma phase2_attempt_pdf (web_extractor : WebScrapingExtractor)
    (pdf_extractor : PDFExtractor) (url : string)
    (l : Phase2Locals) (m : Machine) (w1 w2 : World)
    (out : Outcome (list AcademicIdentifier)) :
  PDFExtractor_is_pdf_url pdf_extractor url (world m) = (inr true, w1) ->
  PDFExtractor_extract_from_url pdf_extractor url w1 = (out, w2) ->
  phase2_attempt web_extractor pdf_extractor url (l, m)
    = (inr tt,
       (match out with
        | inr (identifier :: ids) => after_sweep l [url] (identifier :: ids)
        | _ => l
        end,
        {| world := w2;
           trace := trace m ++ [EvIsPdfUrl url (inr true);
                                EvPdfExtractFromUrl url out] |})).
Proof.
  intros Hpdf Hext. unfold phase2_attempt, try_except_pass.
  unfold bind at 1, call at 1. simpl. rewrite Hpdf.
  unfold bind at 1, call at 1. simpl. rewrite Hext.
  rewrite <- app_assoc. simpl.
  destruct out as [e|[|identifier ids]]; try reflexivity. simpl.
  unfold bind, modify, stats_iadd, bind, read, of_outcome, modify. simpl.
  unfold after_sweep, bump_stats. simpl.
  destruct (dict_iadd "successful_extractions" 1 (extraction_stats (result l)))
    as [e1|d1]; simpl.
  { destruct l as [[? ? ?] ? ?]; reflexivity. }
  destruct (dict_iadd "failed_extractions" (-1) d1) as [e2|d2]; reflexivity.
Qed.

(** Lines 73-88 when the URL is classified as a page: only the Page
    Scraper is called; an exception or an empty list books nothing. *)
Lemma phase2_attempt_web (web_extractor : WebScrapingExtractor)
    (pdf_extractor : PDFExtractor) (url : string)
    (l : Phase2Locals) (m : Machine) (w1 w2 : World)
    (out : Outcome (list AcademicIdentifier)) :
  PDFExtractor_is_pdf_url pdf_extractor url (world m) = (inr false, w1) ->
  WebScrapingExtractor_extract_from_url web_extractor url w1 = (out, w2) ->
  phase2_attempt web_extractor pdf_extractor url (l, m)
    = (inr tt,
       (match out with
        | inr (identifier :: ids) => after_sweep l [url] (identifier :: ids)
        | _ => l
        end,
        {| world := w2;
           trace := trace m ++ [EvIsPdfUrl url (inr false);
                                EvWebExtractFromUrl url out] |})).
Proof.
  intros Hpdf Hext. unfold phase2_attempt, try_except_pass.
  unfold bind at 1, call at 1. simpl. rewrite Hpdf.
  unfold bind at 1, call at 1. simpl. rewrite Hext.
  rewrite <- app_assoc. simpl.
  destruct out as [e|[|identifier ids]]; try reflexivity. simpl.
  unfold bind, modify, stats_iadd, bind, read, of_outcome, modify. simpl.
  unfold after_sweep, bump_stats. simpl.
  destruct (dict_iadd "successful_extractions" 1 (extraction_stats (result l)))
    as [e1|d1]; simpl.
  { destruct l as [[? ? ?] ? ?]; reflexivity. }
  destruct (dict_iadd "failed_extractions" (-1) d1) as [e2|d2]; reflexivity.
Qed.

(** An attempt that recovered nothing found nothing. *)
Lemma attempt_trace_nothing (url : string) (t : list Event) :
  attempt_trace url t -> recovered t = [] -> found t = [].
Proof.
  intros [e|[e|[|identifier ids]]|[e|[|identifier ids]]]; simpl;
    (reflexivity || discriminate).
Qed.

(** Lines 72-88.  The sweep never raises: it attempts every URL of the
    snapshot, in order, and books what the attempts recovered. *)
Lemma phase2_sweep_loop (web_extractor : WebScrapingExtractor)
    (pdf_extractor : PDFExtractor) (snapshot : list string)
    (l : Phase2Locals) (m : Machine) :
  exists (w : World) (ts : list Event),
    sweep_trace snapshot ts /\
    for_each snapshot (phase2_attempt web_extractor pdf_extractor) (l, m)
      = (inr tt, (after_sweep l (recovered ts) (found ts),
                  {| world := w; trace := trace m ++ ts |})) /\
    sublist (recovered ts) snapshot.
Proof.
  revert l m. induction snapshot as [|url snapshot IH]; intros l m.
  - exists (world m), []. simpl. rewrite after_sweep_nil, app_nil_r.
    destruct m. split; [constructor|]. split; [reflexivity|constructor].
  - simpl. unfold bind at 1.
    destruct (phase2_attempt_run web_extractor pdf_extractor url l m)
      as (w1 & t & Ht & -> & Hrec).
    destruct (IH (after_sweep l (recovered t) (found t))
                {| world := w1; trace := trace m ++ t |})
      as (w & ts & Hts & -> & Hsub).
    exists w, (t ++ ts). simpl.
    rewrite after_sweep_app, recovered_app, found_app, app_assoc.
    split; [constructor; assumption|]. split; [reflexivity|].
    destruct Hrec as [-> | ->]; simpl.
    + now apply sublist_cons.
    + now apply sublist_skip.
Qed.

End Phase2.

(** ** The bookkeeping after the sweep *)

Section Bookkeeping.

Context `{C : Collaborators}.

Lemma list_contains_spec (x : string) (l : list string) :
  list_contains x l = true <-> x ∈ l.
Proof. unfold list_contains. apply bool_decide_eq_true. Qed.

Lemma remove_first_absent (x : string) (l : list string) :
  x ∉ l -> remove_first x l = l.
Proof.
  induction l as [|y l IH]; simpl; [reflexivity|].
  intros Hx. destruct (decide (x = y)) as [->|Hne].
  - exfalso. apply Hx. left.
  - f_equal. apply IH. intros Hin. apply Hx. now right.
Qed.

Lemma remove_first_perm (x : string) (l : list string) :
  x ∈ l -> Permutation l (x :: remove_first x l).
Proof.
  induction l as [|y l IH]; simpl.
  - intros H. inversion H.
  - intros Hin. destruct (decide (x = y)) as [->|Hne]; [reflexivity|].
    apply elem_of_cons in Hin as [?|Hin]; [congruence|].
    rewrite (IH Hin) at 1. apply perm_swap.
Qed.

Lemma remove_first_subset (x y : string) (l : list string) :
  y ∈ remove_first x l -> y ∈ l.
Proof.
  induction l as [|z l IH]; simpl; [auto|].
  destruct (decide (x = z)) as [->|Hne].
  - intros H. now right.
  - intros H. apply elem_of_cons in H as [->|H]; [left|right; auto].
Qed.

(** Lines 91-93 take exactly the successful URLs out of the failed ones,
    one occurrence for each. *)
Lemma remove_all_perm (successful failed : list string) :
  successful ⊆+ failed ->
  Permutation failed (successful ++ remove_all successful failed).
Proof.
  revert failed. induction successful as [|x successful IH]; intros failed Hsub.
  - reflexivity.
  - assert (Hin : x ∈ failed).
    { eapply elem_of_submseteq; [left|exact Hsub]. }
    pose proof (remove_first_perm x failed Hin) as Hperm.
    assert (Hsub' : successful ⊆+ remove_first x failed).
    { apply (submseteq_app_inv_l _ _ [x]). simpl. now rewrite <- Hperm. }
    change (remove_all (x :: successful) failed)
      with (remove_all successful (remove_first x failed)).
    simpl. rewrite Hperm at 1. constructor. now apply IH.
Qed.

Lemma remove_all_subset (successful failed : list string) (y : string) :
  y ∈ remove_all successful failed -> y ∈ failed.
Proof.
  revert failed. induction successful as [|x successful IH]; intros failed;
    [auto|].
  change (remove_all (x :: successful) failed)
    with (remove_all successful (remove_first x failed)).
  intros H. eapply remove_first_subset, IH, H.
Qed.

(** A URL that is not among the successful ones is not removed. *)
Lemma remove_all_keeps (successful failed : list string) (y : string) :
  y ∈ failed -> y ∉ successful -> y ∈ remove_all successful failed.
Proof.
  revert failed. induction successful as [|x successful IH]; intros failed;
    [auto|].
  intros Hin Hnot.
  change (remove_all (x :: successful) failed)
    with (remove_all successful (remove_first x failed)).
  apply IH.
  - clear IH. induction failed as [|z failed IHf]; simpl; [inversion Hin|].
    destruct (decide (x = z)) as [->|Hne].
    + apply elem_of_cons in Hin as [->|Hin]; [|exact Hin].
      exfalso. apply Hnot. left.
    + apply elem_of_cons in Hin as [->|Hin]; [left|right; auto].
  - intros H. apply Hnot. now right.
Qed.

(** Line 93 is guarded by line 92, so [list.remove] never raises there. *)
Lemma remove_successful_url_run (url : string) (l : Phase2Locals) (m : Machine) :
  remove_successful_url url (l, m)
    = (inr tt, (set_result l (set_failed_urls (result l)
                  (remove_first url (failed_urls (result l)))), m)).
Proof.
  unfold remove_successful_url, bind, read, list_remove, of_outcome, modify.
  simpl. destruct (list_contains url (failed_urls (result l))) eqn:E.
  - reflexivity.
  - unfold ret. rewrite remove_first_absent.
    + destruct l as [[? ? ?] ? ?]; reflexivity.
    + intros Hin. apply list_contains_spec in Hin. congruence.
Qed.

Lemma remove_successful_urls_loop (urls : list string) (l : Phase2Locals)
    (m : Machine) :
  for_each urls remove_successful_url (l, m)
    = (inr tt, (set_result l (set_failed_urls (result l)
                  (remove_all urls (failed_urls (result l)))), m)).
Proof.
  revert l. induction urls as [|url urls IH]; intros l.
  - simpl. destruct l as [[? ? ?] ? ?]; reflexivity.
  - simpl. unfold bind at 1. rewrite remove_successful_url_run, IH.
    destruct l as [[? ? ?] ? ?]; reflexivity.
Qed.

(** Lines 91-93. *)
Lemma remove_successful_urls_run (l : Phase2Locals) (m : Machine) :
  remove_successful_urls (l, m)
    = (inr tt, (set_result l (set_failed_urls (result l)
                  (remove_all (successful_urls l) (failed_urls (result l)))),
                m)).
Proof.
  unfold remove_successful_urls, bind at 1, read. simpl.
  apply remove_successful_urls_loop.
Qed.

(** Lines 99-105: the loop does what [add_counts] computes, and raises
    exactly when [add_counts] does. *)
Lemma update_type_counts_loop (ids : list AcademicIdentifier)
    (l : Phase2Locals) (m : Machine) :
  exists l' : Phase2Locals,
    for_each ids (fun identifier => stats_iadd (count_key (type identifier)) 1)
      (l, m)
      = (match add_counts ids (extraction_stats (result l)) with
         | inr _ => inr tt
         | inl e => inl e
         end, (l', m)) /\
    forall d, add_counts ids (extraction_stats (result l)) = inr d ->
      l' = set_result l (set_extraction_stats (result l) d).
Proof.
  revert l. induction ids as [|identifier ids IH]; intros l.
  - exists l. simpl. split; [reflexivity|].
    intros d [= <-]. destruct l as [[? ? ?] ? ?]; reflexivity.
  - simpl. unfold bind at 1, stats_iadd, bind, read, of_outcome, modify.
    simpl.
    destruct (dict_iadd (count_key (type identifier)) 1
                (extraction_stats (result l))) as [e|d1].
    + exists l. split; [reflexivity|discriminate].
    + destruct (IH (set_result l (set_extraction_stats (result l) d1)))
        as (l' & Hrun & Hok).
      exists l'. simpl in *. split; [exact Hrun|].
      intros d Hd. rewrite (Hok d Hd).
      destruct l as [[? ? ?] ? ?]; reflexivity.
Qed.

(** Lines 63-105 with Phase 2 switched off or nothing to retry. *)
Lemma phase2_step_skipped {L} (use_web_scraping : bool)
    (r : IdentifierExtractionResult) (s : L * Machine) :
  use_web_scraping && truthy (failed_urls r) = false ->
  phase2_step use_web_scraping r s = (inr r, s).
Proof. unfold phase2_step. intros ->. reflexivity. Qed.

(** Lines 63-105 when Phase 2 runs and both extractors are constructed:
    the sweep over the failed URLs, the removals, the appended identifiers
    and the type counts. *)
Lemma phase2_step_run {L} (r : IdentifierExtractionResult) (s : L * Machine)
    (web_extractor : WebScrapingExtractor) (pdf_extractor : PDFExtractor)
    (w1 w2 : World) :
  truthy (failed_urls r) = true ->
  WebScrapingExtractor_init (world (snd s)) = (inr web_extractor, w1) ->
  PDFExtractor_init w1 = (inr pdf_extractor, w2) ->
  exists (w : World) (ts : list Event),
    sweep_trace (failed_urls r) ts /\
    sublist (recovered ts) (failed_urls r) /\
    phase2_step true r s
      = (match add_counts (found ts)
                 (Nat.iter (length (recovered ts)) bump_stats
                    (extraction_stats r)) with
         | inr d =>
             inr {| identifiers := identifiers r ++ found ts;
                    failed_urls := remove_all (recovered ts) (failed_urls r);
                    extraction_stats := d |}
         | inl e => inl e
         end,
         (fst s,
          {| world := w;
             trace := trace (snd s) ++
               EvWebScrapingExtractor (inr web_extractor)
               :: EvPDFExtractor (inr pdf_extractor) :: ts |})).
Proof.
  intros Hfailed Hweb Hpdf. destruct s as [l0 m]. simpl in *.
  unfold phase2_step. rewrite Hfailed. simpl.
  unfold bind at 1, call at 1. simpl. rewrite Hweb.
  unfold bind at 1, call at 1. simpl. rewrite Hpdf.
  unfold with_locals. simpl.
  unfold bind at 1, phase2_sweep, bind at 1, read at 1. simpl.
  destruct (phase2_sweep_loop web_extractor pdf_extractor (failed_urls r)
              {| result := r; phase2_identifiers := [];
                 successful_urls := [] |}
              {| world := w2;
                 trace := (trace m ++ [EvWebScrapingExtractor (inr web_extractor)])
                          ++ [EvPDFExtractor (inr pdf_extractor)] |})
    as (w & ts & Hts & -> & Hsub).
  exists w, ts. split; [exact Hts|]. split; [exact Hsub|].
  unfold bind at 1. rewrite remove_successful_urls_run.
  unfold bind at 1, add_phase2_identifiers, modify at 1. simpl.
  unfold bind at 1, update_type_counts, bind at 1, read at 1. simpl.
  match goal with
  | |- context [for_each ?ids _ (?l, ?m)] =>
      destruct (update_type_counts_loop ids l m) as (l' & -> & Hok)
  end.
  simpl in *. rewrite <- !app_assoc. simpl.
  destruct (add_counts (found ts)
              (Nat.iter (length (recovered ts)) bump_stats
                 (extraction_stats r))) as [e|d].
  - reflexivity.
  - rewrite (Hok d eq_refl). reflexivity.
Qed.

End Bookkeeping.

(** ** The statistics *)

Section Statistics.

Lemma count_key_inj (t1 t2 : IdentifierType) :
  count_key t1 = count_key t2 -> t1 = t2.
Proof. destruct t1, t2; simpl; congruence. Qed.

Lemma count_key_not_extractions (t : IdentifierType) :
  count_key t <> "successful_extractions" /\
  count_key t <> "failed_extractions".
Proof. destruct t; simpl; split; discriminate. Qed.

Lemma count_type_cons (t : IdentifierType) (identifier : AcademicIdentifier)
    (ids : list AcademicIdentifier) :
  count_type t (identifier :: ids)
    = (if decide (type identifier = t) then 1 else 0) + count_type t ids.
Proof.
  unfold count_type. rewrite filter_cons.
  destruct (decide (type identifier = t)); simpl length; lia.
Qed.


Lemma dict_iadd_inr (key : string) (n : Z) (d d' : gmap string Z) :
  dict_iadd key n d = inr d' ->
  exists v, d !! key = Some v /\ d' = <[key := v + n]> d.
Proof.
  unfold dict_iadd. destruct (d !! key) as [v|]; [|discriminate].
  intros [= <-]. eauto.
Qed.

Lemma dict_iadd_present (key : string) (n v : Z) (d : gmap string Z) :
  d !! key = Some v -> dict_iadd key n d = inr (<[key := v + n]> d).
Proof. unfold dict_iadd. now intros ->. Qed.

Lemma dict_iadd_other (key k : string) (n : Z) (d d' : gmap string Z) :
  dict_iadd key n d = inr d' -> k <> key -> d' !! k = d !! k.
Proof.
  intros H Hne. apply dict_iadd_inr in H as (v & _ & ->).
  now rewrite lookup_insert_ne.
Qed.

(** Lines 84-85 leave every other entry alone. *)
Lemma bump_stats_other (d : gmap string Z) (k : string) :
  k <> "successful_extractions" -> k <> "failed_extractions" ->
  bump_stats d !! k = d !! k.
Proof.
  intros H1 H2. unfold bump_stats.
  destruct (dict_iadd "successful_extractions" 1 d) as [e|d1] eqn:E1;
    [reflexivity|].
  destruct (dict_iadd "failed_extractions" (-1) d1) as [e|d2] eqn:E2.
  - now apply (dict_iadd_other _ _ _ _ _ E1).
  - rewrite (dict_iadd_other _ _ _ _ _ E2 H2).
    now apply (dict_iadd_other _ _ _ _ _ E1).
Qed.

(** Lines 84-85 on a dict that has both entries: one up, one down. *)
Lemma bump_stats_present (d : gmap string Z) (s f : Z) :
  d !! "successful_extractions" = Some s ->
  d !! "failed_extractions" = Some f ->
  bump_stats d !! "successful_extractions" = Some (s + 1) /\
  bump_stats d !! "failed_extractions" = Some (f - 1).
Proof.
  intros Hs Hf. unfold bump_stats.
  rewrite (dict_iadd_present _ _ _ _ Hs).
  assert (Hf' : <["successful_extractions" := s + 1]> d
                  !! "failed_extractions" = Some f)
    by (rewrite lookup_insert_ne; [exact Hf|discriminate]).
  rewrite (dict_iadd_present _ _ _ _ Hf').
  split.
  - rewrite lookup_insert_ne by discriminate. apply lookup_insert_eq.
  - rewrite lookup_insert_eq. f_equal.
Qed.

Lemma iter_bump_stats_other (n : nat) (d : gmap string Z) (k : string) :
  k <> "successful_extractions" -> k <> "failed_extractions" ->
  Nat.iter n bump_stats d !! k = d !! k.
Proof.
  intros H1 H2. induction n as [|n IH]; simpl; [reflexivity|].
  now rewrite bump_stats_other.
Qed.

(** After [n] recoveries: [n] up and [n] down. *)
Lemma iter_bump_stats_present (n : nat) (d : gmap string Z) (s f : Z) :
  d !! "successful_extractions" = Some s ->
  d !! "failed_extractions" = Some f ->
  Nat.iter n bump_stats d !! "successful_extractions"
    = Some (s + Z.of_nat n) /\
  Nat.iter n bump_stats d !! "failed_extractions" = Some (f - Z.of_nat n).
Proof.
  intros Hs Hf. induction n as [|n [IHs IHf]]; simpl Nat.iter.
  - rewrite Hs, Hf. split; f_equal; lia.
  - destruct (bump_stats_present _ _ _ IHs IHf) as [-> ->].
    split; f_equal; lia.
Qed.

(** Lines 99-105: each identifier adds one to the count of its type, and
    nothing else changes. *)
Lemma add_counts_lookup (ids : list AcademicIdentifier) (d d' : gmap string Z) :
  add_counts ids d = inr d' ->
  (forall t, d' !! count_key t
             = (fun v => v + count_type t ids) <$> d !! count_key t) /\
  (forall k, (forall t, k <> count_key t) -> d' !! k = d !! k).
Proof.
  revert d. induction ids as [|identifier ids IH]; intros d; simpl.
  - intros [= <-]. split; [|reflexivity].
    intros t. destruct (d !! count_key t); simpl; [|reflexivity].
    f_equal. unfold count_type. simpl. lia.
  - destruct (dict_iadd (count_key (type identifier)) 1 d) as [e|d1] eqn:E;
      [discriminate|].
    intros H. destruct (IH _ H) as [IHc IHo].
    apply dict_iadd_inr in E as (v & Hv & ->). split.
    + intros t. rewrite IHc, count_type_cons.
      destruct (decide (type identifier = t)) as [<-|Hne].
      * rewrite lookup_insert_eq, Hv. simpl. f_equal. lia.
      * rewrite lookup_insert_ne
          by (intros Heq; apply Hne; now apply count_key_inj).
        destruct (d !! count_key t); simpl; [f_equal; lia|reflexivity].
    + intros k Hk. rewrite IHo by exact Hk.
      apply lookup_insert_ne. intros Heq. now apply (Hk (type identifier)).
Qed.







End Statistics.

(** ** The entry points, call by call *)

Section EntryPoints.

Context `{C : Collaborators}.

Lemma set_identifiers_same (r : IdentifierExtractionResult) :
  set_identifiers r (identifiers r) = r.
Proof. destruct r; reflexivity. Qed.

(** Lines 49-60.  The step calls nothing but the validator, and when it
    completes the result differs from the one it started on by the merged
    confidences only. *)
Lemma validation_step_run {L} (use_api use_metapub : bool)
    (r : IdentifierExtractionResult) (s : L * Machine) :
  exists (o : Outcome IdentifierExtractionResult) (w : World) (tv : list Event),
    validation_step use_api use_metapub r s
      = (o, (fst s, {| world := w; trace := trace (snd s) ++ tv |})) /\
    Forall (fun e => is_phase2_event e = false) tv /\
    forall r', o = inr r' ->
      validation_trace use_api use_metapub (identifiers r) tv /\
      r' = set_identifiers r
             (validated use_api use_metapub (identifiers r) (scores tv)).
Proof.
  destruct s as [l m]. unfold validation_step, validated.
  destruct (use_api || use_metapub) eqn:Hflags.
  - unfold bind at 1, call at 1. simpl.
    destruct (CompositeValidator_init use_api use_metapub (world m))
      as [[e|validator] w1].
    + exists (inl e), w1, [EvCompositeValidator use_api use_metapub (inl e)].
      split; [reflexivity|]. split; [repeat constructor|discriminate].
    + unfold bind at 1.
      destruct (validation_loop validator (identifiers r)
                  (l, {| world := w1;
                         trace := trace m ++
                           [EvCompositeValidator use_api use_metapub
                              (inr validator)] |}))
        as (o & w & tq & -> & Hq & Hok).
      simpl in *.
      exists (match o with
              | inl e => inl e
              | inr ids => inr (set_identifiers r ids)
              end), w,
        (EvCompositeValidator use_api use_metapub (inr validator) :: tq).
      split; [destruct o; unfold ret; rewrite <- app_assoc; reflexivity|].
      split; [constructor; [reflexivity|now apply score_query_not_phase2]|].
      intros r'. destruct o as [e|ids]; [discriminate|]. intros [= <-].
      destruct (Hok ids eq_refl) as (-> & Hlen & Hqs).
      split; [now constructor|reflexivity].
  - exists (inr r), (world m), []. simpl. rewrite app_nil_r. destruct m.
    split; [reflexivity|]. split; [constructor|].
    intros r' [= <-]. split; [now constructor|].
    now rewrite set_identifiers_same.
Qed.

Lemma sweep_trace_events (urls : list string) (ts : list Event) :
  sweep_trace urls ts ->
  Forall (fun e => is_phase2_event e = true /\ is_validator_event e = false) ts
  /\ scores ts = [] /\ score_queries ts = [].
Proof.
  induction 1 as [|url urls t ts Ht _ (IH1 & IH2 & IH3)].
  - repeat split; constructor.
  - rewrite scores_app, score_queries_app, IH2, IH3.
    split; [apply Forall_app; split; [|exact IH1]|].
    + destruct Ht; repeat constructor.
    + destruct Ht as [e|[e|ids]|[e|ids]]; auto.
Qed.

(** Lines 11-107.  A batch call that returns made these calls, in this
    order: Phase 1, the validation step, Phase 2; and its result is the
    Phase 1 result with the confidences merged, the recovered URLs removed,
    the found identifiers appended and the statistics brought up to
    date. *)
Lemma bibliography_returned (urls : list string)
    (use_web_scraping use_api use_metapub : bool) (w : World)
    (r : IdentifierExtractionResult) (m : Machine) :
  run (extract_identifiers_from_bibliography urls use_web_scraping use_api
         use_metapub) w = (inr r, m) ->
  exists (extractor : JournalURLExtractor) (r1 : IdentifierExtractionResult)
         (tv t2 : list Event),
    trace m = EvJournalURLExtractor (inr extractor)
              :: EvExtractFromUrls urls (inr r1) :: tv ++ t2 /\
    validation_trace use_api use_metapub (identifiers r1) tv /\
    phase2_trace use_web_scraping (failed_urls r1) t2 /\
    sublist (recovered t2) (failed_urls r1) /\
    identifiers r
      = validated use_api use_metapub (identifiers r1) (scores tv) ++ found t2 /\
    failed_urls r = remove_all (recovered t2) (failed_urls r1) /\
    add_counts (found t2)
      (Nat.iter (length (recovered t2)) bump_stats (extraction_stats r1))
      = inr (extraction_stats r).
Proof.
  unfold run, extract_identifiers_from_bibliography.
  unfold bind at 1, call at 1. simpl.
  destruct (JournalURLExtractor_init w) as [[e|extractor] w1];
    [discriminate|].
  unfold bind at 1, call at 1. simpl.
  destruct (JournalURLExtractor_extract_from_urls extractor urls w1)
    as [[e|r1] w2]; [discriminate|].
  unfold bind at 1.
  match goal with
  | |- context [validation_step _ _ _ ?s] =>
      destruct (validation_step_run use_api use_metapub r1 s)
        as (o & w3 & tv & -> & Hnp & Hok)
  end.
  destruct o as [e|rv]; [discriminate|].
  destruct (Hok rv eq_refl) as (Htv & ->). clear Hok. simpl.
  destruct (use_web_scraping && truthy (failed_urls r1)) eqn:Hp2.
  - apply andb_true_iff in Hp2 as H12. destruct H12 as [-> Hfailed].
    destruct (WebScrapingExtractor_init w3) as [[e|web] w4] eqn:Hweb.
    { unfold phase2_step. simpl. rewrite Hfailed.
      unfold bind at 1, call at 1. simpl. rewrite Hweb. discriminate. }
    destruct (PDFExtractor_init w4) as [[e|pdf] w5] eqn:Hpdf.
    { unfold phase2_step. simpl. rewrite Hfailed.
      unfold bind at 1, call at 1. simpl. rewrite Hweb.
      unfold bind at 1, call at 1. simpl. rewrite Hpdf. discriminate. }
    match goal with
    | |- context [phase2_step true ?rv ?s] =>
        destruct (phase2_step_run rv s web pdf w4 w5 Hfailed Hweb Hpdf)
          as (w6 & ts & Hts & Hsub & ->)
    end.
    simpl.
    destruct (add_counts (found ts) _) as [e|d] eqn:Hcounts; [discriminate|].
    intros [= <- <-]. simpl.
    exists extractor, r1, tv,
      (EvWebScrapingExtractor (inr web) :: EvPDFExtractor (inr pdf) :: ts).
    simpl in *.
    repeat split; try assumption; try reflexivity.
    now constructor.
  - rewrite phase2_step_skipped by exact Hp2.
    intros [= <- <-]. simpl.
    exists extractor, r1, tv, []. simpl. rewrite app_nil_r.
    repeat split; try assumption; try reflexivity.
    + now constructor.
    + apply sublist_nil_l.
    + now rewrite app_nil_r.
Qed.

(** Lines 43-60 have no handler: an exception of Phase 1 or of the
    validator's constructor leaves the batch call as it is. *)
Lemma bibliography_phase1_raises (urls : list string)
    (use_web_scraping use_api use_metapub : bool) (w w1 w2 : World)
    (extractor : JournalURLExtractor) (e : Exception) :
  JournalURLExtractor_init w = (inr extractor, w1) ->
  JournalURLExtractor_extract_from_urls extractor urls w1 = (inl e, w2) ->
  run (extract_identifiers_from_bibliography urls use_web_scraping use_api
         use_metapub) w
    = (inl e, {| world := w2;
                 trace := [EvJournalURLExtractor (inr extractor);
                           EvExtractFromUrls urls (inl e)] |}).
Proof.
  intros Hinit Hp1. unfold run, extract_identifiers_from_bibliography.
  unfold bind at 1, call at 1. simpl. rewrite Hinit.
  unfold bind at 1, call at 1. simpl. rewrite Hp1. reflexivity.
Qed.

Lemma bibliography_validator_raises (urls : list string)
    (use_web_scraping use_api use_metapub : bool) (w w1 w2 w3 : World)
    (extractor : JournalURLExtractor) (r1 : IdentifierExtractionResult)
    (e : Exception) :
  JournalURLExtractor_init w = (inr extractor, w1) ->
  JournalURLExtractor_extract_from_urls extractor urls w1 = (inr r1, w2) ->
  use_api || use_metapub = true ->
  CompositeValidator_init use_api use_metapub w2 = (inl e, w3) ->
  run (extract_identifiers_from_bibliography urls use_web_scraping use_api
         use_metapub) w
    = (inl e, {| world := w3;
                 trace := [EvJournalURLExtractor (inr extractor);
                           EvExtractFromUrls urls (inr r1);
                           EvCompositeValidator use_api use_metapub (inl e)] |}).
Proof.
  intros Hinit Hp1 Hflags Hval.
  unfold run, extract_identifiers_from_bibliography.
  unfold bind at 1, call at 1. simpl. rewrite Hinit.
  unfold bind at 1, call at 1. simpl. rewrite Hp1.
  unfold bind at 1, validation_step. rewrite Hflags.
  unfold bind at 1, call at 1. simpl. rewrite Hval. reflexivity.
Qed.




End EntryPoints.

(** ** Reading a whole call off its trace *)

Section Readings.

Context `{C : Collaborators}.

Lemma validation_trace_readings (use_api use_metapub : bool)
    (ids : list AcademicIdentifier) (tv : list Event) :
  validation_trace use_api use_metapub ids tv ->
  recovered tv = [] /\ found tv = [] /\ phase1_result tv = None /\
  Forall (fun e => is_phase2_event e = false) tv /\
  score_queries tv
    = (if use_api || use_metapub
       then map (fun i => (type i, value i)) ids else []) /\
  (use_api || use_metapub = true -> length (scores tv) = length ids).
Proof.
  intros [Hoff|validator tq Hon Hq Hqs Hlen].
  - rewrite Hoff. repeat split; try constructor. discriminate.
  - rewrite Hon. simpl. destruct (score_query_found tq Hq) as [-> ->].
    repeat split; try assumption; try reflexivity.
    + clear Hqs Hlen. induction Hq as [|e t (ty & v & out & ->) _ IH];
        [reflexivity|exact IH].
    + constructor; [reflexivity|now apply score_query_not_phase2].
    + intros _. exact Hlen.
Qed.

Lemma phase2_trace_readings (use_web_scraping : bool) (failed : list string)
    (t2 : list Event) :
  phase2_trace use_web_scraping failed t2 ->
  scores t2 = [] /\ score_queries t2 = [] /\
  Forall (fun e => is_validator_event e = false) t2.
Proof.
  intros [Hoff|web pdf ts Hon Hts].
  - repeat split; constructor.
  - destruct (sweep_trace_events _ _ Hts) as (Hev & Hs & Hq). simpl.
    repeat split; try assumption.
    repeat (constructor; [reflexivity|]).
    eapply Forall_impl; [exact Hev|]. now intros e [_ He].
Qed.

(** Lines 11-107, read off the trace of a batch call that returned. *)
Lemma bibliography_summary (urls : list string)
    (use_web_scraping use_api use_metapub : bool) (w : World)
    (r : IdentifierExtractionResult) (m : Machine) :
  run (extract_identifiers_from_bibliography urls use_web_scraping use_api
         use_metapub) w = (inr r, m) ->
  exists r1 : IdentifierExtractionResult,
    phase1_result (trace m) = Some r1 /\
    identifiers r
      = validated use_api use_metapub (identifiers r1) (scores (trace m))
        ++ found (trace m) /\
    failed_urls r = remove_all (recovered (trace m)) (failed_urls r1) /\
    add_counts (found (trace m))
      (Nat.iter (length (recovered (trace m))) bump_stats
         (extraction_stats r1))
      = inr (extraction_stats r) /\
    sublist (recovered (trace m)) (failed_urls r1) /\
    (use_api || use_metapub = true ->
     length (scores (trace m)) = length (identifiers r1)) /\
    score_queries (trace m)
      = (if use_api || use_metapub
         then map (fun i => (type i, value i)) (identifiers r1) else []).
Proof.
  intros Hrun.
  destruct (bibliography_returned _ _ _ _ _ _ _ Hrun)
    as (extractor & r1 & tv & t2 & Htrace & Htv & Ht2 & Hsub & Hids & Hfailed
        & Hcounts).
  destruct (validation_trace_readings _ _ _ _ Htv)
    as (Hr & Hf & _ & _ & Hq & Hlen).
  destruct (phase2_trace_readings _ _ _ Ht2) as (Hs2 & Hq2 & _).
  exists r1. rewrite Htrace. simpl.
  rewrite recovered_app, found_app, scores_app, score_queries_app.
  rewrite Hr, Hf, Hs2, Hq2, Hq. simpl. rewrite !app_nil_r.
  repeat split; assumption.
Qed.

End Readings.

(** ** The single-URL call *)

Section SingleUrl.

Context `{C : Collaborators}.

(** Lines 130-145 when the extractor cannot be constructed. *)
Lemma url_call_no_extractor (url : string) (use_api use_metapub : bool)
    (w w1 : World) (e : Exception) :
  JournalURLExtractor_init w = (inl e, w1) ->
  run (extract_identifiers_from_url url use_api use_metapub) w
    = (inl e, {| world := w1; trace := [EvJournalURLExtractor (inl e)] |}).
Proof.
  intros Hinit. unfold run, extract_identifiers_from_url.
  unfold bind at 1, call at 1. simpl. rewrite Hinit. reflexivity.
Qed.

(** Lines 130-145 when line 134 is false: the call is the Pattern
    Extractor's call. *)
Lemma url_call_unvalidated (url : string) (use_api use_metapub : bool)
    (w w1 w2 : World) (extractor : JournalURLExtractor)
    (out : Outcome (list AcademicIdentifier)) :
  JournalURLExtractor_init w = (inr extractor, w1) ->
  JournalURLExtractor_extract_from_url extractor url w1 = (out, w2) ->
  match out with
  | inr ids => (use_api || use_metapub) && truthy ids = false
  | inl _ => True
  end ->
  run (extract_identifiers_from_url url use_api use_metapub) w
    = (out, {| world := w2;
               trace := [EvJournalURLExtractor (inr extractor);
                         EvExtractFromUrl url out] |}).
Proof.
  intros Hinit Hext Hcond. unfold run, extract_identifiers_from_url.
  unfold bind at 1, call at 1. simpl. rewrite Hinit.
  unfold bind at 1, call at 1. simpl. rewrite Hext.
  destruct out as [e|ids]; [reflexivity|].
  rewrite Hcond. reflexivity.
Qed.

(** Lines 130-145 when line 134 is true: the validator is constructed and
    the loop of lines 139-143 runs. *)
Lemma url_call_validated (url : string) (use_api use_metapub : bool)
    (w w1 w2 : World) (extractor : JournalURLExtractor)
    (ids1 : list AcademicIdentifier) :
  JournalURLExtractor_init w = (inr extractor, w1) ->
  JournalURLExtractor_extract_from_url extractor url w1 = (inr ids1, w2) ->
  (use_api || use_metapub) && truthy ids1 = true ->
  exists (o : Outcome (list AcademicIdentifier)) (w3 : World)
         (outv : Outcome CompositeValidator) (tq : list Event),
    run (extract_identifiers_from_url url use_api use_metapub) w
      = (o, {| world := w3;
               trace := EvJournalURLExtractor (inr extractor)
                        :: EvExtractFromUrl url (inr ids1)
                        :: EvCompositeValidator use_api use_metapub outv
                        :: tq |}) /\
    Forall is_score_query tq /\
    forall ids, o = inr ids ->
      ids = zip_with merge_confidence ids1 (scores tq) /\
      length (scores tq) = length ids1.
Proof.
  intros Hinit Hext Hcond. unfold run, extract_identifiers_from_url.
  unfold bind at 1, call at 1. simpl. rewrite Hinit.
  unfold bind at 1, call at 1. simpl. rewrite Hext, Hcond.
  unfold bind at 1, call at 1. simpl.
  destruct (CompositeValidator_init use_api use_metapub w2)
    as [[e|validator] w3].
  - exists (inl e), w3, (inl e), []. simpl.
    split; [reflexivity|]. split; [constructor|discriminate].
  - match goal with
    | |- context [for_each_update _ _ ?s] =>
        destruct (validation_loop validator ids1 s)
          as (o & w4 & tq & -> & Hq & Hok)
    end.
    exists o, w4, (inr validator), tq. simpl.
    split; [reflexivity|]. split; [exact Hq|].
    intros ids Ho. destruct (Hok ids Ho) as (? & ? & _). auto.
Qed.

End SingleUrl.

(** ** Merging confidences *)

Section Merging.

Lemma confidence_raised_refl (identifier : AcademicIdentifier) :
  confidence_raised identifier identifier.
Proof.
  repeat split.
  - apply ltb_irrefl.
  - apply leb_refl.
Qed.

(** Lines 60 and 143 raise the confidence and touch nothing else. *)
Lemma merge_confidence_raised (identifier : AcademicIdentifier) (score : float) :
  confidence_raised identifier (merge_confidence identifier score).
Proof.
  repeat split; simpl.
  - apply py_max_not_below.
  - apply py_max_ge.
Qed.

Lemma zip_with_merge_raised (ids : list AcademicIdentifier) (given : list float) :
  length given = length ids ->
  Forall2 confidence_raised ids (zip_with merge_confidence ids given).
Proof.
  revert given. induction ids as [|identifier ids IH]; intros [|score given];
    simpl; try discriminate; intros Hlen; constructor.
  - apply merge_confidence_raised.
  - apply IH. congruence.
Qed.

Lemma validated_raised (use_api use_metapub : bool)
    (ids : list AcademicIdentifier) (given : list float) :
  (use_api || use_metapub = true -> length given = length ids) ->
  Forall2 confidence_raised ids (validated use_api use_metapub ids given).
Proof.
  unfold validated. destruct (use_api || use_metapub); intros Hlen.
  - now apply zip_with_merge_raised, Hlen.
  - clear Hlen. induction ids; constructor;
      auto using confidence_raised_refl.
Qed.

Lemma raised_same_identity (pre post : list AcademicIdentifier) :
  Forall2 confidence_raised pre post -> Forall2 same_identity pre post.
Proof. intros H. eapply Forall2_impl; [exact H|]. now intros ? ? [? _]. Qed.


End Merging.

(** ** The properties of the pipeline *)

Section Properties.

Context `{C : Collaborators}.

(** C1.  Confidence is monotone non-decreasing across the stages.  In a
    batch call that returns, the identifiers of the result are those of
    Phase 1, each with its confidence replaced by the [max] of that
    confidence and the score the validator gave (or left alone when no
    validation was asked for), followed by whatever came later; in a
    single-URL call that returns, they are those of the Pattern Extractor
    merged in the same way.  In both, every identifier keeps its type,
    value and source URL, its confidence is never below the one it had,
    and it is [>=] the one it had whenever that one is a number. *)
Theorem confidence_is_monotone :
  (forall (urls : list string) (use_web_scraping use_api use_metapub : bool)
          (w : World) (r r1 : IdentifierExtractionResult) (m : Machine),
      run (extract_identifiers_from_bibliography urls use_web_scraping
             use_api use_metapub) w = (inr r, m) ->
      phase1_result (trace m) = Some r1 ->
      exists later : list AcademicIdentifier,
        identifiers r
          = validated use_api use_metapub (identifiers r1) (scores (trace m))
            ++ later /\
        Forall2 confidence_raised (identifiers r1)
          (validated use_api use_metapub (identifiers r1)
             (scores (trace m)))) /\
  (forall (url : string) (use_api use_metapub : bool) (w : World)
          (ids ids1 : list AcademicIdentifier) (m : Machine),
      run (extract_identifiers_from_url url use_api use_metapub) w
        = (inr ids, m) ->
      phase1_identifiers (trace m) = Some ids1 ->
      ids = validated use_api use_metapub ids1 (scores (trace m)) /\
      Forall2 confidence_raised ids1 ids).
Proof.
  split.
  - intros urls ws a b w r r1 m Hrun Hp1.
    destruct (bibliography_summary _ _ _ _ _ _ _ Hrun)
      as (r1' & Hp1' & Hids & _ & _ & _ & Hlen & _).
    assert (r1' = r1) as -> by congruence.
    exists (found (trace m)). split; [exact Hids|].
    now apply validated_raised.
  - intros url a b w ids ids1 m Hrun Hp1.
    destruct (JournalURLExtractor_init w) as [[e|extractor] w1] eqn:Hinit.
    { rewrite (url_call_no_extractor _ _ _ _ _ _ Hinit) in Hrun.
      discriminate. }
    destruct (JournalURLExtractor_extract_from_url extractor url w1)
      as [out w2] eqn:Hext.
    destruct out as [e|ids0].
    { rewrite (url_call_unvalidated _ _ _ _ _ _ _ _ Hinit Hext I) in Hrun.
      discriminate. }
    destruct ((a || b) && truthy ids0) eqn:Hcond.
    + destruct (url_call_validated _ _ _ _ _ _ _ _ Hinit Hext Hcond)
        as (o & w3 & outv & tq & Hrun' & Hq & Hok).
      rewrite Hrun' in Hrun. injection Hrun as -> <-.
      simpl in Hp1. injection Hp1 as <-. simpl.
      destruct (Hok ids eq_refl) as (-> & Hlen).
      apply andb_true_iff in Hcond as [Hflags _].
      unfold validated. rewrite Hflags.
      split; [reflexivity|now apply zip_with_merge_raised].
    + rewrite (url_call_unvalidated _ _ _ _ _ _ _ _ Hinit Hext Hcond) in Hrun.
      injection Hrun as <- <-. simpl in Hp1. injection Hp1 as <-. simpl.
      unfold validated. destruct (a || b); simpl in Hcond.
      * destruct ids0; [|discriminate]. split; constructor.
      * split; [reflexivity|].
        clear Hext Hcond.
        induction ids0; constructor; auto using confidence_raised_refl.
Qed.

(** C6.  The validation step of the batch call only adjusts confidences.
    When it completes, the result has the same failed URLs and the same
    statistics as before, and its identifiers are the former ones, position
    by position, each with the same type, value and source URL; the local
    variables of the caller are untouched and it called nothing but the
    validator. *)
Theorem validation_step_only_adjusts_confidence {L : Type}
    (use_api use_metapub : bool) (r r' : IdentifierExtractionResult)
    (s s' : L * Machine) :
  validation_step use_api use_metapub r s = (inr r', s') ->
  failed_urls r' = failed_urls r /\
  extraction_stats r' = extraction_stats r /\
  length (identifiers r') = length (identifiers r) /\
  Forall2 same_identity (identifiers r) (identifiers r') /\
  Forall2 confidence_raised (identifiers r) (identifiers r') /\
  fst s' = fst s /\
  exists tv : list Event,
    trace (snd s') = trace (snd s) ++ tv /\
    Forall (fun e => is_phase2_event e = false) tv /\
    recovered tv = [] /\ found tv = [].
Proof.
  intros Hrun.
  destruct (validation_step_run use_api use_metapub r s)
    as (o & w & tv & Hrun' & Hnp & Hok).
  rewrite Hrun' in Hrun. injection Hrun as -> <-.
  destruct (Hok r' eq_refl) as (Htv & ->). simpl.
  destruct (validation_trace_readings _ _ _ _ Htv)
    as (Hr & Hf & _ & _ & _ & Hlen).
  pose proof (validated_raised use_api use_metapub (identifiers r)
                (scores tv) Hlen) as Hraised.
  repeat split; try reflexivity.
  - symmetry. eapply Forall2_length, Hraised.
  - now apply raised_same_identity.
  - exact Hraised.
  - exists tv. auto.
Qed.

(** C10.  The single-URL call is Phase 1 only.  Whatever its arguments and
    whatever the world, it never calls the Page Scraper or the PDF
    extractor; and when both validation flags are false, or the Pattern
    Extractor returns no identifier, the call constructs the extractor,
    asks it once, and returns what it returned: these two calls are the
    whole trace, the world is the one the Pattern Extractor left, and no
    validator is constructed or queried. *)
Theorem url_call_is_pattern_extraction_only (url : string)
    (use_api use_metapub : bool) (w : World) :
  exists (o : Outcome (list AcademicIdentifier)) (m : Machine),
    run (extract_identifiers_from_url url use_api use_metapub) w = (o, m) /\
    Forall (fun e => is_phase2_event e = false) (trace m) /\
    forall (extractor : JournalURLExtractor) (w1 w2 : World)
           (out : Outcome (list AcademicIdentifier)),
      JournalURLExtractor_init w = (inr extractor, w1) ->
      JournalURLExtractor_extract_from_url extractor url w1 = (out, w2) ->
      use_api || use_metapub = false \/ out = inr [] ->
      o = out /\
      m = {| world := w2;
             trace := [EvJournalURLExtractor (inr extractor);
                       EvExtractFromUrl url out] |} /\
      Forall (fun e => is_validator_event e = false) (trace m).
Proof.
  destruct (JournalURLExtractor_init w) as [[e|extractor] w1] eqn:Hinit.
  { eexists _, _.
    split; [exact (url_call_no_extractor _ _ _ _ _ _ Hinit)|].
    split; [repeat constructor|]. discriminate. }
  destruct (JournalURLExtractor_extract_from_url extractor url w1)
    as [out w2] eqn:Hext.
  assert (Hplain :
    match out with
    | inr ids => (use_api || use_metapub) && truthy ids = false
    | inl _ => True
    end ->
    exists o m,
      run (extract_identifiers_from_url url use_api use_metapub) w = (o, m) /\
      Forall (fun e => is_phase2_event e = false) (trace m) /\
      forall extractor' w1' w2' out',
        (inr extractor : Outcome JournalURLExtractor, w1)
          = (inr extractor', w1') ->
        JournalURLExtractor_extract_from_url extractor' url w1' = (out', w2') ->
        use_api || use_metapub = false \/ out' = inr [] ->
        o = out' /\
        m = {| world := w2';
               trace := [EvJournalURLExtractor (inr extractor');
                         EvExtractFromUrl url out'] |} /\
        Forall (fun e => is_validator_event e = false) (trace m)).
  { intros Hcond. eexists _, _.
    split; [exact (url_call_unvalidated _ _ _ _ _ _ _ _ Hinit Hext Hcond)|].
    split; [repeat constructor|].
    intros extractor' w1' w2' out' [= <- <-] Hext' _.
    rewrite Hext in Hext'. injection Hext' as <- <-.
    repeat split. repeat constructor. }
  destruct out as [e|ids]; [now apply Hplain|].
  destruct ((use_api || use_metapub) && truthy ids) eqn:Hcond;
    [|now apply Hplain].
  clear Hplain.
  destruct (url_call_validated _ _ _ _ _ _ _ _ Hinit Hext Hcond)
    as (o & w3 & outv & tq & Hrun & Hq & _).
  exists o, {| world := w3;
               trace := EvJournalURLExtractor (inr extractor)
                        :: EvExtractFromUrl url (inr ids)
                        :: EvCompositeValidator use_api use_metapub outv
                        :: tq |}.
  split; [exact Hrun|]. split.
  - simpl. repeat (constructor; [reflexivity|]).
    now apply score_query_not_phase2.
  - intros extractor' w1' w2' out' [= <- <-] Hext' Hoff.
    rewrite Hext in Hext'. injection Hext' as <- <-.
    apply andb_true_iff in Hcond as [Hflags Hids].
    destruct Hoff as [Hoff|[= ->]]; [congruence|discriminate].
Qed.



(** C4, as amended.  Phase 2 sweeps a snapshot and removes afterwards, one
    occurrence per successful attempt.  The sweep always completes; it
    attempts the URLs that were in [failed_urls] when it started, in order,
    and leaves [failed_urls] and the identifiers of the result as they
    were, collecting the recovered URLs and the found identifiers on the
    side.  In a batch call that returns, the failed URLs of the result are
    those of Phase 1 with one occurrence removed for each successful
    attempt (together they are the Phase 1 list again), so a URL is left as
    many times as Phase 1 listed it, less the attempts on it that
    succeeded; no URL appears that was not there; a recovered URL is no
    longer there when Phase 1 listed every failed URL once; and the
    identifiers are those of Phase 1 followed by the ones Phase 2 found. *)
Theorem phase2_removes_after_the_sweep :
  (forall (web_extractor : WebScrapingExtractor) (pdf_extractor : PDFExtractor)
          (l : Phase2Locals) (m : Machine),
      exists (l' : Phase2Locals) (m' : Machine) (ts : list Event),
        phase2_sweep web_extractor pdf_extractor (l, m) = (inr tt, (l', m')) /\
        trace m' = trace m ++ ts /\
        sweep_trace (failed_urls (result l)) ts /\
        failed_urls (result l') = failed_urls (result l) /\
        identifiers (result l') = identifiers (result l) /\
        successful_urls l' = successful_urls l ++ recovered ts /\
        phase2_identifiers l' = phase2_identifiers l ++ found ts) /\
  (forall (urls : list string) (use_web_scraping use_api use_metapub : bool)
          (w : World) (r r1 : IdentifierExtractionResult) (m : Machine),
      run (extract_identifiers_from_bibliography urls use_web_scraping
             use_api use_metapub) w = (inr r, m) ->
      phase1_result (trace m) = Some r1 ->
      failed_urls r = remove_all (recovered (trace m)) (failed_urls r1) /\
      Permutation (failed_urls r1) (recovered (trace m) ++ failed_urls r) /\
      (forall url, url ∈ failed_urls r -> url ∈ failed_urls r1) /\
      (forall url,
          (length (filter (eq url) (failed_urls r))
           + length (filter (eq url) (recovered (trace m)))
           = length (filter (eq url) (failed_urls r1)))%nat) /\
      (NoDup (failed_urls r1) ->
       NoDup (failed_urls r) /\
       forall url, url ∈ recovered (trace m) -> url ∉ failed_urls r) /\
      identifiers r
        = validated use_api use_metapub (identifiers r1) (scores (trace m))
          ++ found (trace m)).
Proof.
  split.
  - intros web pdf l m. unfold phase2_sweep, bind at 1, read at 1. simpl.
    destruct (phase2_sweep_loop web pdf (failed_urls (result l)) l m)
      as (w & ts & Hts & -> & _).
    eexists _, _, ts. split; [reflexivity|].
    unfold after_sweep. simpl. repeat split; auto.
  - intros urls ws a b w r r1 m Hrun Hp1.
    destruct (bibliography_summary _ _ _ _ _ _ _ Hrun)
      as (r1' & Hp1' & Hids & Hfailed & _ & Hsub & _).
    assert (r1' = r1) as -> by congruence.
    pose proof (remove_all_perm _ _ (sublist_submseteq _ _ Hsub)) as Hperm.
    rewrite <- Hfailed in Hperm.
    split; [exact Hfailed|]. split; [exact Hperm|]. split.
    { intros url. rewrite Hfailed. apply remove_all_subset. }
    split.
    { intros url. rewrite Hperm, filter_app, length_app. lia. }
    split; [|exact Hids].
    intros Hnodup. rewrite Hperm in Hnodup.
    apply NoDup_app in Hnodup as (_ & Hdisjoint & Hnodup).
    split; [exact Hnodup|exact Hdisjoint].
Qed.

(** C3.  A failure of one URL in Phase 2 is swallowed.  An attempt always
    completes, whatever the classification and the extractors do: when the
    classification raises, or the Page Scraper or the PDF extractor raises
    or returns nothing, the local variables (the result with its failed
    URLs and statistics, the collected identifiers and URLs) are exactly as
    before.  The sweep always completes and attempts every URL of the
    snapshot in order.  In a batch call that returns, a URL that Phase 1
    failed on and no attempt recovered is still in [failed_urls]. *)
Theorem phase2_failures_are_swallowed :
  (forall (web_extractor : WebScrapingExtractor) (pdf_extractor : PDFExtractor)
          (url : string) (l : Phase2Locals) (m : Machine),
      (exists (l' : Phase2Locals) (w : World) (t : list Event),
          phase2_attempt web_extractor pdf_extractor url (l, m)
            = (inr tt, (l', {| world := w; trace := trace m ++ t |})) /\
          attempt_trace url t /\
          (recovered t = [] -> l' = l)) /\
      (forall e w1,
          PDFExtractor_is_pdf_url pdf_extractor url (world m) = (inl e, w1) ->
          phase2_attempt web_extractor pdf_extractor url (l, m)
            = (inr tt, (l, {| world := w1;
                              trace := trace m ++ [EvIsPdfUrl url (inl e)] |}))) /\
      (forall e w1 w2,
          PDFExtractor_is_pdf_url pdf_extractor url (world m) = (inr true, w1) ->
          PDFExtractor_extract_from_url pdf_extractor url w1 = (inl e, w2) ->
          phase2_attempt web_extractor pdf_extractor url (l, m)
            = (inr tt, (l, {| world := w2;
                              trace := trace m ++
                                [EvIsPdfUrl url (inr true);
                                 EvPdfExtractFromUrl url (inl e)] |}))) /\
      (forall e w1 w2,
          PDFExtractor_is_pdf_url pdf_extractor url (world m) = (inr false, w1) ->
          WebScrapingExtractor_extract_from_url web_extractor url w1
            = (inl e, w2) ->
          phase2_attempt web_extractor pdf_extractor url (l, m)
            = (inr tt, (l, {| world := w2;
                              trace := trace m ++
                                [EvIsPdfUrl url (inr false);
                                 EvWebExtractFromUrl url (inl e)] |})))) /\
  (forall (web_extractor : WebScrapingExtractor) (pdf_extractor : PDFExtractor)
          (snapshot : list string) (l : Phase2Locals) (m : Machine),
      exists (l' : Phase2Locals) (w : World) (ts : list Event),
        for_each snapshot (phase2_attempt web_extractor pdf_extractor) (l, m)
          = (inr tt, (l', {| world := w; trace := trace m ++ ts |})) /\
        sweep_trace snapshot ts) /\
  (forall (urls : list string) (use_web_scraping use_api use_metapub : bool)
          (w : World) (r r1 : IdentifierExtractionResult) (m : Machine),
      run (extract_identifiers_from_bibliography urls use_web_scraping
             use_api use_metapub) w = (inr r, m) ->
      phase1_result (trace m) = Some r1 ->
      forall url, url ∈ failed_urls r1 -> url ∉ recovered (trace m) ->
                  url ∈ failed_urls r).
Proof.
  split; [|split].
  - intros web pdf url l m. split; [|split; [|split]].
    + destruct (phase2_attempt_run web pdf url l m) as (w & t & Ht & -> & _).
      eexists _, w, t. split; [reflexivity|]. split; [exact Ht|].
      intros Hrec. rewrite Hrec, (attempt_trace_nothing _ _ Ht Hrec).
      apply after_sweep_nil.
    + intros e w1. apply phase2_attempt_unclassified.
    + intros e w1 w2 Hpdf Hext.
      exact (phase2_attempt_pdf web pdf url l m w1 w2 (inl e) Hpdf Hext).
    + intros e w1 w2 Hpdf Hext.
      exact (phase2_attempt_web web pdf url l m w1 w2 (inl e) Hpdf Hext).
  - intros web pdf snapshot l m.
    destruct (phase2_sweep_loop web pdf snapshot l m)
      as (w & ts & Hts & -> & _).
    eexists _, w, ts. split; [reflexivity|exact Hts].
  - intros urls ws a b w r r1 m Hrun Hp1 url Hin Hnot.
    destruct (bibliography_summary _ _ _ _ _ _ _ Hrun)
      as (r1' & Hp1' & _ & Hfailed & _).
    assert (r1' = r1) as -> by congruence.
    rewrite Hfailed. now apply remove_all_keeps.
Qed.

(** C7.  Phase 2 runs only when [use_web_scraping] is set and Phase 1 left
    failed URLs; otherwise lines 63-105 call nothing and return the result
    as it is.  When it runs, an attempt first classifies the URL and then
    calls exactly one extractor: the PDF extractor when [is_pdf_url] says
    true, the Page Scraper when it says false (the world after the attempt
    is the one that extractor left; an attempt whose classification raises
    ends there, see C3).  In a batch call that returns, the
    calls to the Phase 2 collaborators are none, or the two constructions
    followed by one such attempt per URL of the Phase 1 [failed_urls], in
    order. *)
Theorem phase2_dispatches_by_classification :
  (forall (L : Type) (use_web_scraping : bool)
          (r : IdentifierExtractionResult) (s : L * Machine),
      use_web_scraping = false \/ failed_urls r = [] ->
      phase2_step use_web_scraping r s = (inr r, s)) /\
  (forall (web_extractor : WebScrapingExtractor) (pdf_extractor : PDFExtractor)
          (url : string) (l : Phase2Locals) (m : Machine) (w1 w2 : World)
          (out : Outcome (list AcademicIdentifier)),
      PDFExtractor_is_pdf_url pdf_extractor url (world m) = (inr true, w1) ->
      PDFExtractor_extract_from_url pdf_extractor url w1 = (out, w2) ->
      exists l' : Phase2Locals,
        phase2_attempt web_extractor pdf_extractor url (l, m)
          = (inr tt, (l', {| world := w2;
                             trace := trace m ++
                               [EvIsPdfUrl url (inr true);
                                EvPdfExtractFromUrl url out] |}))) /\
  (forall (web_extractor : WebScrapingExtractor) (pdf_extractor : PDFExtractor)
          (url : string) (l : Phase2Locals) (m : Machine) (w1 w2 : World)
          (out : Outcome (list AcademicIdentifier)),
      PDFExtractor_is_pdf_url pdf_extractor url (world m) = (inr false, w1) ->
      WebScrapingExtractor_extract_from_url web_extractor url w1 = (out, w2) ->
      exists l' : Phase2Locals,
        phase2_attempt web_extractor pdf_extractor url (l, m)
          = (inr tt, (l', {| world := w2;
                             trace := trace m ++
                               [EvIsPdfUrl url (inr false);
                                EvWebExtractFromUrl url out] |}))) /\
  (forall (urls : list string) (use_web_scraping use_api use_metapub : bool)
          (w : World) (r r1 : IdentifierExtractionResult) (m : Machine),
      run (extract_identifiers_from_bibliography urls use_web_scraping
             use_api use_metapub) w = (inr r, m) ->
      phase1_result (trace m) = Some r1 ->
      exists t1 t2 : list Event,
        trace m = t1 ++ t2 /\
        Forall (fun e => is_phase2_event e = false) t1 /\
        phase2_trace use_web_scraping (failed_urls r1) t2).
Proof.
  split; [|split; [|split]].
  - intros L ws r s Hoff. apply phase2_step_skipped.
    destruct Hoff as [->| ->]; [reflexivity|apply andb_false_r].
  - intros web pdf url l m w1 w2 out Hpdf Hext. eexists.
    exact (phase2_attempt_pdf web pdf url l m w1 w2 out Hpdf Hext).
  - intros web pdf url l m w1 w2 out Hpdf Hext. eexists.
    exact (phase2_attempt_web web pdf url l m w1 w2 out Hpdf Hext).
  - intros urls ws a b w r r1 m Hrun Hp1.
    destruct (bibliography_returned _ _ _ _ _ _ _ Hrun)
      as (extractor & r1' & tv & t2 & Htrace & Htv & Ht2 & _).
    rewrite Htrace in Hp1. simpl in Hp1. injection Hp1 as ->.
    destruct (validation_trace_readings _ _ _ _ Htv) as (_ & _ & _ & Hnp & _).
    exists (EvJournalURLExtractor (inr extractor)
            :: EvExtractFromUrls urls (inr r1) :: tv), t2.
    split; [exact Htrace|]. split; [|exact Ht2].
    repeat (constructor; [reflexivity|]). exact Hnp.
Qed.

(** C9.  Only the identifiers of Phase 1 pass through the validator.  In a
    batch call that returns, the trace splits into a part with no call to a
    Phase 2 collaborator followed by a part with no call to the validator;
    the validator was asked to score exactly the Phase 1 identifiers, in
    order (nothing when both flags are off); and the identifiers of the
    result after the Phase 1 ones are the lists the Phase 2 extractors
    returned, element for element, confidence included. *)
Theorem phase2_identifiers_are_not_validated
    (urls : list string) (use_web_scraping use_api use_metapub : bool)
    (w : World) (r r1 : IdentifierExtractionResult) (m : Machine) :
  run (extract_identifiers_from_bibliography urls use_web_scraping
         use_api use_metapub) w = (inr r, m) ->
  phase1_result (trace m) = Some r1 ->
  (exists t1 t2 : list Event,
      trace m = t1 ++ t2 /\
      Forall (fun e => is_phase2_event e = false) t1 /\
      Forall (fun e => is_validator_event e = false) t2 /\
      found t1 = [] /\ score_queries t2 = []) /\
  score_queries (trace m)
    = (if use_api || use_metapub
       then map (fun i => (type i, value i)) (identifiers r1) else []) /\
  take (length (identifiers r1)) (identifiers r)
    = validated use_api use_metapub (identifiers r1) (scores (trace m)) /\
  drop (length (identifiers r1)) (identifiers r) = found (trace m).
Proof.
  intros Hrun Hp1.
  destruct (bibliography_summary _ _ _ _ _ _ _ Hrun)
    as (r1' & Hp1' & Hids & _ & _ & _ & Hlen & Hq).
  assert (r1' = r1) as -> by congruence.
  destruct (bibliography_returned _ _ _ _ _ _ _ Hrun)
    as (extractor & r1' & tv & t2 & Htrace & Htv & Ht2 & _).
  assert (r1' = r1) as ->.
  { rewrite Htrace in Hp1. simpl in Hp1. congruence. }
  destruct (validation_trace_readings _ _ _ _ Htv)
    as (_ & Hf & _ & Hnp & _).
  destruct (phase2_trace_readings _ _ _ Ht2) as (_ & Hq2 & Hnv).
  assert (Hlen' : length (validated use_api use_metapub (identifiers r1)
                            (scores (trace m)))
                  = length (identifiers r1)).
  { symmetry. eapply Forall2_length, validated_raised, Hlen. }
  split; [|split; [exact Hq|split]].
  - exists (EvJournalURLExtractor (inr extractor)
            :: EvExtractFromUrls urls (inr r1) :: tv), t2.
    split; [exact Htrace|]. split.
    { repeat (constructor; [reflexivity|]). exact Hnp. }
    split; [exact Hnv|]. split; [exact Hf|exact Hq2].
  - rewrite Hids, <- Hlen'. apply take_app_length.
  - rewrite Hids, <- Hlen'. apply drop_app_length.
Qed.


End Properties.

(** ** The pipeline on the stub environment *)

Section StubRuns.

Import Stub.

Example stub_phase1 : extract_from_urls bibliography = phase1.
Proof. reflexivity. Qed.

Example stub_batch :
  run (extract_identifiers_from_bibliography bibliography true true true)
    0%nat
  = (inr batch_result, batch_machine).
Proof. reflexivity. Qed.

Example stub_batch_phase1_only :
  run (extract_identifiers_from_bibliography bibliography false false false)
    0%nat
  = (inr phase1,
     {| world := 2%nat;
        trace := [EvJournalURLExtractor (inr tt);
                  EvExtractFromUrls bibliography (inr phase1)] |}).
Proof. reflexivity. Qed.

Example stub_url :
  run (extract_identifiers_from_url pubmed_url true false) 0%nat
  = (inr [pubmed_id 1%float],
     {| world := 4%nat;
        trace := [EvJournalURLExtractor (inr tt);
                  EvExtractFromUrl pubmed_url (inr [pubmed_id 0.5%float]);
                  EvCompositeValidator true false (inr tt);
                  EvGetConfidenceScore PMID "37674083" (inr 1%float)] |}).
Proof. reflexivity. Qed.



(** C1 on the stub batch: the PubMed identifier went from 0.5 to 1, the
    Science one stayed at 0.75 although the validator scored it 0.25. *)
Lemma confidence_is_monotone_witness :
  run (extract_identifiers_from_bibliography bibliography true true true)
    0%nat = (inr batch_result, batch_machine) /\
  phase1_result (trace batch_machine) = Some phase1 /\
  exists later : list AcademicIdentifier,
    identifiers batch_result
      = validated true true (identifiers phase1) (scores (trace batch_machine))
        ++ later /\
    Forall2 confidence_raised (identifiers phase1)
      (validated true true (identifiers phase1)
         (scores (trace batch_machine))).
Proof.
  split; [reflexivity|]. split; [reflexivity|].
  apply (proj1 (confidence_is_monotone (C:=collaborators)) bibliography true true true 0%nat
           batch_result phase1 batch_machine); reflexivity.
Defined.


(** C3 on the stub batch: the Page Scraper raised on the unreachable URL,
    and the URL is still in [failed_urls]. *)
Lemma phase2_failures_are_swallowed_witness :
  run (extract_identifiers_from_bibliography bibliography true true true)
    0%nat = (inr batch_result, batch_machine) /\
  phase1_result (trace batch_machine) = Some phase1 /\
  (unreachable_url ∈ failed_urls phase1) /\
  (unreachable_url ∉ recovered (trace batch_machine)) /\
  (unreachable_url ∈ failed_urls batch_result).
Proof.
  assert (Hin : unreachable_url ∈ failed_urls phase1)
    by (apply (bool_decide_unpack _); reflexivity).
  assert (Hnot : unreachable_url ∉ recovered (trace batch_machine))
    by (apply (bool_decide_unpack _); reflexivity).
  split; [reflexivity|]. split; [reflexivity|].
  split; [exact Hin|]. split; [exact Hnot|].
  apply (proj2 (proj2 (phase2_failures_are_swallowed (C:=collaborators)))
           bibliography true true
           true 0%nat batch_result phase1 batch_machine eq_refl eq_refl
           unreachable_url Hin Hnot).
Defined.

(** C4 on the stub batch: the repository URL and the PDF URL are gone from
    [failed_urls], the other two are left. *)
Lemma phase2_removes_after_the_sweep_witness :
  run (extract_identifiers_from_bibliography bibliography true true true)
    0%nat = (inr batch_result, batch_machine) /\
  phase1_result (trace batch_machine) = Some phase1 /\
  failed_urls batch_result
    = remove_all (recovered (trace batch_machine)) (failed_urls phase1).
Proof.
  split; [reflexivity|]. split; [reflexivity|].
  apply (proj2 (phase2_removes_after_the_sweep (C:=collaborators))
           bibliography true true true
           0%nat batch_result phase1 batch_machine); reflexivity.
Defined.



(** C6 on the validation step of the stub batch. *)
Lemma validation_step_only_adjusts_confidence_witness :
  validation_step true true phase1
    (tt, {| world := 2%nat; trace := [] |})
    = (inr validated_phase1,
       (tt, {| world := 5%nat; trace := validation_calls |})) /\
  failed_urls validated_phase1 = failed_urls phase1 /\
  extraction_stats validated_phase1 = extraction_stats phase1 /\
  length (identifiers validated_phase1) = length (identifiers phase1) /\
  Forall2 same_identity (identifiers phase1) (identifiers validated_phase1).
Proof.
  split; [reflexivity|].
  pose proof (validation_step_only_adjusts_confidence (C:=collaborators)
                true true phase1 validated_phase1
                (tt, {| world := 2%nat; trace := [] |})
                (tt, {| world := 5%nat; trace := validation_calls |})
                eq_refl) as (H1 & H2 & H3 & H4 & _).
  exact (conj H1 (conj H2 (conj H3 H4))).
Defined.

(** C7 on the stub batch: after Phase 1 and the validation, the two
    constructions and one classified attempt per failed URL. *)
Lemma phase2_dispatches_by_classification_witness :
  run (extract_identifiers_from_bibliography bibliography true true true)
    0%nat = (inr batch_result, batch_machine) /\
  phase1_result (trace batch_machine) = Some phase1 /\
  exists t1 t2 : list Event,
    trace batch_machine = t1 ++ t2 /\
    Forall (fun e => is_phase2_event e = false) t1 /\
    phase2_trace true (failed_urls phase1) t2.
Proof.
  split; [reflexivity|]. split; [reflexivity|].
  apply (proj2 (proj2 (proj2
           (phase2_dispatches_by_classification (C:=collaborators))))
           bibliography true true true 0%nat batch_result phase1
           batch_machine); reflexivity.
Defined.


(** C9 on the stub batch: the validator scored the two Phase 1
    identifiers; the three identifiers of Phase 2 are as the Page Scraper
    and the PDF extractor returned them. *)
Lemma phase2_identifiers_are_not_validated_witness :
  run (extract_identifiers_from_bibliography bibliography true true true)
    0%nat = (inr batch_result, batch_machine) /\
  phase1_result (trace batch_machine) = Some phase1 /\
  score_queries (trace batch_machine)
    = map (fun i => (type i, value i)) (identifiers phase1) /\
  drop (length (identifiers phase1)) (identifiers batch_result)
    = found (trace batch_machine).
Proof.
  split; [reflexivity|]. split; [reflexivity|].
  pose proof (phase2_identifiers_are_not_validated (C:=collaborators)
                bibliography true true true 0%nat batch_result phase1
                batch_machine eq_refl eq_refl) as (_ & H1 & _ & H2).
  exact (conj H1 H2).
Defined.

End StubRuns.

(** ** Where exceptions come from *)

Section Exceptions.

Context `{C : Collaborators}.

Lemma stops_at_failure_cons {A : Type} (o : Outcome A) (ev : Event)
    (t : list Event) :
  event_raised ev = None -> stops_at_failure o t ->
  stops_at_failure o (ev :: t).
Proof.
  intros Hev. destruct o as [e|a]; unfold stops_at_failure.
  - intros (t' & ev' & -> & He & Ht'). exists (ev :: t'), ev'.
    split; [reflexivity|]. split; [exact He|]. now constructor.
  - intros Ht. now constructor.
Qed.

Lemma stops_at_failure_here {A : Type} (e : Exception) (ev : Event) :
  event_raised ev = Some e -> stops_at_failure (inl e : Outcome A) [ev].
Proof. intros He. exists [], ev. repeat split; [exact He|constructor]. Qed.

(** The loop of lines 55-60 and 139-143 stops at the first score query that
    raises, with its exception. *)
Lemma validation_loop_stops {L} (validator : CompositeValidator)
    (ids : list AcademicIdentifier) (s : L * Machine) :
  exists (o : Outcome (list AcademicIdentifier)) (w : World) (t : list Event),
    for_each_update ids (update_confidence validator) s
      = (o, (fst s, {| world := w; trace := trace (snd s) ++ t |})) /\
    Forall is_score_query t /\
    stops_at_failure o t /\
    (length t <= length ids)%nat /\
    forall ids', o = inr ids' ->
      ids' = zip_with merge_confidence ids (scores t) /\
      length (scores t) = length ids /\ length t = length ids.
Proof.
  revert s. induction ids as [|identifier ids IH]; intros [l m].
  - exists (inr []), (world m), []. simpl. rewrite app_nil_r.
    destruct m; simpl. split; [reflexivity|]. split; [constructor|].
    split; [constructor|]. split; [lia|]. intros ids' [= <-]. auto.
  - simpl. unfold bind at 1, update_confidence at 1, bind at 1, call at 1.
    simpl.
    destruct (CompositeValidator_get_confidence_score validator
                (type identifier) (value identifier) (world m))
      as [[e|score] w1] eqn:E.
    + exists (inl e), w1,
        [EvGetConfidenceScore (type identifier) (value identifier) (inl e)].
      split; [reflexivity|]. split.
      * repeat constructor. unfold is_score_query. eauto.
      * split; [now apply stops_at_failure_here|].
        split; [simpl; lia|discriminate].
    + unfold ret at 1. unfold bind at 1.
      destruct (IH (l, {| world := w1;
                          trace := trace m ++
                            [EvGetConfidenceScore (type identifier)
                               (value identifier) (inr score)] |}))
        as (o & w & t & Hrun & Hq & Hstop & Hbound & Hok).
      rewrite Hrun. simpl in *.
      exists (match o with
              | inl e => inl e
              | inr ids' => inr (merge_confidence identifier score :: ids')
              end), w,
        (EvGetConfidenceScore (type identifier) (value identifier)
           (inr score) :: t).
      split; [destruct o; unfold ret; rewrite <- app_assoc; reflexivity|].
      split; [constructor; [unfold is_score_query; eauto | exact Hq]|].
      split; [|split].
      * destruct o as [e|ids'].
        -- now apply (stops_at_failure_cons (inl e)).
        -- now apply (stops_at_failure_cons (inr ids')).
      * simpl. lia.
      * intros ids'. destruct o as [e|ids'']; [discriminate|].
        intros [= <-]. destruct (Hok ids'' eq_refl) as (-> & Hlen & Hlen').
        simpl. rewrite Hlen, Hlen'. auto.
Qed.

(** X1.  The single-URL call raises nothing of its own and stops at the
    first call that raises: when it returns, every call it made returned;
    when it raises, the exception is the one its last call raised, and every
    call before that returned.  In particular a validator failure loses the
    identifiers the Pattern Extractor had already returned. *)
Theorem url_call_stops_at_failure (url : string) (use_api use_metapub : bool)
    (w : World) :
  exists (o : Outcome (list AcademicIdentifier)) (m : Machine),
    run (extract_identifiers_from_url url use_api use_metapub) w = (o, m) /\
    stops_at_failure o (trace m) /\
    (forall ids1 e,
        phase1_identifiers (trace m) = Some ids1 -> o = inl e ->
        (use_api || use_metapub) && truthy ids1 = true /\
        Forall (fun ev => is_validator_event ev = true) (drop 2 (trace m))).
Proof.
  unfold run, extract_identifiers_from_url.
  unfold bind at 1, call at 1. simpl.
  destruct (JournalURLExtractor_init w) as [[e|extractor] w1].
  { eexists _, _. split; [reflexivity|]. simpl.
    split; [now apply stops_at_failure_here|discriminate]. }
  unfold bind at 1, call at 1. simpl.
  destruct (JournalURLExtractor_extract_from_url extractor url w1)
    as [[e|ids] w2].
  { eexists _, _. split; [reflexivity|]. simpl. split.
    - apply (stops_at_failure_cons (inl e)); [reflexivity|].
      now apply stops_at_failure_here.
    - discriminate. }
  destruct ((use_api || use_metapub) && truthy ids) eqn:Hcond.
  - unfold bind at 1, call at 1. simpl.
    destruct (CompositeValidator_init use_api use_metapub w2)
      as [[e|validator] w3].
    + eexists _, _. split; [reflexivity|]. simpl. split.
      * do 2 (apply (stops_at_failure_cons (inl e)); [reflexivity|]).
        now apply stops_at_failure_here.
      * intros ids1 e' [= <-] _. split; [exact Hcond|]. repeat constructor.
    + match goal with
      | |- context [for_each_update _ _ ?s] =>
          destruct (validation_loop_stops validator ids s)
            as (o & w4 & t & -> & Hq & Hstop & _ & _)
      end.
      eexists _, _. split; [reflexivity|]. simpl. split.
      * destruct o as [e|ids'].
        -- now do 3 (apply (stops_at_failure_cons (inl e)); [reflexivity|]).
        -- now do 3 (apply (stops_at_failure_cons (inr ids')); [reflexivity|]).
      * intros ids1 e' [= <-] _. split; [exact Hcond|].
        constructor; [reflexivity|].
        eapply Forall_impl; [exact Hq|]. now intros ev (ty & v & out & ->).
  - eexists _, _. split; [reflexivity|]. simpl. split.
    + repeat constructor.
    + discriminate.
Qed.

(** X2.  [validate_identifier] talks to the validator only, at most three
    times and in a fixed order: the construction, the validity query, the
    score query, the last two on the type and value it was given.  It has no
    handler: it stops at the first of the three that raises, with that
    exception (a score query that raises loses the validity answer), and
    when all three return the report carries the two answers as given,
    the string of the type and the value unchanged. *)
Theorem validate_identifier_calls (t : IdentifierType) (v : string)
    (use_api use_metapub : bool) (w : World) :
  exists (o : Outcome ValidationReport) (m : Machine)
         (oc : Outcome CompositeValidator) (ov : Outcome bool)
         (os : Outcome float),
    run (validate_identifier t v use_api use_metapub) w = (o, m) /\
    stops_at_failure o (trace m) /\
    trace m `prefix_of` [EvCompositeValidator use_api use_metapub oc;
                         EvValidateIdentifier t v ov;
                         EvGetConfidenceScore t v os] /\
    trace m <> [] /\
    forall report, o = inr report ->
      ov = inr (valid report) /\ os = inr (report_confidence report) /\
      identifier_type report = IdentifierType_value t /\
      report_value report = v /\
      trace m = [EvCompositeValidator use_api use_metapub oc;
                 EvValidateIdentifier t v ov;
                 EvGetConfidenceScore t v os].
Proof.
  unfold run, validate_identifier.
  unfold bind at 1, call at 1. simpl.
  destruct (CompositeValidator_init use_api use_metapub w)
    as [[e|validator] w1].
  { exists (inl e), {| world := w1;
                       trace := [EvCompositeValidator use_api use_metapub
                                   (inl e)] |},
      (inl e), (inl e), (inl e).
    split; [reflexivity|]. simpl.
    split; [now apply stops_at_failure_here|].
    split; [now eexists [_; _]|]. split; discriminate. }
  unfold bind at 1, call at 1. simpl.
  destruct (CompositeValidator_validate_identifier validator t v w1)
    as [[e|is_valid] w2].
  { exists (inl e),
      {| world := w2;
         trace := [EvCompositeValidator use_api use_metapub (inr validator);
                   EvValidateIdentifier t v (inl e)] |},
      (inr validator), (inl e), (inl e).
    split; [reflexivity|]. simpl. split.
    - apply (stops_at_failure_cons (inl e)); [reflexivity|].
      now apply stops_at_failure_here.
    - split; [now eexists [_]|]. split; discriminate. }
  unfold bind at 1, call at 1. simpl.
  destruct (CompositeValidator_get_confidence_score validator t v w2)
    as [[e|score] w3].
  { exists (inl e),
      {| world := w3;
         trace := [EvCompositeValidator use_api use_metapub (inr validator);
                   EvValidateIdentifier t v (inr is_valid);
                   EvGetConfidenceScore t v (inl e)] |},
      (inr validator), (inr is_valid), (inl e).
    split; [reflexivity|]. simpl. split.
    - do 2 (apply (stops_at_failure_cons (inl e)); [reflexivity|]).
      now apply stops_at_failure_here.
    - split; [now exists []|]. split; discriminate. }
  eexists _, _, (inr validator), (inr is_valid), (inr score).
  split; [reflexivity|]. simpl.
  split; [repeat constructor|]. split; [now exists []|].
  split; [discriminate|]. intros report [= <-]. simpl. auto.
Qed.

End Exceptions.

(** ** What the batch call may raise *)

Section BatchExceptions.

Context `{C : Collaborators}.

Lemma insert_present_None (d : gmap string Z) (key k : string) (v x : Z) :
  d !! key = Some v -> (<[key := x]> d !! k = None <-> d !! k = None).
Proof.
  intros Hv. destruct (decide (key = k)) as [<-|Hne].
  - rewrite lookup_insert_eq, Hv. split; discriminate.
  - now rewrite lookup_insert_ne.
Qed.

(** Lines 99-105 raise exactly at the first identifier whose count entry is
    missing, with the KeyError of that entry. *)
Lemma add_counts_raises (ids : list AcademicIdentifier) (d : gmap string Z)
    (e : Exception) :
  add_counts ids d = inl e <->
  exists ids1 identifier ids2,
    ids = ids1 ++ identifier :: ids2 /\
    e = KeyError (count_key (type identifier)) /\
    d !! count_key (type identifier) = None /\
    Forall (fun i => is_Some (d !! count_key (type i))) ids1.
Proof.
  revert d. induction ids as [|identifier ids IH]; intros d; simpl.
  - split; [discriminate|]. intros (ids1 & i & ids2 & H & _).
    destruct ids1; discriminate.
  - unfold dict_iadd.
    destruct (d !! count_key (type identifier)) as [v|] eqn:Hv.
    + rewrite IH. split.
      * intros (ids1 & i & ids2 & -> & -> & Hnone & Hsome).
        exists (identifier :: ids1), i, ids2.
        split; [reflexivity|]. split; [reflexivity|].
        split; [now apply (insert_present_None _ _ _ _ _ Hv) in Hnone|].
        constructor; [rewrite Hv; eauto|].
        eapply Forall_impl; [exact Hsome|]. intros j [x Hx].
        destruct (d !! count_key (type j)) as [y|] eqn:Hy; [eauto|].
        apply (insert_present_None _ _ (count_key (type j)) _ (v + 1)) in Hv.
        apply Hv in Hy. congruence.
      * intros (ids1 & i & ids2 & Heq & -> & Hnone & Hsome).
        destruct ids1 as [|j ids1]; simpl in Heq; injection Heq as <- ->.
        { congruence. }
        apply Forall_cons in Hsome as [_ Hsome].
        exists ids1, i, ids2.
        split; [reflexivity|]. split; [reflexivity|].
        split; [now apply (insert_present_None _ _ _ _ _ Hv)|].
        eapply Forall_impl; [exact Hsome|]. intros k [x Hx].
        destruct (decide (count_key (type identifier) = count_key (type k)))
          as [Heq|Hne].
        -- rewrite Heq, lookup_insert_eq. eauto.
        -- rewrite lookup_insert_ne by exact Hne. eauto.
    + split.
      * intros [= <-]. exists [], identifier, ids.
        repeat split; [exact Hv|constructor].
      * intros (ids1 & i & ids2 & Heq & -> & Hnone & Hsome).
        destruct ids1 as [|j ids1]; simpl in Heq; injection Heq as <- ->.
        { reflexivity. }
        apply Forall_cons in Hsome as [[x Hx] _]. congruence.
Qed.

Lemma validator_events_found (t : list Event) :
  Forall (fun ev => is_validator_event ev = true) t ->
  found t = [] /\ recovered t = [] /\
  Forall (fun ev => is_attempt_event ev = false) t.
Proof.
  induction 1 as [|ev t Hev _ (IH1 & IH2 & IH3)]; [repeat split; constructor|].
  destruct ev; try discriminate; simpl; repeat split; auto.
Qed.

(** Lines 49-60 stop at the first validator call that raises; they call the
    validator only, once to construct it and at most once per identifier. *)
Lemma validation_step_stops {L} (use_api use_metapub : bool)
    (r : IdentifierExtractionResult) (s : L * Machine) :
  exists (o : Outcome IdentifierExtractionResult) (w : World) (tv : list Event),
    validation_step use_api use_metapub r s
      = (o, (fst s, {| world := w; trace := trace (snd s) ++ tv |})) /\
    stops_at_failure o tv /\
    Forall (fun ev => is_validator_event ev = true) tv /\
    (length tv <= 1 + length (identifiers r))%nat /\
    forall r', o = inr r' ->
      r' = set_identifiers r
             (validated use_api use_metapub (identifiers r) (scores tv)).
Proof.
  destruct s as [l m]. unfold validation_step, validated.
  destruct (use_api || use_metapub) eqn:Hflags.
  - unfold bind at 1, call at 1. simpl.
    destruct (CompositeValidator_init use_api use_metapub (world m))
      as [[e|validator] w1].
    + exists (inl e), w1, [EvCompositeValidator use_api use_metapub (inl e)].
      split; [reflexivity|].
      split; [now apply stops_at_failure_here|].
      split; [repeat constructor|]. split; [simpl; lia|discriminate].
    + unfold bind at 1.
      match goal with
      | |- context [for_each_update _ _ ?s] =>
          destruct (validation_loop_stops validator (identifiers r) s)
            as (o & w & tq & -> & Hq & Hstop & Hbound & Hok)
      end.
      simpl in *.
      exists (match o with
              | inl e => inl e
              | inr ids => inr (set_identifiers r ids)
              end), w,
        (EvCompositeValidator use_api use_metapub (inr validator) :: tq).
      split; [destruct o; unfold ret; rewrite <- app_assoc; reflexivity|].
      split.
      { destruct o as [e|ids].
        - now apply (stops_at_failure_cons (inl e)).
        - now apply (stops_at_failure_cons (inr (set_identifiers r ids))). }
      split.
      { constructor; [reflexivity|].
        eapply Forall_impl; [exact Hq|]. now intros ev (ty & v & out & ->). }
      split; [simpl; lia|].
      intros r'. destruct o as [e|ids]; [discriminate|]. intros [= <-].
      now destruct (Hok ids eq_refl) as (-> & _).
  - exists (inr r), (world m), []. simpl. rewrite app_nil_r. destruct m.
    split; [reflexivity|]. split; [constructor|]. split; [constructor|].
    split; [simpl; lia|]. intros r' [= <-]. now rewrite set_identifiers_same.
Qed.

(** X3.  What a batch call can raise.  When it raises, either the exception
    is the one its last call raised, every call before returned, and that
    last call is not one of the guarded calls of lines 73-88 (so it is the
    construction of a collaborator, Phase 1, or a score query); or it is the
    KeyError of line 101-105 for the count entry, missing from the Phase 1
    statistics, of an identifier Phase 2 found.  It never raises what
    [is_pdf_url] or a Phase 2 extractor raised, and never the ValueError of
    [list.remove]. *)
Theorem batch_call_exceptions (urls : list string)
    (use_web_scraping use_api use_metapub : bool) (w : World)
    (e : Exception) (m : Machine) :
  run (extract_identifiers_from_bibliography urls use_web_scraping use_api
         use_metapub) w = (inl e, m) ->
  (exists (t' : list Event) (ev : Event),
      trace m = t' ++ [ev] /\ event_raised ev = Some e /\
      is_attempt_event ev = false /\
      Forall (fun ev' => event_raised ev' = None) t') \/
  (exists (r1 : IdentifierExtractionResult) (identifier : AcademicIdentifier),
      phase1_result (trace m) = Some r1 /\
      identifier ∈ found (trace m) /\
      e = KeyError (count_key (type identifier)) /\
      extraction_stats r1 !! count_key (type identifier) = None).
Proof.
  unfold run, extract_identifiers_from_bibliography.
  unfold bind at 1, call at 1. simpl.
  destruct (JournalURLExtractor_init w) as [[e0|extractor] w1].
  { intros [= <- <-]. left. exists [], (EvJournalURLExtractor (inl e0)).
    repeat split. constructor. }
  unfold bind at 1, call at 1. simpl.
  destruct (JournalURLExtractor_extract_from_urls extractor urls w1)
    as [[e0|r1] w2].
  { intros [= <- <-]. left.
    exists [EvJournalURLExtractor (inr extractor)],
      (EvExtractFromUrls urls (inl e0)).
    repeat split. repeat constructor. }
  unfold bind at 1.
  match goal with
  | |- context [validation_step _ _ _ ?s] =>
      destruct (validation_step_stops use_api use_metapub r1 s)
        as (o & w3 & tv & -> & Hstop & Hval & _ & Hok)
  end.
  destruct (validator_events_found tv Hval) as (Hfound & _ & Hnot).
  destruct o as [e0|rv].
  { intros [= <- <-]. left. simpl.
    destruct Hstop as (t' & ev & -> & Hev & Ht').
    exists (EvJournalURLExtractor (inr extractor)
            :: EvExtractFromUrls urls (inr r1) :: t'), ev.
    split; [reflexivity|]. split; [exact Hev|]. split.
    - apply Forall_app in Hnot as [_ Hnot]. now inversion Hnot.
    - now repeat constructor. }
  rewrite (Hok rv eq_refl). clear Hok. simpl.
  destruct (use_web_scraping && truthy (failed_urls r1)) eqn:Hp2.
  2:{ rewrite phase2_step_skipped by exact Hp2. discriminate. }
  apply andb_true_iff in Hp2 as [-> Hfailed].
  destruct (WebScrapingExtractor_init w3) as [[e0|web] w4] eqn:Hweb.
  { unfold phase2_step. simpl. rewrite Hfailed.
    unfold bind at 1, call at 1. simpl. rewrite Hweb.
    intros [= <- <-]. left. simpl.
    exists (EvJournalURLExtractor (inr extractor)
            :: EvExtractFromUrls urls (inr r1) :: tv),
      (EvWebScrapingExtractor (inl e0)).
    repeat split. repeat (constructor; [reflexivity|]). exact Hstop. }
  destruct (PDFExtractor_init w4) as [[e0|pdf] w5] eqn:Hpdf.
  { unfold phase2_step. simpl. rewrite Hfailed.
    unfold bind at 1, call at 1. simpl. rewrite Hweb.
    unfold bind at 1, call at 1. simpl. rewrite Hpdf.
    intros [= <- <-]. left. simpl.
    exists (EvJournalURLExtractor (inr extractor)
            :: EvExtractFromUrls urls (inr r1)
            :: tv ++ [EvWebScrapingExtractor (inr web)]),
      (EvPDFExtractor (inl e0)).
    split; [reflexivity|]. repeat split.
    repeat (constructor; [reflexivity|]).
    apply Forall_app. split; [exact Hstop|]. repeat constructor. }
  match goal with
  | |- context [phase2_step true ?rv ?s] =>
      destruct (phase2_step_run rv s web pdf w4 w5 Hfailed Hweb Hpdf)
        as (w6 & ts & Hts & Hsub & ->)
  end.
  simpl.
  destruct (add_counts (found ts) _) as [e0|d] eqn:Hcounts; [|discriminate].
  intros [= <- <-]. right. simpl.
  apply add_counts_raises in Hcounts
    as (ids1 & identifier & ids2 & Hids & -> & Hnone & _).
  exists r1, identifier. split; [reflexivity|].
  rewrite found_app, Hfound. simpl. split.
  - rewrite Hids. apply elem_of_app. right. left.
  - split; [reflexivity|].
    pose proof (count_key_not_extractions (type identifier)) as [? ?].
    now rewrite iter_bump_stats_other in Hnone by assumption.
Qed.

(** X4.  When Phase 2 runs and both extractors are constructed, lines
    63-105 raise exactly when Phase 2 found an identifier whose count entry
    is missing from the statistics, and then with the KeyError of the first
    such identifier's entry; by then the sweep has completed. *)
Theorem missing_count_entry_raises {L : Type}
    (r : IdentifierExtractionResult) (s : L * Machine)
    (web_extractor : WebScrapingExtractor) (pdf_extractor : PDFExtractor)
    (w1 w2 : World) :
  truthy (failed_urls r) = true ->
  WebScrapingExtractor_init (world (snd s)) = (inr web_extractor, w1) ->
  PDFExtractor_init w1 = (inr pdf_extractor, w2) ->
  exists (o : Outcome IdentifierExtractionResult) (w : World)
         (ts : list Event),
    phase2_step true r s
      = (o, (fst s,
             {| world := w;
                trace := trace (snd s) ++
                  EvWebScrapingExtractor (inr web_extractor)
                  :: EvPDFExtractor (inr pdf_extractor) :: ts |})) /\
    sweep_trace (failed_urls r) ts /\
    forall e : Exception,
      o = inl e <->
      exists ids1 identifier ids2,
        found ts = ids1 ++ identifier :: ids2 /\
        e = KeyError (count_key (type identifier)) /\
        extraction_stats r !! count_key (type identifier) = None /\
        Forall (fun i => is_Some (extraction_stats r !! count_key (type i)))
          ids1.
Proof.
  intros Hfailed Hweb Hpdf.
  destruct (phase2_step_run r s web_extractor pdf_extractor w1 w2 Hfailed
              Hweb Hpdf) as (w & ts & Hts & _ & ->).
  eexists _, w, ts. split; [reflexivity|]. split; [exact Hts|].
  intros e.
  assert (Hkeys : forall t,
    Nat.iter (length (recovered ts)) bump_stats (extraction_stats r)
      !! count_key t = extraction_stats r !! count_key t).
  { intros t. pose proof (count_key_not_extractions t) as [? ?].
    now apply iter_bump_stats_other. }
  destruct (add_counts (found ts) _) as [e0|d] eqn:Hcounts.
  - apply add_counts_raises in Hcounts
      as (ids1 & identifier & ids2 & Hids & -> & Hnone & Hsome).
    rewrite Hkeys in Hnone. split.
    + intros [= <-]. exists ids1, identifier, ids2.
      repeat split; try assumption.
      eapply Forall_impl; [exact Hsome|].
      intros i Hi. rewrite <- Hkeys. exact Hi.
    + intros (ids1' & i' & ids2' & Hids' & -> & Hnone' & Hsome').
      f_equal.
      assert (Hraise : add_counts (found ts)
                (Nat.iter (length (recovered ts)) bump_stats
                   (extraction_stats r))
              = inl (KeyError (count_key (type i')))).
      { apply add_counts_raises. exists ids1', i', ids2'.
        repeat split; try assumption; [now rewrite Hkeys|].
        eapply Forall_impl; [exact Hsome'|].
        intros i Hi. rewrite Hkeys. exact Hi. }
      assert (Hagain : add_counts (found ts)
                (Nat.iter (length (recovered ts)) bump_stats
                   (extraction_stats r))
              = inl (KeyError (count_key (type identifier)))).
      { apply add_counts_raises. exists ids1, identifier, ids2.
        repeat split; try assumption. now rewrite Hkeys. }
      congruence.
  - split; [discriminate|].
    intros (ids1 & i & ids2 & Hids & -> & Hnone & Hsome). exfalso.
    assert (Hraise : add_counts (found ts)
              (Nat.iter (length (recovered ts)) bump_stats
                 (extraction_stats r))
            = inl (KeyError (count_key (type i)))).
    { apply add_counts_raises. exists ids1, i, ids2.
      repeat split; try assumption; [now rewrite Hkeys|].
      eapply Forall_impl; [exact Hsome|].
      intros j Hj. rewrite Hkeys. exact Hj. }
    congruence.
Qed.

End BatchExceptions.

(** ** The statistics at the edges *)

Section StatisticsEdges.

Context `{C : Collaborators}.

(** Lines 84-85 without the first entry: the KeyError of line 84 ends the
    attempt before line 85, and nothing changes. *)
Lemma bump_stats_absent (d : gmap string Z) :
  d !! "successful_extractions" = None -> bump_stats d = d.
Proof. intros H. unfold bump_stats, dict_iadd. now rewrite H. Qed.

Lemma iter_bump_stats_absent (n : nat) (d : gmap string Z) :
  d !! "successful_extractions" = None -> Nat.iter n bump_stats d = d.
Proof.
  intros H. induction n as [|n IH]; simpl; [reflexivity|].
  rewrite IH. now apply bump_stats_absent.
Qed.

(** Lines 84-85 without the second entry only: line 84 counts, line 85
    raises and is swallowed. *)
Lemma iter_bump_stats_half (n : nat) (d : gmap string Z) (s : Z) :
  d !! "successful_extractions" = Some s ->
  d !! "failed_extractions" = None ->
  Nat.iter n bump_stats d !! "successful_extractions" = Some (s + Z.of_nat n) /\
  Nat.iter n bump_stats d !! "failed_extractions" = None.
Proof.
  intros Hs Hf. induction n as [|n [IHs IHf]]; simpl Nat.iter.
  - rewrite Hs, Hf. split; [f_equal; lia|reflexivity].
  - unfold bump_stats. rewrite (dict_iadd_present _ _ _ _ IHs).
    assert (Hf' : <["successful_extractions" := s + Z.of_nat n + 1]>
                    (Nat.iter n bump_stats d) !! "failed_extractions" = None)
      by (rewrite lookup_insert_ne by discriminate; exact IHf).
    unfold dict_iadd. rewrite Hf'.
    split; [rewrite lookup_insert_eq; f_equal; lia|exact Hf'].
Qed.

Lemma recovered_nil_found (t : list Event) : recovered t = [] -> found t = [].
Proof.
  induction t as [|ev t IH]; [reflexivity|].
  destruct ev as [| | | | | | |url [x|[|i ids]]| | |url [x|[|i ids]]]; simpl;
    auto; discriminate.
Qed.

(** The domain of a dict after [d[key] += n]. *)
Lemma dict_iadd_dom (key : string) (n : Z) (d d' : gmap string Z) :
  dict_iadd key n d = inr d' -> dom d' = dom d.
Proof.
  intros H. apply dict_iadd_inr in H as (v & Hv & ->).
  apply dom_insert_lookup_L. eauto.
Qed.

Lemma bump_stats_dom (d : gmap string Z) : dom (bump_stats d) = dom d.
Proof.
  unfold bump_stats.
  destruct (dict_iadd "successful_extractions" 1 d) as [e|d1] eqn:E1;
    [reflexivity|].
  destruct (dict_iadd "failed_extractions" (-1) d1) as [e|d2] eqn:E2.
  - now apply dict_iadd_dom in E1.
  - apply dict_iadd_dom in E1. apply dict_iadd_dom in E2. congruence.
Qed.

Lemma add_counts_dom (ids : list AcademicIdentifier) (d d' : gmap string Z) :
  add_counts ids d = inr d' -> dom d' = dom d.
Proof.
  revert d. induction ids as [|i ids IH]; intros d; simpl.
  - now intros [= <-].
  - destruct (dict_iadd (count_key (type i)) 1 d) as [e|d1] eqn:E;
      [discriminate|].
    intros H. rewrite (IH _ H). now apply dict_iadd_dom in E.
Qed.

(** X5.  Missing extraction counters go unnoticed.  In a batch call that
    returns: if the Phase 1 statistics have no [successful_extractions]
    entry, the KeyError of line 84 is swallowed by line 86 at every
    recovered URL, so neither counter changes, although the URL was already
    booked (it is removed from [failed_urls] and its identifiers are
    appended); if only [failed_extractions] is missing,
    [successful_extractions] still goes up by one per recovered URL and
    [failed_extractions] stays missing. *)
Theorem missing_extraction_entries_are_silent (urls : list string)
    (use_web_scraping use_api use_metapub : bool) (w : World)
    (r r1 : IdentifierExtractionResult) (m : Machine) :
  run (extract_identifiers_from_bibliography urls use_web_scraping use_api
         use_metapub) w = (inr r, m) ->
  phase1_result (trace m) = Some r1 ->
  (extraction_stats r1 !! "successful_extractions" = None ->
   extraction_stats r !! "successful_extractions" = None /\
   extraction_stats r !! "failed_extractions"
     = extraction_stats r1 !! "failed_extractions") /\
  (forall s : Z,
      extraction_stats r1 !! "successful_extractions" = Some s ->
      extraction_stats r1 !! "failed_extractions" = None ->
      extraction_stats r !! "successful_extractions"
        = Some (s + Z.of_nat (length (recovered (trace m)))) /\
      extraction_stats r !! "failed_extractions" = None) /\
  failed_urls r = remove_all (recovered (trace m)) (failed_urls r1) /\
  drop (length (identifiers r1)) (identifiers r) = found (trace m).
Proof.
  intros Hrun Hp1.
  destruct (bibliography_summary _ _ _ _ _ _ _ Hrun)
    as (r1' & Hp1' & Hids & Hfailed & Hcounts & _ & Hlen & _).
  assert (r1' = r1) as -> by congruence.
  destruct (add_counts_lookup _ _ _ Hcounts) as [_ Hother].
  assert (Hs : extraction_stats r !! "successful_extractions"
               = Nat.iter (length (recovered (trace m))) bump_stats
                   (extraction_stats r1) !! "successful_extractions").
  { apply Hother. intros t.
    pose proof (count_key_not_extractions t) as [? ?]. congruence. }
  assert (Hf : extraction_stats r !! "failed_extractions"
               = Nat.iter (length (recovered (trace m))) bump_stats
                   (extraction_stats r1) !! "failed_extractions").
  { apply Hother. intros t.
    pose proof (count_key_not_extractions t) as [? ?]. congruence. }
  rewrite Hs, Hf. split; [|split; [|split]].
  - intros Hnone. rewrite (iter_bump_stats_absent _ _ Hnone). auto.
  - intros s Hsome Hnone. now apply iter_bump_stats_half.
  - exact Hfailed.
  - rewrite Hids.
    assert (Hlen' : length (validated use_api use_metapub (identifiers r1)
                              (scores (trace m)))
                    = length (identifiers r1)).
    { symmetry. eapply Forall2_length, validated_raised, Hlen. }
    rewrite <- Hlen'. apply drop_app_length.
Qed.

(** X6.  The lists and the counters move together.  In a batch call that
    returns, [failed_urls] lost exactly as many entries as URLs were
    recovered and [identifiers] gained exactly the found identifiers; so if
    Phase 1 left [failed_extractions] equal to [len(failed_urls)] (and the
    [successful_extractions] entry exists), it is still equal to
    [len(failed_urls)] at the end. *)
Theorem failed_extractions_tracks_failed_urls (urls : list string)
    (use_web_scraping use_api use_metapub : bool) (w : World)
    (r r1 : IdentifierExtractionResult) (m : Machine) :
  run (extract_identifiers_from_bibliography urls use_web_scraping use_api
         use_metapub) w = (inr r, m) ->
  phase1_result (trace m) = Some r1 ->
  (length (failed_urls r) + length (recovered (trace m))
   = length (failed_urls r1))%nat /\
  (length (identifiers r)
   = length (identifiers r1) + length (found (trace m)))%nat /\
  (is_Some (extraction_stats r1 !! "successful_extractions") ->
   extraction_stats r1 !! "failed_extractions"
     = Some (Z.of_nat (length (failed_urls r1))) ->
   extraction_stats r !! "failed_extractions"
     = Some (Z.of_nat (length (failed_urls r)))).
Proof.
  intros Hrun Hp1.
  destruct (bibliography_summary _ _ _ _ _ _ _ Hrun)
    as (r1' & Hp1' & Hids & Hfailed & Hcounts & Hsub & Hlen & _).
  assert (r1' = r1) as -> by congruence.
  pose proof (remove_all_perm _ _ (sublist_submseteq _ _ Hsub)) as Hperm.
  rewrite <- Hfailed in Hperm.
  apply Permutation_length in Hperm. rewrite length_app in Hperm.
  split; [lia|]. split.
  - rewrite Hids, length_app. f_equal.
    symmetry. eapply Forall2_length, validated_raised, Hlen.
  - intros [s Hs] Hf.
    destruct (iter_bump_stats_present (length (recovered (trace m))) _ _ _
                Hs Hf) as [_ Hf'].
    destruct (add_counts_lookup _ _ _ Hcounts) as [_ Hother].
    rewrite Hother.
    + rewrite Hf'. f_equal. lia.
    + intros t. pose proof (count_key_not_extractions t) as [? ?]. congruence.
Qed.

(** X7.  A Phase 2 that recovers nothing changes nothing.  In a batch call
    that returns and in which no Phase 2 attempt yielded an identifier
    (every attempt raised or returned an empty list, or Phase 2 did not
    run), the result is the Phase 1 result with the merged confidences,
    statistics and failed URLs untouched; with both validation flags off it
    is the Phase 1 result itself. *)
Theorem phase2_without_recovery_is_identity (urls : list string)
    (use_web_scraping use_api use_metapub : bool) (w : World)
    (r r1 : IdentifierExtractionResult) (m : Machine) :
  run (extract_identifiers_from_bibliography urls use_web_scraping use_api
         use_metapub) w = (inr r, m) ->
  phase1_result (trace m) = Some r1 ->
  recovered (trace m) = [] ->
  r = set_identifiers r1
        (validated use_api use_metapub (identifiers r1) (scores (trace m))) /\
  (use_api || use_metapub = false -> r = r1).
Proof.
  intros Hrun Hp1 Hnone.
  destruct (bibliography_summary _ _ _ _ _ _ _ Hrun)
    as (r1' & Hp1' & Hids & Hfailed & Hcounts & _).
  assert (r1' = r1) as -> by congruence.
  rewrite Hnone, (recovered_nil_found _ Hnone) in *. simpl in Hcounts.
  rewrite app_nil_r in Hids. injection Hcounts as Hstats.
  assert (Heq : r = set_identifiers r1
                      (validated use_api use_metapub (identifiers r1)
                         (scores (trace m)))).
  { destruct r as [ids failed stats]. simpl in *. subst.
    reflexivity. }
  split; [exact Heq|].
  intros Hoff. rewrite Heq. unfold validated. rewrite Hoff.
  apply set_identifiers_same.
Qed.

(** X8.  The batch call neither adds nor removes an entry of
    [extraction_stats], and changes no entry but the five counters: in a
    call that returns, the keys of the statistics are those Phase 1 left,
    and every entry under another key has the value Phase 1 gave it. *)
Theorem extraction_stats_entries_are_stable (urls : list string)
    (use_web_scraping use_api use_metapub : bool) (w : World)
    (r r1 : IdentifierExtractionResult) (m : Machine) :
  run (extract_identifiers_from_bibliography urls use_web_scraping use_api
         use_metapub) w = (inr r, m) ->
  phase1_result (trace m) = Some r1 ->
  dom (extraction_stats r) = dom (extraction_stats r1) /\
  forall k : string,
    k <> "successful_extractions" -> k <> "failed_extractions" ->
    (forall t, k <> count_key t) ->
    extraction_stats r !! k = extraction_stats r1 !! k.
Proof.
  intros Hrun Hp1.
  destruct (bibliography_summary _ _ _ _ _ _ _ Hrun)
    as (r1' & Hp1' & _ & _ & Hcounts & _).
  assert (r1' = r1) as -> by congruence.
  split.
  - rewrite (add_counts_dom _ _ _ Hcounts).
    generalize (length (recovered (trace m))) as n.
    induction n as [|n IH]; simpl; [reflexivity|].
    now rewrite bump_stats_dom.
  - intros k Hs Hf Hk.
    destruct (add_counts_lookup _ _ _ Hcounts) as [_ Hother].
    rewrite (Hother k Hk). now apply iter_bump_stats_other.
Qed.

End StatisticsEdges.

(** ** The failed URLs that remain *)

Section RemainingUrls.

Context `{C : Collaborators}.

Lemma remove_first_sublist (x : string) (l : list string) :
  sublist (remove_first x l) l.
Proof.
  induction l as [|y l IH]; simpl; [constructor|].
  destruct (decide (x = y)); [now apply sublist_cons|now apply sublist_skip].
Qed.

Lemma remove_all_sublist (successful failed : list string) :
  sublist (remove_all successful failed) failed.
Proof.
  revert failed. induction successful as [|x successful IH]; intros failed.
  - reflexivity.
  - change (remove_all (x :: successful) failed)
      with (remove_all successful (remove_first x failed)).
    etransitivity; [apply IH|apply remove_first_sublist].
Qed.

Lemma filter_other_absent (x : string) (l : list string) :
  x ∉ l -> filter (fun u => u <> x) l = l.
Proof.
  induction l as [|y l IH]; [reflexivity|].
  intros Hx. apply not_elem_of_cons in Hx as [Hne Hx].
  rewrite filter_cons_True by congruence. now rewrite IH.
Qed.

(** On a list without duplicates, [list.remove] removes every occurrence. *)
Lemma remove_first_filter (x : string) (l : list string) :
  NoDup l -> remove_first x l = filter (fun u => u <> x) l.
Proof.
  induction 1 as [|y l Hy Hl IH]; simpl; [reflexivity|].
  destruct (decide (x = y)) as [->|Hne].
  - rewrite filter_cons_False by auto. now rewrite filter_other_absent.
  - rewrite filter_cons_True by congruence. now rewrite IH.
Qed.

Lemma remove_all_filter (successful failed : list string) :
  NoDup failed ->
  remove_all successful failed = filter (fun u => u ∉ successful) failed.
Proof.
  revert failed. induction successful as [|x successful IH]; intros failed Hnd.
  - simpl. induction failed as [|y failed IHf]; [reflexivity|].
    rewrite filter_cons_True by apply not_elem_of_nil.
    f_equal. apply IHf. now apply NoDup_cons in Hnd as [_ ?].
  - change (remove_all (x :: successful) failed)
      with (remove_all successful (remove_first x failed)).
    rewrite (remove_first_filter x failed Hnd).
    rewrite IH by now apply NoDup_filter.
    rewrite list_filter_filter. apply list_filter_iff.
    intros u. rewrite not_elem_of_cons. tauto.
Qed.

(** X9.  The failed URLs that remain keep their order.  In a batch call that
    returns, [failed_urls] is a sublist of the Phase 1 [failed_urls]: the
    removals of lines 91-93 never reorder it nor add to it.  When Phase 1
    listed every failed URL once, what remains is exactly the Phase 1 list
    without the recovered URLs. *)
Theorem remaining_failed_urls_keep_their_order (urls : list string)
    (use_web_scraping use_api use_metapub : bool) (w : World)
    (r r1 : IdentifierExtractionResult) (m : Machine) :
  run (extract_identifiers_from_bibliography urls use_web_scraping use_api
         use_metapub) w = (inr r, m) ->
  phase1_result (trace m) = Some r1 ->
  sublist (failed_urls r) (failed_urls r1) /\
  sublist (recovered (trace m)) (failed_urls r1) /\
  (NoDup (failed_urls r1) ->
   failed_urls r
     = filter (fun url => url ∉ recovered (trace m)) (failed_urls r1)).
Proof.
  intros Hrun Hp1.
  destruct (bibliography_summary _ _ _ _ _ _ _ Hrun)
    as (r1' & Hp1' & _ & Hfailed & _ & Hsub & _).
  assert (r1' = r1) as -> by congruence.
  rewrite Hfailed. split; [apply remove_all_sublist|].
  split; [exact Hsub|]. apply remove_all_filter.
Qed.

End RemainingUrls.

(** ** The merge of two confidences *)

Section MergeEdges.

Lemma SFcompare_refl_Eq (x : spec_float) :
  x <> S754_nan -> SFcompare x x = Some Eq.
Proof.
  destruct x as [sx|sx| |sx mx ex]; simpl; try congruence.
  - now destruct sx.
  - intros _. rewrite Z.compare_refl.
    change (PosDef.Pos.compare_cont Eq mx mx) with (Pos.compare mx mx).
    rewrite Pos.compare_refl. now destruct sx.
Qed.

Lemma is_nan_Prim2SF (a : float) :
  PrimFloat.is_nan a = true -> Prim2SF a = S754_nan.
Proof.
  unfold PrimFloat.is_nan. rewrite FloatAxioms.eqb_spec. unfold SFeqb.
  destruct (Prim2SF a) as [s|s| |s mx ex] eqn:E; [| |reflexivity|];
    rewrite SFcompare_refl_Eq by discriminate; discriminate.
Qed.

(** NaN is not less than anything, and nothing is less than NaN. *)
Lemma ltb_nan (a b : float) :
  PrimFloat.is_nan a = true \/ PrimFloat.is_nan b = true ->
  PrimFloat.ltb a b = false.
Proof.
  rewrite ltb_spec. unfold SFltb. intros [H|H]; apply is_nan_Prim2SF in H;
    rewrite H.
  - reflexivity.
  - now destruct (Prim2SF a).
Qed.

Lemma set_confidence_same (identifier : AcademicIdentifier) :
  set_confidence identifier (confidence identifier) = identifier.
Proof. now destruct identifier. Qed.

Lemma py_max_idempotent (a b : float) : py_max (py_max a b) b = py_max a b.
Proof.
  unfold py_max. destruct (PrimFloat.ltb a b) eqn:E.
  - now rewrite ltb_irrefl.
  - now rewrite E.
Qed.

(** X10.  The merge of lines 60 and 143 at its edges.  A score that is not
    strictly greater than the confidence leaves the identifier exactly as it
    is, and so does a NaN on either side: a NaN score is ignored and a NaN
    confidence is never replaced.  Merging the same score a second time
    changes nothing.  A strictly greater score becomes the confidence. *)
Theorem merge_confidence_edges (identifier : AcademicIdentifier)
    (score : float) :
  (PrimFloat.ltb (confidence identifier) score = false ->
   merge_confidence identifier score = identifier) /\
  (PrimFloat.is_nan score = true \/
   PrimFloat.is_nan (confidence identifier) = true ->
   merge_confidence identifier score = identifier) /\
  merge_confidence (merge_confidence identifier score) score
    = merge_confidence identifier score /\
  (PrimFloat.ltb (confidence identifier) score = true ->
   confidence (merge_confidence identifier score) = score).
Proof.
  assert (Hkeep : PrimFloat.ltb (confidence identifier) score = false ->
                  merge_confidence identifier score = identifier).
  { intros H. unfold merge_confidence, py_max. rewrite H.
    apply set_confidence_same. }
  split; [exact Hkeep|]. split; [|split].
  - intros H. apply Hkeep, ltb_nan. tauto.
  - unfold merge_confidence, set_confidence. simpl.
    now rewrite py_max_idempotent.
  - intros H. unfold merge_confidence, py_max. simpl. now rewrite H.
Qed.

Lemma zip_with_merge_range (P : float -> Prop)
    (ids : list AcademicIdentifier) (given : list float) :
  Forall (fun i => P (confidence i)) ids -> Forall P given ->
  Forall (fun i => P (confidence i)) (zip_with merge_confidence ids given).
Proof.
  intros Hids. revert given.
  induction Hids as [|i ids Hi _ IH]; intros [|score given] Hgiven; simpl;
    try constructor.
  - apply Forall_cons in Hgiven as [Hs _].
    unfold merge_confidence, py_max. simpl.
    destruct (PrimFloat.ltb (confidence i) score); assumption.
  - apply IH. now apply Forall_cons in Hgiven as [_ ?].
Qed.

Lemma validated_range (P : float -> Prop) (use_api use_metapub : bool)
    (ids : list AcademicIdentifier) (given : list float) :
  Forall (fun i => P (confidence i)) ids -> Forall P given ->
  Forall (fun i => P (confidence i)) (validated use_api use_metapub ids given).
Proof.
  intros Hids Hgiven. unfold validated. destruct (use_api || use_metapub).
  - now apply zip_with_merge_range.
  - exact Hids.
Qed.

End MergeEdges.

(** ** Where a confidence comes from *)

Section ConfidenceRange.

Context `{C : Collaborators}.

(** Lines 130-145 when the call returns: the Pattern Extractor's identifiers
    with the confidences merged when line 134 holds. *)
Lemma url_call_returned (url : string) (use_api use_metapub : bool)
    (w : World) (ids : list AcademicIdentifier) (m : Machine) :
  run (extract_identifiers_from_url url use_api use_metapub) w = (inr ids, m) ->
  exists ids1 : list AcademicIdentifier,
    phase1_identifiers (trace m) = Some ids1 /\
    ids = (if (use_api || use_metapub) && truthy ids1
           then zip_with merge_confidence ids1 (scores (trace m)) else ids1) /\
    ((use_api || use_metapub) && truthy ids1 = true ->
     length (scores (trace m)) = length ids1).
Proof.
  intros Hrun.
  destruct (JournalURLExtractor_init w) as [[e|extractor] w1] eqn:Hinit.
  { rewrite (url_call_no_extractor _ _ _ _ _ _ Hinit) in Hrun. discriminate. }
  destruct (JournalURLExtractor_extract_from_url extractor url w1)
    as [[e|ids1] w2] eqn:Hext.
  { rewrite (url_call_unvalidated _ _ _ _ _ _ _ _ Hinit Hext I) in Hrun.
    discriminate. }
  destruct ((use_api || use_metapub) && truthy ids1) eqn:Hcond.
  - destruct (url_call_validated _ _ _ _ _ _ _ _ Hinit Hext Hcond)
      as (o & w3 & outv & tq & Heq & _ & Hok).
    rewrite Heq in Hrun. injection Hrun as -> <-. simpl.
    exists ids1. rewrite Hcond. destruct (Hok ids eq_refl) as (-> & Hlen).
    auto.
  - rewrite (url_call_unvalidated _ _ _ _ _ _ _ (inr ids1) Hinit Hext Hcond)
      in Hrun.
    injection Hrun as <- <-. simpl. exists ids1. rewrite Hcond.
    split; [reflexivity|]. split; [reflexivity|discriminate].
Qed.

(** X11.  The calls invent no confidence.  Every confidence in what a batch
    call or a single-URL call returns is one an extractor assigned or a
    score the validator returned: whatever holds of all of those (lying in
    a range, say) holds of every confidence in the result. *)
Theorem confidences_come_from_the_collaborators (P : float -> Prop) :
  (forall (urls : list string) (use_web_scraping use_api use_metapub : bool)
          (w : World) (r r1 : IdentifierExtractionResult) (m : Machine),
      run (extract_identifiers_from_bibliography urls use_web_scraping use_api
             use_metapub) w = (inr r, m) ->
      phase1_result (trace m) = Some r1 ->
      Forall (fun i => P (confidence i)) (identifiers r1) ->
      Forall P (scores (trace m)) ->
      Forall (fun i => P (confidence i)) (found (trace m)) ->
      Forall (fun i => P (confidence i)) (identifiers r)) /\
  (forall (url : string) (use_api use_metapub : bool) (w : World)
          (ids ids1 : list AcademicIdentifier) (m : Machine),
      run (extract_identifiers_from_url url use_api use_metapub) w
        = (inr ids, m) ->
      phase1_identifiers (trace m) = Some ids1 ->
      Forall (fun i => P (confidence i)) ids1 ->
      Forall P (scores (trace m)) ->
      Forall (fun i => P (confidence i)) ids).
Proof.
  split.
  - intros urls ws a b w r r1 m Hrun Hp1 Hids Hscores Hfound.
    destruct (bibliography_summary _ _ _ _ _ _ _ Hrun)
      as (r1' & Hp1' & -> & _).
    assert (r1' = r1) as -> by congruence.
    apply Forall_app. split; [|exact Hfound].
    now apply validated_range.
  - intros url a b w ids ids1 m Hrun Hp1 Hids Hscores.
    destruct (url_call_returned _ _ _ _ _ _ Hrun) as (ids1' & Hp1' & -> & _).
    assert (ids1' = ids1) as -> by congruence.
    destruct ((a || b) && truthy ids1); [|exact Hids].
    now apply zip_with_merge_range.
Qed.

End ConfidenceRange.

(** ** The calls a batch makes *)

Section Calls.

Context `{C : Collaborators}.

Lemma attempt_trace_events (url : string) (t : list Event) :
  attempt_trace url t ->
  Forall (fun ev => is_attempt_event ev = true) t /\
  (1 <= length t <= 2)%nat.
Proof. destruct 1; simpl; split; try lia; repeat constructor. Qed.

Lemma sweep_trace_attempts (urls : list string) (ts : list Event) :
  sweep_trace urls ts ->
  Forall (fun ev => is_attempt_event ev = true) ts /\
  (length urls <= length ts <= 2 * length urls)%nat.
Proof.
  induction 1 as [|url urls t ts Ht _ (IH & IHlen)]; simpl.
  - split; [constructor|lia].
  - destruct (attempt_trace_events _ _ Ht) as (Hev & Hlen).
    rewrite length_app. split; [|lia]. apply Forall_app. auto.
Qed.

(** Lines 49-60, whatever they come to: no call when both flags are off,
    else the construction of the validator and, when it succeeds, at most
    one score query per identifier. *)
Lemma validation_step_calls {L} (use_api use_metapub : bool)
    (r : IdentifierExtractionResult) (s : L * Machine) :
  exists (o : Outcome IdentifierExtractionResult) (w : World) (tv : list Event),
    validation_step use_api use_metapub r s
      = (o, (fst s, {| world := w; trace := trace (snd s) ++ tv |})) /\
    Forall (fun ev => is_validator_event ev = true) tv /\
    (use_api || use_metapub = false -> tv = []) /\
    (use_api || use_metapub = true ->
     exists (out : Outcome CompositeValidator) (tq : list Event),
       tv = EvCompositeValidator use_api use_metapub out :: tq /\
       (length tq <= length (identifiers r))%nat /\
       forall e, out = inl e -> tq = [] /\ o = inl e) /\
    forall r', o = inr r' -> failed_urls r' = failed_urls r.
Proof.
  destruct s as [l m]. unfold validation_step.
  destruct (use_api || use_metapub) eqn:Hflags.
  - unfold bind at 1, call at 1. simpl.
    destruct (CompositeValidator_init use_api use_metapub (world m))
      as [[e|validator] w1].
    + exists (inl e), w1, [EvCompositeValidator use_api use_metapub (inl e)].
      split; [reflexivity|]. split; [repeat constructor|].
      split; [discriminate|]. split; [|discriminate].
      intros _. exists (inl e), []. split; [reflexivity|].
      split; [simpl; lia|]. now intros e' [= <-].
    + unfold bind at 1.
      match goal with
      | |- context [for_each_update _ _ ?s] =>
          destruct (validation_loop_stops validator (identifiers r) s)
            as (o & w & tq & -> & Hq & _ & Hbound & _)
      end.
      simpl in *.
      exists (match o with
              | inl e => inl e
              | inr ids => inr (set_identifiers r ids)
              end), w,
        (EvCompositeValidator use_api use_metapub (inr validator) :: tq).
      split; [destruct o; unfold ret; rewrite <- app_assoc; reflexivity|].
      split.
      { constructor; [reflexivity|].
        eapply Forall_impl; [exact Hq|]. now intros ev (ty & v & out & ->). }
      split; [discriminate|]. split.
      * intros _. exists (inr validator), tq. split; [reflexivity|].
        split; [exact Hbound|discriminate].
      * intros r'. destruct o as [e|ids]; [discriminate|]. now intros [= <-].
  - exists (inr r), (world m), []. simpl. rewrite app_nil_r. destruct m.
    split; [reflexivity|]. split; [constructor|]. split; [reflexivity|].
    split; [discriminate|]. now intros r' [= <-].
Qed.

(** Lines 63-105, whatever they come to: no call when Phase 2 is off or
    nothing failed; else the Page Scraper is constructed, then the PDF
    extractor, and only then the failed URLs are swept. *)
Lemma phase2_step_calls {L} (use_web_scraping : bool)
    (r : IdentifierExtractionResult) (s : L * Machine) :
  exists (o : Outcome IdentifierExtractionResult) (w : World) (t2 : list Event),
    phase2_step use_web_scraping r s
      = (o, (fst s, {| world := w; trace := trace (snd s) ++ t2 |})) /\
    (t2 = [] \/
     use_web_scraping && truthy (failed_urls r) = true /\
     ((exists e, t2 = [EvWebScrapingExtractor (inl e)] /\ o = inl e) \/
      (exists web e,
          t2 = [EvWebScrapingExtractor (inr web); EvPDFExtractor (inl e)] /\
          o = inl e) \/
      (exists web pdf ts,
          t2 = EvWebScrapingExtractor (inr web) :: EvPDFExtractor (inr pdf)
               :: ts /\
          sweep_trace (failed_urls r) ts))).
Proof.
  destruct (use_web_scraping && truthy (failed_urls r)) eqn:Hp2.
  2:{ rewrite phase2_step_skipped by exact Hp2.
      exists (inr r), (world (snd s)), []. rewrite app_nil_r.
      destruct s as [l [w t]]. simpl. auto. }
  apply andb_true_iff in Hp2 as [-> Hfailed].
  destruct (WebScrapingExtractor_init (world (snd s))) as [[e|web] w1] eqn:Hweb.
  { exists (inl e), w1, [EvWebScrapingExtractor (inl e)]. split.
    - unfold phase2_step. simpl. rewrite Hfailed.
      unfold bind at 1, call at 1. rewrite Hweb. reflexivity.
    - right. split; [reflexivity|]. left. eauto. }
  destruct (PDFExtractor_init w1) as [[e|pdf] w2] eqn:Hpdf.
  { exists (inl e), w2,
      [EvWebScrapingExtractor (inr web); EvPDFExtractor (inl e)]. split.
    - unfold phase2_step. simpl. rewrite Hfailed.
      unfold bind at 1, call at 1. rewrite Hweb.
      unfold bind at 1, call at 1. simpl. rewrite Hpdf.
      rewrite <- app_assoc. reflexivity.
    - right. split; [reflexivity|]. right. left. eauto. }
  destruct (phase2_step_run r s web pdf w1 w2 Hfailed Hweb Hpdf)
    as (w & ts & Hts & _ & ->).
  eexists _, w, _. split; [reflexivity|].
  right. split; [reflexivity|]. right. right. eauto.
Qed.

(** Lines 11-107, whatever they come to: the calls made, by stage. *)
Lemma bibliography_calls (urls : list string)
    (use_web_scraping use_api use_metapub : bool) (w : World) :
  exists (o : Outcome IdentifierExtractionResult) (m : Machine),
    run (extract_identifiers_from_bibliography urls use_web_scraping use_api
           use_metapub) w = (o, m) /\
    ((exists e, trace m = [EvJournalURLExtractor (inl e)] /\ o = inl e) \/
     (exists extractor e,
         trace m = [EvJournalURLExtractor (inr extractor);
                    EvExtractFromUrls urls (inl e)] /\ o = inl e) \/
     (exists extractor r1 tv t2,
         trace m = EvJournalURLExtractor (inr extractor)
                   :: EvExtractFromUrls urls (inr r1) :: tv ++ t2 /\
         Forall (fun ev => is_validator_event ev = true) tv /\
         (use_api || use_metapub = false -> tv = []) /\
         (use_api || use_metapub = true ->
          exists (out : Outcome CompositeValidator) (tq : list Event),
            tv = EvCompositeValidator use_api use_metapub out :: tq /\
            (length tq <= length (identifiers r1))%nat /\
            forall e, out = inl e -> tq = [] /\ t2 = [] /\ o = inl e) /\
         (t2 = [] \/
          use_web_scraping && truthy (failed_urls r1) = true /\
          ((exists e, t2 = [EvWebScrapingExtractor (inl e)] /\ o = inl e) \/
           (exists web e,
               t2 = [EvWebScrapingExtractor (inr web);
                     EvPDFExtractor (inl e)] /\
               o = inl e) \/
           (exists web pdf ts,
               t2 = EvWebScrapingExtractor (inr web)
                    :: EvPDFExtractor (inr pdf) :: ts /\
               sweep_trace (failed_urls r1) ts))))).
Proof.
  unfold run, extract_identifiers_from_bibliography.
  unfold bind at 1, call at 1. simpl.
  destruct (JournalURLExtractor_init w) as [[e|extractor] w1].
  { eexists _, _. split; [reflexivity|]. left. eauto. }
  unfold bind at 1, call at 1. simpl.
  destruct (JournalURLExtractor_extract_from_urls extractor urls w1)
    as [[e|r1] w2].
  { eexists _, _. split; [reflexivity|]. right. left. eauto. }
  unfold bind at 1.
  match goal with
  | |- context [validation_step _ _ _ ?s] =>
      destruct (validation_step_calls use_api use_metapub r1 s)
        as (o & w3 & tv & -> & Hval & Hoff & Hon & Hfailed)
  end.
  destruct o as [e|rv].
  { eexists _, _. split; [reflexivity|]. right. right. simpl.
    exists extractor, r1, tv, []. rewrite app_nil_r.
    split; [reflexivity|]. split; [exact Hval|]. split; [exact Hoff|].
    split; [|now left].
    intros Hflags. destruct (Hon Hflags) as (out & tq & -> & Hlen & Hout).
    exists out, tq. split; [reflexivity|]. split; [exact Hlen|].
    intros e' He'. destruct (Hout e' He') as (-> & Heq). auto. }
  match goal with
  | |- context [phase2_step _ _ ?s] =>
      destruct (phase2_step_calls use_web_scraping rv s)
        as (o & w4 & t2 & -> & Ht2)
  end.
  rewrite (Hfailed rv eq_refl) in Ht2.
  eexists _, _. split; [reflexivity|]. right. right. simpl.
  exists extractor, r1, tv, t2.
  split; [reflexivity|]. split; [exact Hval|]. split; [exact Hoff|].
  split; [|exact Ht2].
  intros Hflags. destruct (Hon Hflags) as (out & tq & -> & Hlen & Hout).
  exists out, tq. split; [reflexivity|]. split; [exact Hlen|].
  intros e' He'. destruct (Hout e' He') as (_ & [=]).
Qed.

End Calls.

(** ** How many calls, and which come first *)

Section CallCounts.

Context `{C : Collaborators}.

(** X12.  The number of collaborator calls is bounded by the flags and by
    what Phase 1 returned, whether the call returns or raises.  A batch
    call makes at most two calls when Phase 1 does not return; else two,
    plus one construction and one query per identifier when a validation
    flag is on, plus two constructions and two calls per failed URL when
    Phase 2 is on and a URL failed.  A single-URL call makes at most two
    calls, plus one construction and one query per identifier when a flag
    is on and the Pattern Extractor returned an identifier. *)
Theorem calls_are_bounded (urls : list string) (url : string)
    (use_web_scraping use_api use_metapub : bool) (w : World) :
  (exists (o : Outcome IdentifierExtractionResult) (m : Machine),
      run (extract_identifiers_from_bibliography urls use_web_scraping use_api
             use_metapub) w = (o, m) /\
      (length (trace m)
       <= match phase1_result (trace m) with
          | None => 2
          | Some r1 =>
              2 + (if use_api || use_metapub
                   then 1 + length (identifiers r1) else 0)
                + (if use_web_scraping && truthy (failed_urls r1)
                   then 2 + 2 * length (failed_urls r1) else 0)
          end)%nat) /\
  (exists (o : Outcome (list AcademicIdentifier)) (m : Machine),
      run (extract_identifiers_from_url url use_api use_metapub) w = (o, m) /\
      (length (trace m)
       <= match phase1_identifiers (trace m) with
          | None => 2
          | Some ids1 =>
              2 + (if (use_api || use_metapub) && truthy ids1
                   then 1 + length ids1 else 0)
          end)%nat).
Proof.
  split.
  - destruct (bibliography_calls urls use_web_scraping use_api use_metapub w)
      as (o & m & Hrun & Hshape).
    exists o, m. split; [exact Hrun|].
    destruct Hshape
      as [(e & -> & _)
         |[(x & e & -> & _)
          |(x & r1 & tv & t2 & -> & _ & Hoff & Hon & Ht2)]];
      [simpl; lia|simpl; lia|].
    cbn [phase1_result length]. rewrite length_app.
    assert (Htv : (length tv <= if use_api || use_metapub
                                then 1 + length (identifiers r1) else 0)%nat).
    { destruct (use_api || use_metapub).
      - destruct (Hon eq_refl) as (out & tq & -> & Hlen & _). simpl. lia.
      - rewrite (Hoff eq_refl). simpl. lia. }
    assert (Hlen2 : (length t2 <= if use_web_scraping
                                       && truthy (failed_urls r1)
                                  then 2 + 2 * length (failed_urls r1)
                                  else 0)%nat).
    { destruct Ht2 as [->|(-> & [(e & -> & _)
                                |[(web & e & -> & _)
                                 |(web & pdf & ts & -> & Hts)]])].
      - destruct (use_web_scraping && truthy (failed_urls r1)); simpl; lia.
      - simpl. lia.
      - simpl. lia.
      - apply sweep_trace_attempts in Hts as (_ & Hlen). simpl. lia. }
    lia.
  - unfold run, extract_identifiers_from_url.
    unfold bind at 1, call at 1. simpl.
    destruct (JournalURLExtractor_init w) as [[e|extractor] w1].
    { eexists _, _. split; [reflexivity|]. simpl. lia. }
    unfold bind at 1, call at 1. simpl.
    destruct (JournalURLExtractor_extract_from_url extractor url w1)
      as [[e|ids] w2].
    { eexists _, _. split; [reflexivity|]. simpl. lia. }
    destruct ((use_api || use_metapub) && truthy ids) eqn:Hcond.
    + unfold bind at 1, call at 1. simpl.
      destruct (CompositeValidator_init use_api use_metapub w2)
        as [[e|validator] w3].
      * eexists _, _. split; [reflexivity|]. simpl. rewrite Hcond. lia.
      * match goal with
        | |- context [for_each_update _ _ ?s] =>
            destruct (validation_loop_stops validator ids s)
              as (o & w4 & t & -> & _ & _ & Hbound & _)
        end.
        eexists _, _. split; [reflexivity|]. simpl. rewrite Hcond. lia.
    + eexists _, _. split; [reflexivity|]. simpl. rewrite Hcond. lia.
Qed.

(** X13.  A batch call constructs its collaborators before it knows whether
    it needs them.  With a validation flag on, the validator is constructed
    right after Phase 1 even when Phase 1 returned no identifier, and a
    construction that raises ends the call after three calls.  When the
    Page Scraper or the PDF extractor cannot be constructed the call raises
    that exception without having looked at a single failed URL: the PDF
    extractor is needed even when no failed URL is a PDF. *)
Theorem batch_constructs_collaborators_eagerly (urls : list string)
    (use_web_scraping use_api use_metapub : bool) (w : World) :
  exists (o : Outcome IdentifierExtractionResult) (m : Machine),
    run (extract_identifiers_from_bibliography urls use_web_scraping use_api
           use_metapub) w = (o, m) /\
    (forall r1, phase1_result (trace m) = Some r1 ->
       use_api || use_metapub = true ->
       exists out : Outcome CompositeValidator,
         trace m !! 2%nat = Some (EvCompositeValidator use_api use_metapub out)
         /\ forall e, out = inl e -> o = inl e /\ length (trace m) = 3%nat) /\
    (forall e,
       (EvWebScrapingExtractor (inl e) ∈ trace m) \/
       (EvPDFExtractor (inl e) ∈ trace m) ->
       o = inl e /\
       Forall (fun ev => is_attempt_event ev = false) (trace m)).
Proof.
  destruct (bibliography_calls urls use_web_scraping use_api use_metapub w)
    as (o & m & Hrun & Hshape).
  exists o, m. split; [exact Hrun|].
  destruct Hshape
    as [(e0 & -> & ->)
       |[(x & e0 & -> & ->)
        |(x & r1 & tv & t2 & -> & Hval & Hoff & Hon & Ht2)]].
  - split; [discriminate|].
    intros e [H|H]; apply list_elem_of_singleton in H; discriminate.
  - split; [discriminate|].
    intros e [H|H]; repeat (apply elem_of_cons in H as [H|H];
                            [discriminate|]);
      now apply elem_of_nil in H.
  - split.
    + intros r1' [= <-] Hflags.
      destruct (Hon Hflags) as (out & tq & -> & _ & Hout).
      exists out. split; [reflexivity|].
      intros e He. destruct (Hout e He) as (-> & -> & ->). auto.
    + destruct (validator_events_found tv Hval) as (_ & _ & Hnot).
      intros e He.
      assert (Hctor : exists ev, ev ∈ t2 /\
                        (ev = EvWebScrapingExtractor (inl e) \/
                         ev = EvPDFExtractor (inl e))).
      { rewrite Forall_forall in Hval.
        destruct He as [H|H];
          (apply elem_of_cons in H as [H|H]; [discriminate|]);
          (apply elem_of_cons in H as [H|H]; [discriminate|]);
          (apply elem_of_app in H as [H|H];
           [apply Hval in H; discriminate|]); eauto. }
      clear He. destruct Hctor as (ev & Hev & Hctor).
      destruct Ht2 as [->|(_ & [(e0 & -> & ->)
                               |[(web & e0 & -> & ->)
                                |(web & pdf & ts & -> & Hts)]])].
      * now apply elem_of_nil in Hev.
      * apply list_elem_of_singleton in Hev. subst ev.
        destruct Hctor as [[= ->]|[=]]. split; [reflexivity|].
        repeat (constructor; [reflexivity|]).
        apply Forall_app. split; [exact Hnot|]. repeat constructor.
      * apply elem_of_cons in Hev as [->|Hev];
          [destruct Hctor; discriminate|].
        apply list_elem_of_singleton in Hev. subst ev.
        destruct Hctor as [[=]|[= ->]]. split; [reflexivity|].
        repeat (constructor; [reflexivity|]).
        apply Forall_app. split; [exact Hnot|]. repeat constructor.
      * apply sweep_trace_attempts in Hts as (Hatt & _).
        rewrite Forall_forall in Hatt.
        apply elem_of_cons in Hev as [->|Hev];
          [destruct Hctor; discriminate|].
        apply elem_of_cons in Hev as [->|Hev];
          [destruct Hctor; discriminate|].
        apply Hatt in Hev. destruct Hctor as [-> | ->]; discriminate.
Qed.

End CallCounts.

(** ** Runs of the edge cases *)

Section LabRuns.

Example lab_missing_count :
  run (C:=Lab.collaborators Lab.no_pmc_count)
    (extract_identifiers_from_bibliography Stub.bibliography true true true) 0%nat
  = (inl (KeyError "pmc_count"), Lab.batch_machine Lab.no_pmc_count).
Proof. reflexivity. Qed.

Example lab_counts_only :
  run (C:=Lab.collaborators Lab.counts_only)
    (extract_identifiers_from_bibliography Stub.bibliography true true true) 0%nat
  = (inr Lab.counts_only_result, Lab.batch_machine Lab.counts_only).
Proof. reflexivity. Qed.

(** X3 under the statistics without [pmc_count]: the batch raises the
    KeyError of the PMC identifier the PDF extractor found. *)
Lemma batch_call_exceptions_witness :
  run (C:=Lab.collaborators Lab.no_pmc_count)
    (extract_identifiers_from_bibliography Stub.bibliography true true true) 0%nat
  = (inl (KeyError "pmc_count"), Lab.batch_machine Lab.no_pmc_count) /\
  ((exists (t' : list Event) (ev : Event),
       trace (Lab.batch_machine Lab.no_pmc_count) = t' ++ [ev] /\
       event_raised ev = Some (KeyError "pmc_count") /\
       is_attempt_event ev = false /\
       Forall (fun ev' => event_raised ev' = None) t') \/
   (exists (r1 : IdentifierExtractionResult) (identifier : AcademicIdentifier),
       phase1_result (trace (Lab.batch_machine Lab.no_pmc_count)) = Some r1 /\
       (identifier ∈ found (trace (Lab.batch_machine Lab.no_pmc_count))) /\
       KeyError "pmc_count" = KeyError (count_key (type identifier)) /\
       extraction_stats r1 !! count_key (type identifier) = None)).
Proof.
  split; [reflexivity|].
  apply (batch_call_exceptions (C:=Lab.collaborators Lab.no_pmc_count)
           Stub.bibliography true true true 0%nat (KeyError "pmc_count")
           (Lab.batch_machine Lab.no_pmc_count)).
  reflexivity.
Defined.

(** X4 on the Phase 2 of that batch. *)
Lemma missing_count_entry_raises_witness :
  exists (o : Outcome IdentifierExtractionResult) (w : nat)
         (ts : list (Event (C:=Lab.collaborators Lab.no_pmc_count))),
    phase2_step (C:=Lab.collaborators Lab.no_pmc_count) true
      (Lab.phase1 Lab.no_pmc_count) (Lab.before_phase2 Lab.no_pmc_count)
      = (o, Lab.after_phase2 Lab.no_pmc_count w ts) /\
    sweep_trace (failed_urls (Lab.phase1 Lab.no_pmc_count)) ts /\
    forall e : Exception,
      o = inl e <->
      exists ids1 identifier ids2,
        found ts = ids1 ++ identifier :: ids2 /\
        e = KeyError (count_key (type identifier)) /\
        Lab.no_pmc_count !! count_key (type identifier) = None /\
        Forall (fun i => is_Some (Lab.no_pmc_count !! count_key (type i))) ids1.
Proof.
  apply (missing_count_entry_raises (C:=Lab.collaborators Lab.no_pmc_count)
           (Lab.phase1 Lab.no_pmc_count)
           (Lab.before_phase2 Lab.no_pmc_count) tt tt 6%nat 7%nat);
    reflexivity.
Defined.

(** X5 under the statistics with the type counts only: two URLs were
    recovered and no extraction counter appeared. *)
Lemma missing_extraction_entries_are_silent_witness :
  run (C:=Lab.collaborators Lab.counts_only)
    (extract_identifiers_from_bibliography Stub.bibliography true true true) 0%nat
  = (inr Lab.counts_only_result, Lab.batch_machine Lab.counts_only) /\
  Lab.counts_only !! "successful_extractions" = None /\
  recovered (trace (Lab.batch_machine Lab.counts_only))
    = [Stub.repository_url; Stub.pdf_url] /\
  extraction_stats Lab.counts_only_result !! "successful_extractions" = None /\
  extraction_stats Lab.counts_only_result !! "failed_extractions" = None.
Proof.
  split; [reflexivity|]. split; [reflexivity|]. split; [reflexivity|].
  apply (proj1 (missing_extraction_entries_are_silent
                  (C:=Lab.collaborators Lab.counts_only)
                  Stub.bibliography true true true 0%nat Lab.counts_only_result
                  (Lab.phase1 Lab.counts_only)
                  (Lab.batch_machine Lab.counts_only) eq_refl eq_refl)).
  reflexivity.
Defined.

End LabRuns.

Section StubEdgeRuns.

Import Stub.

(** X6 on the stub batch: four failed URLs, two recovered, two left. *)
Lemma failed_extractions_tracks_failed_urls_witness :
  run (extract_identifiers_from_bibliography bibliography true true true)
    0%nat = (inr batch_result, batch_machine) /\
  (length (failed_urls batch_result) + length (recovered (trace batch_machine))
   = length (failed_urls phase1))%nat /\
  extraction_stats batch_result !! "failed_extractions"
    = Some (Z.of_nat (length (failed_urls batch_result))).
Proof.
  split; [reflexivity|].
  pose proof (failed_extractions_tracks_failed_urls (C:=collaborators)
                bibliography true true true 0%nat batch_result phase1
                batch_machine eq_refl eq_refl) as (H1 & _ & H2).
  split; [exact H1|]. apply H2; [eexists|]; reflexivity.
Defined.

(** X7 on a stub batch with every flag set in which Phase 2 attempts two
    URLs and recovers neither: one extraction raises, the other returns
    nothing. *)
Lemma phase2_without_recovery_is_identity_witness :
  run (extract_identifiers_from_bibliography Barren.bibliography true true
         true) 0%nat
  = (inr Barren.batch_result, Barren.batch_machine) /\
  phase2_trace true (failed_urls Barren.phase1)
    (drop 4 (trace Barren.batch_machine)) /\
  recovered (trace Barren.batch_machine) = [] /\
  Barren.batch_result
  = set_identifiers Barren.phase1
      (validated true true (identifiers Barren.phase1)
         (scores (trace Barren.batch_machine))).
Proof.
  split; [reflexivity|]. split.
  { apply (phase2_on (C:=collaborators) true _ tt tt); [reflexivity|].
    apply (sweep_next (C:=collaborators) unreachable_url [opaque_url]
             [_; _] [_; _]); [apply attempt_web|].
    apply (sweep_next (C:=collaborators) opaque_url [] [_; _] []);
      [apply attempt_web|].
    apply sweep_done. }
  split; [reflexivity|].
  apply (proj1 (phase2_without_recovery_is_identity (C:=collaborators)
                  Barren.bibliography true true true 0%nat
                  Barren.batch_result Barren.phase1 Barren.batch_machine
                  eq_refl eq_refl eq_refl)).
Defined.

(** X8 on the stub batch: the five entries of Phase 1 and no other. *)
Lemma extraction_stats_entries_are_stable_witness :
  run (extract_identifiers_from_bibliography bibliography true true true)
    0%nat = (inr batch_result, batch_machine) /\
  dom (extraction_stats batch_result) = dom (extraction_stats phase1).
Proof.
  split; [reflexivity|].
  apply (proj1 (extraction_stats_entries_are_stable (C:=collaborators)
                  bibliography true true true 0%nat batch_result phase1
                  batch_machine eq_refl eq_refl)).
Defined.

(** X9 on the stub batch: the unreachable URL still comes before the
    opaque one. *)
Lemma remaining_failed_urls_keep_their_order_witness :
  run (extract_identifiers_from_bibliography bibliography true true true)
    0%nat = (inr batch_result, batch_machine) /\
  sublist (failed_urls batch_result) (failed_urls phase1) /\
  sublist (recovered (trace batch_machine)) (failed_urls phase1).
Proof.
  split; [reflexivity|].
  pose proof (remaining_failed_urls_keep_their_order (C:=collaborators)
                bibliography true true true 0%nat batch_result phase1
                batch_machine eq_refl eq_refl) as (H1 & H2 & _).
  exact (conj H1 H2).
Defined.

(** X11 on the stub batch: the extractors and the validator stay within
    [0, 1], and so does the result. *)
Lemma confidences_come_from_the_collaborators_witness :
  run (extract_identifiers_from_bibliography bibliography true true true)
    0%nat = (inr batch_result, batch_machine) /\
  Forall (fun i => in_unit_interval (confidence i)) (identifiers batch_result).
Proof.
  split; [reflexivity|].
  apply (proj1 (confidences_come_from_the_collaborators (C:=collaborators)
                  in_unit_interval)
           bibliography true true true 0%nat batch_result phase1
           batch_machine eq_refl eq_refl);
    repeat constructor.
Defined.

(** X10 on the PubMed identifier of the stub: a NaN score leaves it as it
    is. *)
Lemma merge_confidence_edges_witness :
  merge_confidence (pubmed_id 0.5%float) PrimFloat.nan = pubmed_id 0.5%float.
Proof.
  apply (proj1 (proj2 (merge_confidence_edges (pubmed_id 0.5%float)
                         PrimFloat.nan))).
  left. reflexivity.
Defined.

End StubEdgeRuns.

(** ** Where the specification says more than the code does *)

Section Counterexamples.

(** C4 fails as stated.  The bibliography cites one page twice and the
    Page Scraper reads it once: Phase 1 lists the page twice in
    [failed_urls], Phase 2 attempts it twice and recovers it at the first
    attempt, and lines 91-93 remove one occurrence.  The page was recovered
    and is still in [failed_urls]. *)
Lemma recovered_url_remains_counterexample :
  run (C:=Flaky.collaborators)
    (extract_identifiers_from_bibliography Flaky.bibliography true false
       false) 0%nat
  = (inr Flaky.batch_result, Flaky.batch_machine) /\
  phase1_result (trace Flaky.batch_machine) = Some Flaky.phase1 /\
  failed_urls Flaky.phase1 = [Flaky.page_url; Flaky.page_url] /\
  recovered (trace Flaky.batch_machine) = [Flaky.page_url] /\
  (Flaky.page_url ∈ recovered (trace Flaky.batch_machine)) /\
  (Flaky.page_url ∈ failed_urls Flaky.batch_result).
Proof.
  split; [reflexivity|]. split; [reflexivity|]. split; [reflexivity|].
  split; [reflexivity|]. split; apply list_elem_of_singleton; reflexivity.
Qed.


End Counterexamples.
